(** * Emergency-ward coordination layer: a shallow embedding

    The development follows the Python sources of the repository:

    - [PyFormat]    the two integer renderings used to mint folios
                    ([str(n)] and the format specification [03d]);
    - [Models]      [backend/src/models.py] and the write endpoints of
                    [backend/src/routes/cluster_api.py];
    - [Entregable]  the socket based node ("Primer entregable.py", the
                    revision marked CORREGIDO): lock table, local
                    transactions and consensus propagation;
    - [EntregableAnterior]  the earlier revision of the same file, kept
                    for its lock acquisition routine;
    - [Discovery]   [backend/src/bully/discovery.py];
    - [IdGenerator] [backend/src/bully/id_generator.py];
    - [Escenarios]  sample states used by the examples.

    The properties, numbered C1 to C10, close the file.

    Python integers are [Z]; dictionaries are [gmap]; SQL tables whose
    row order matters are lists of records.  Clock readings are integers
    (ticks of the clock that [time.time()] / [datetime.now()] observe);
    network replies and clock readings are inputs of the functions that
    consume them. *)

From Stdlib Require Import ZArith String Ascii List Lia.
From stdpp Require Import base tactics option list gmap strings.

Local Open Scope Z_scope.

(* ===================================================================== *)
(** ** Integer formatting *)
(* ===================================================================== *)

Module PyFormat.

Definition digit_char (d : Z) : ascii := ascii_of_nat (48 + Z.to_nat d).

(** Decimal digits of a non-negative integer, most significant first.
    The recursion divides by ten; [fuel] bounds its depth. *)
Fixpoint str_digits (fuel : nat) (n : Z) : string :=
  match fuel with
  | O => EmptyString
  | S fuel' =>
      if n <? 10 then String (digit_char n) EmptyString
      else str_digits fuel' (n / 10) +:+ String (digit_char (n mod 10)) EmptyString
  end.

Definition str_nonneg (n : Z) : string :=
  str_digits (S (Z.to_nat (Z.log2 n))) n.

(** [str(n)], which is also what [f"{n}"] renders. *)
Definition py_str (n : Z) : string :=
  if n <? 0 then "-" +:+ str_nonneg (- n) else str_nonneg n.

Fixpoint zeros (k : nat) : string :=
  match k with
  | O => EmptyString
  | S k' => String "0"%char (zeros k')
  end.

(** Left padding with ['0'] up to [width] characters; longer strings are
    left alone. *)
Definition zfill (width : nat) (s : string) : string :=
  zeros (width - String.length s) +:+ s.

(** [f"{n:03d}"]: minimum field width 3, zero fill placed after the sign. *)
Definition format_03d (n : Z) : string :=
  if n <? 0 then "-" +:+ zfill 2 (str_nonneg (- n)) else zfill 3 (str_nonneg n).

Lemma length_append (s t : string) :
  String.length (s +:+ t) = (String.length s + String.length t)%nat.
Proof. induction s as [|c s IH]; simpl; [reflexivity | now rewrite IH]. Qed.

Lemma length_zeros (k : nat) : String.length (zeros k) = k.
Proof. induction k as [|k IH]; simpl; [reflexivity | now rewrite IH]. Qed.

Lemma length_zfill (w : nat) (s : string) :
  String.length (zfill w s) = Nat.max w (String.length s).
Proof. unfold zfill. rewrite length_append, length_zeros. lia. Qed.

Lemma zfill_long (w : nat) (s : string) :
  (w <= String.length s)%nat -> zfill w s = s.
Proof.
  intros H. unfold zfill. replace (w - String.length s)%nat with 0%nat by lia.
  reflexivity.
Qed.

Lemma length_digits_1 (fuel : nat) (n : Z) :
  n < 10 -> String.length (str_digits (S fuel) n) = 1%nat.
Proof. intros H. simpl. destruct (Z.ltb_spec n 10); [reflexivity | lia]. Qed.

Lemma length_digits_step (fuel : nat) (n : Z) :
  10 <= n ->
  String.length (str_digits (S fuel) n) = S (String.length (str_digits fuel (n / 10))).
Proof.
  intros H. simpl. destruct (Z.ltb_spec n 10); [lia |].
  rewrite length_append. simpl. lia.
Qed.

Lemma length_digits_pos (fuel : nat) (n : Z) :
  (1 <= String.length (str_digits (S fuel) n))%nat.
Proof.
  simpl. destruct (n <? 10); simpl; [lia |]. rewrite length_append. simpl. lia.
Qed.

Lemma log2_ge (k n : Z) : 0 <= k -> 2 ^ k <= n -> k <= Z.log2 n.
Proof.
  intros Hk H. apply Z.log2_le_pow2; [| exact H].
  assert (0 < 2 ^ k) by (apply Z.pow_pos_nonneg; lia). lia.
Qed.

(** Values below one thousand have at most three digits, all others at
    least four. *)
Lemma length_str_nonneg_small (n : Z) :
  0 <= n < 1000 -> (String.length (str_nonneg n) <= 3)%nat.
Proof.
  intros [H0 H1]. unfold str_nonneg.
  destruct (Z_lt_le_dec n 10) as [Ha|Ha].
  { rewrite length_digits_1 by lia. lia. }
  assert (3 <= Z.log2 n) by (apply log2_ge; simpl; lia).
  destruct (Z.to_nat (Z.log2 n)) as [|[|[|f]]] eqn:E; try lia.
  rewrite length_digits_step by lia.
  destruct (Z_lt_le_dec (n / 10) 10) as [Hb|Hb].
  { rewrite length_digits_1 by lia. lia. }
  rewrite length_digits_step by lia.
  rewrite length_digits_1; [lia |].
  apply Z.div_lt_upper_bound; [lia |]. apply Z.div_lt_upper_bound; lia.
Qed.

Lemma length_str_nonneg_large (n : Z) :
  1000 <= n -> (4 <= String.length (str_nonneg n))%nat.
Proof.
  intros H. unfold str_nonneg.
  assert (9 <= Z.log2 n) by (apply log2_ge; simpl; lia).
  destruct (Z.to_nat (Z.log2 n)) as [|[|[|[|f]]]] eqn:E; try lia.
  rewrite length_digits_step by lia.
  assert (100 <= n / 10) by (apply Z.div_le_lower_bound; lia).
  rewrite length_digits_step by lia.
  assert (10 <= n / 10 / 10) by (apply Z.div_le_lower_bound; lia).
  rewrite length_digits_step by lia.
  pose proof (length_digits_pos (S f) (n / 10 / 10 / 10)). lia.
Qed.

Lemma length_str_nonneg_pos (n : Z) : (1 <= String.length (str_nonneg n))%nat.
Proof. apply length_digits_pos. Qed.

Lemma length_format_03d (n : Z) :
  0 <= n ->
  String.length (format_03d n) = Nat.max 3 (String.length (str_nonneg n)).
Proof.
  intros H. unfold format_03d. destruct (Z.ltb_spec n 0); [lia |].
  apply length_zfill.
Qed.

End PyFormat.

(* ===================================================================== *)
(** ** The relational store and the leader write path *)
(* ===================================================================== *)

Module Models.
Import PyFormat.

(** *** Tables of [models.py] *)

Record Doctor := mkDoctor {
  doc_nombre : string;
  doc_id_sala : Z;
  disponible : bool;
  doc_activo : bool
}.

Record Cama := mkCama {
  numero : Z;
  cama_id_sala : Z;
  ocupada : bool;
  cama_id_paciente : option Z
}.

(** A visit as the ORM object holds it; [folio] is [None] until it is
    set, timestamps are clock readings. *)
Record VisitaEmergencia := mkVisita {
  id_visita : Z;
  folio : option string;
  id_paciente : Z;
  id_doctor : Z;
  id_cama : Z;
  id_trabajador : Z;
  id_sala : Z;
  sintomas : string;
  diagnostico : option string;
  estado : string;
  timestamp : Z;
  fecha_cierre : option Z
}.

Record Consecutivo := mkConsecutivo {
  c_id : Z;
  c_id_sala : Z;
  fecha : Z;
  consecutivo : Z
}.

(** The per-node database. [DOCTORES], [CAMAS], [PACIENTES] and
    [TRABAJADORES_SOCIALES] are read by primary key only; the rows of
    [VISITAS_EMERGENCIA] and [CONSECUTIVOS] are kept in insertion order. *)
Record Database := mkDatabase {
  doctores : gmap Z Doctor;
  camas : gmap Z Cama;
  pacientes : gset Z;
  trabajadores : gset Z;
  visitas : list VisitaEmergencia;
  consecutivos : list Consecutivo
}.

Definition set_disponible (b : bool) (d : Doctor) : Doctor :=
  mkDoctor (doc_nombre d) (doc_id_sala d) b (doc_activo d).

Definition set_ocupada (b : bool) (p : option Z) (c : Cama) : Cama :=
  mkCama (numero c) (cama_id_sala c) b p.

Definition set_folio (f : option string) (v : VisitaEmergencia) : VisitaEmergencia :=
  mkVisita (id_visita v) f (id_paciente v) (id_doctor v) (id_cama v)
    (id_trabajador v) (id_sala v) (sintomas v) (diagnostico v) (estado v)
    (timestamp v) (fecha_cierre v).

Definition set_id_visita (i : Z) (v : VisitaEmergencia) : VisitaEmergencia :=
  mkVisita i (folio v) (id_paciente v) (id_doctor v) (id_cama v)
    (id_trabajador v) (id_sala v) (sintomas v) (diagnostico v) (estado v)
    (timestamp v) (fecha_cierre v).

Definition set_consecutivo (n : Z) (c : Consecutivo) : Consecutivo :=
  mkConsecutivo (c_id c) (c_id_sala c) (fecha c) n.

(** *** [get_next_consecutivo] *)

(** [filter_by(id_sala=id_sala, fecha=hoy)] *)
Definition consecutivo_matches (sala hoy : Z) (c : Consecutivo) : bool :=
  (c_id_sala c =? sala) && (fecha c =? hoy).

(** The [else] branch: the first matching row is incremented in place and
    its new value returned; [None] when [.first()] finds no row. *)
Fixpoint increment_first (sala hoy : Z) (rows : list Consecutivo)
  : option (Z * list Consecutivo) :=
  match rows with
  | [] => None
  | c :: rest =>
      if consecutivo_matches sala hoy c then
        Some (consecutivo c + 1, set_consecutivo (consecutivo c + 1) c :: rest)
      else
        match increment_first sala hoy rest with
        | Some (n, rest') => Some (n, c :: rest')
        | None => None
        end
  end.

Definition next_c_id (rows : list Consecutivo) : Z :=
  1 + fold_right Z.max 0 (map c_id rows).

(** *** The session *)

Inductive exn :=
| IntegrityError
| InvalidRequestError
| UnsupportedMediaType
| BadRequest
| KeyError (key : string).

Inductive result (A : Type) :=
| Ok (a : A)
| Raise (e : exn).
Arguments Ok {A} a.
Arguments Raise {A} e.

(** [db.session.flush()]. A session that is in the middle of a flush
    refuses a second one: InvalidRequestError, 'Session is already
    flushing'. [flushing] tells whether the call comes from inside a
    flush, as the calls made by a mapper event do. *)
Definition flush (flushing : bool) : result unit :=
  if flushing then Raise InvalidRequestError else Ok tt.

(** [hoy] is the date that [datetime.utcnow().date()] reads. Both
    branches end with [db.session.flush()] before they return; when it
    raises, the rows are what the rollback of the caller leaves: the ones
    before the call. *)
Definition get_next_consecutivo (flushing : bool) (sala hoy : Z)
  (rows : list Consecutivo) : result (Z * list Consecutivo) :=
  match increment_first sala hoy rows with
  | None =>
      let rows' := rows ++ [mkConsecutivo (next_c_id rows) sala hoy 1] in
      match flush flushing with
      | Ok _ => Ok (1, rows')
      | Raise e => Raise e
      end
  | Some (n, rows') =>
      match flush flushing with
      | Ok _ => Ok (n, rows')
      | Raise e => Raise e
      end
  end.

(** *** The [before_insert] listener *)

(** Truth value of [target.folio]: [None] and the empty string are false. *)
Definition folio_set (f : option string) : bool :=
  match f with
  | Some s => negb (String.eqb s "")
  | None => false
  end.

Definition folio_text (paciente doctor sala n : Z) : string :=
  py_str paciente +:+ "+" +:+ py_str doctor +:+ "+" +:+ py_str sala +:+ "+"
    +:+ format_03d n.

(** The listener; [flushing] is the state of the session it is called
    in. *)
Definition generate_folio (flushing : bool) (hoy : Z) (target : VisitaEmergencia)
  (rows : list Consecutivo) : result (VisitaEmergencia * list Consecutivo) :=
  if folio_set (folio target) then Ok (target, rows)
  else
    match get_next_consecutivo flushing (id_sala target) hoy rows with
    | Ok (n, rows') =>
        Ok (set_folio
              (Some (folio_text (id_paciente target) (id_doctor target) (id_sala target) n))
              target,
            rows')
    | Raise e => Raise e
    end.

(** *** Session: [add] followed by [commit] *)

(** [filter_by(folio=f)]: SQL equality for a string, [IS NULL] for [None]. *)
Definition has_folio (f : option string) (v : VisitaEmergencia) : bool :=
  bool_decide (folio v = f).

Definition next_id_visita (vs : list VisitaEmergencia) : Z :=
  1 + fold_right Z.max 0 (map id_visita vs).

(** [db.session.add(visita); db.session.commit()]. The commit flushes
    the session; the mapper calls the [before_insert] listener from
    inside that flush, then the row is inserted. [folio] is declared
    [unique=True]; a second row with the same non-null folio makes the
    insert fail. An exception leaves the commit before anything is
    written. *)
Definition insert_visita (hoy : Z) (target : VisitaEmergencia) (db : Database)
  : result (VisitaEmergencia * Database) :=
  match generate_folio true hoy target (consecutivos db) with
  | Raise e => Raise e
  | Ok (v, rows') =>
      if existsb (has_folio (folio v)) (visitas db) && bool_decide (folio v <> None)
      then Raise IntegrityError
      else
        let v' := set_id_visita (next_id_visita (visitas db)) v in
        Ok (v', mkDatabase (doctores db) (camas db) (pacientes db) (trabajadores db)
                  (visitas db ++ [v']) rows')
  end.

Definition update_doctor (i : Z) (d : Doctor) (db : Database) : Database :=
  mkDatabase (<[i := d]> (doctores db)) (camas db) (pacientes db)
    (trabajadores db) (visitas db) (consecutivos db).

Definition update_cama (i : Z) (c : Cama) (db : Database) : Database :=
  mkDatabase (doctores db) (<[i := c]> (camas db)) (pacientes db)
    (trabajadores db) (visitas db) (consecutivos db).

(** *** HTTP bodies *)

(** The dictionary sent to [/replicate-visit] and echoed by
    [/create-visit]; a field that may be null is an option. *)
Record VisitaData := mkVisitaData {
  vd_folio : option string;
  vd_id_paciente : Z;
  vd_id_doctor : Z;
  vd_id_cama : Z;
  vd_id_trabajador : Z;
  vd_id_sala : Z;
  vd_sintomas : string;
  vd_diagnostico : option string;
  vd_estado : string;
  vd_timestamp : option Z;
  vd_fecha_cierre : option Z
}.

Inductive ErrorText :=
| Msg (s : string)
| StrOf (e : exn).

Inductive Body :=
| Failure (error : ErrorText)
| Created (folio_out : option string) (visita : VisitaData)
| Success (message : string).

Definition Response : Type := Body * Z.

(** The JSON object posted to [/create-visit]; an absent key is [None]. *)
Record VisitRequest := mkVisitRequest {
  rq_id_paciente : option Z;
  rq_id_doctor : option Z;
  rq_id_cama : option Z;
  rq_id_trabajador : option Z;
  rq_id_sala : option Z;
  rq_sintomas : option string
}.

Definition missing {A} (name : string) (o : option A) : list string :=
  match o with Some _ => [] | None => [name] end.

Definition missing_fields (rq : VisitRequest) : list string :=
  missing "id_paciente" (rq_id_paciente rq) ++ missing "id_doctor" (rq_id_doctor rq)
  ++ missing "id_cama" (rq_id_cama rq) ++ missing "id_trabajador" (rq_id_trabajador rq)
  ++ missing "id_sala" (rq_id_sala rq) ++ missing "sintomas" (rq_sintomas rq).

Fixpoint join (sep : string) (l : list string) : string :=
  match l with
  | [] => EmptyString
  | [s] => s
  | s :: rest => s +:+ sep +:+ join sep rest
  end.

(** What the handler does that an observer of the node can see, in order. *)
Inductive Event :=
| LockAcquire
| LockRelease
| QueryDoctor (i : Z)
| QueryCama (i : Z)
| QueryPaciente (i : Z)
| QueryTrabajador (i : Z)
| Commit
| Rollback
| Replicate (visita : VisitaData).

Definition visita_data (v : VisitaEmergencia) : VisitaData :=
  mkVisitaData (folio v) (id_paciente v) (id_doctor v) (id_cama v)
    (id_trabajador v) (id_sala v) (sintomas v) (diagnostico v) (estado v)
    (Some (timestamp v)) (fecha_cierre v).

(** *** [create_visit_distributed] *)

(** The body of [with visit_creation_lock:], for a request that carries
    every required field. [now] is the reading of [datetime.utcnow()] in
    the handler, [hoy] the date read by the listener, [bully_manager]
    tells whether the application has one. An exception leaves the block
    as [Raise]. *)
Definition create_visit_locked (bully_manager : bool) (now hoy : Z)
  (paciente doctor_id cama_id trabajador sala : Z) (sintomas' : string)
  (db : Database) : result Response * Database * list Event :=
  match doctores db !! doctor_id with
  | None =>
      (Ok (Failure (Msg ("Doctor " +:+ py_str doctor_id +:+ " not found")), 404), db,
       [QueryDoctor doctor_id])
  | Some doctor =>
      if negb (disponible doctor) then
        (Ok (Failure (Msg ("Doctor " +:+ doc_nombre doctor +:+ " is not available")), 409),
         db, [QueryDoctor doctor_id])
      else
        match camas db !! cama_id with
        | None =>
            (Ok (Failure (Msg ("Bed " +:+ py_str cama_id +:+ " not found")), 404), db,
             [QueryDoctor doctor_id; QueryCama cama_id])
        | Some cama =>
            if ocupada cama then
              (Ok (Failure (Msg ("Bed " +:+ py_str (numero cama) +:+ " is occupied")), 409),
               db, [QueryDoctor doctor_id; QueryCama cama_id])
            else if negb (bool_decide (paciente ∈ pacientes db)) then
              (Ok (Failure (Msg ("Patient " +:+ py_str paciente +:+ " not found")), 404),
               db, [QueryDoctor doctor_id; QueryCama cama_id; QueryPaciente paciente])
            else if negb (bool_decide (trabajador ∈ trabajadores db)) then
              (Ok (Failure (Msg ("Social worker " +:+ py_str trabajador +:+ " not found")),
                   404),
               db,
               [QueryDoctor doctor_id; QueryCama cama_id; QueryPaciente paciente;
                QueryTrabajador trabajador])
            else
              let queries :=
                [QueryDoctor doctor_id; QueryCama cama_id; QueryPaciente paciente;
                 QueryTrabajador trabajador] in
              let visita :=
                mkVisita 0 None paciente doctor_id cama_id trabajador sala sintomas'
                  None "activa" now None in
              let db1 := update_doctor doctor_id (set_disponible false doctor) db in
              let db2 := update_cama cama_id (set_ocupada true (Some paciente) cama) db1 in
              match insert_visita hoy visita db2 with
              | Raise e => (Raise e, db2, queries)
              | Ok (v, db3) =>
                  (Ok (Created (folio v) (visita_data v), 201), db3,
                   queries ++ [Commit]
                   ++ (if bully_manager then [Replicate (visita_data v)] else []))
              end
        end
  end.

(** [not data]: the JSON value null, or an empty object. *)
Definition no_data (data : option VisitRequest) : bool :=
  match data with
  | None => true
  | Some rq => bool_decide (length (missing_fields rq) = 6%nat)
  end.

(** The endpoint, from the line after [data = request.get_json()]:
    [data] is what that call returned. The mutex is taken after
    validation of the fields and is released when the block is left, by
    [return] or by an exception; the [except] clause rolls the session
    back and answers 500. *)
Definition create_visit_distributed (bully_manager : bool) (now hoy : Z)
  (data : option VisitRequest) (db : Database) : Response * Database * list Event :=
  match data with
  | Some (mkVisitRequest (Some paciente) (Some doctor_id) (Some cama_id)
            (Some trabajador) (Some sala) (Some sintomas')) =>
      match create_visit_locked bully_manager now hoy paciente doctor_id cama_id
              trabajador sala sintomas' db with
      | (Ok r, db', evs) => (r, db', LockAcquire :: evs ++ [LockRelease])
      | (Raise e, _, evs) =>
          ((Failure (StrOf e), 500), db, LockAcquire :: evs ++ [LockRelease; Rollback])
      end
  | Some rq =>
      if no_data data then ((Failure (Msg "No data provided"), 400), db, [])
      else
        ((Failure (Msg ("Missing required fields: " +:+ join ", " (missing_fields rq))),
          400), db, [])
  | None => ((Failure (Msg "No data provided"), 400), db, [])
  end.

(** *** [replicate_visit] *)

(** The receiver builds the visit from the payload, marks the doctor and
    the bed when it knows them, and commits. [now] is used when the
    payload has no timestamp. *)
Definition replicate_visit (now hoy : Z) (data : option VisitaData) (db : Database)
  : Response * Database :=
  match data with
  | None => ((Failure (Msg "No data provided"), 400), db)
  | Some d =>
      match find (has_folio (vd_folio d)) (visitas db) with
      | Some _ => ((Success "Visit already exists", 200), db)
      | None =>
          let visita :=
            mkVisita 0 (vd_folio d) (vd_id_paciente d) (vd_id_doctor d) (vd_id_cama d)
              (vd_id_trabajador d) (vd_id_sala d) (vd_sintomas d) (vd_diagnostico d)
              (vd_estado d)
              (match vd_timestamp d with Some t => t | None => now end)
              (vd_fecha_cierre d) in
          let db1 :=
            match doctores db !! vd_id_doctor d with
            | Some doctor => update_doctor (vd_id_doctor d) (set_disponible false doctor) db
            | None => db
            end in
          let db2 :=
            match camas db1 !! vd_id_cama d with
            | Some cama =>
                update_cama (vd_id_cama d)
                  (set_ocupada true (Some (vd_id_paciente d)) cama) db1
            | None => db1
            end in
          match insert_visita hoy visita db2 with
          | Raise e => ((Failure (StrOf e), 500), db)
          | Ok (_, db3) => ((Success "Visit replicated successfully", 201), db3)
          end
      end
  end.

(** *** The routes as Flask calls them *)

(** What [request.get_json()] does with the body of a POST: it raises
    (UnsupportedMediaType when the content type is not JSON, BadRequest
    when the body does not parse), or it returns the parsed value, [None]
    for the JSON value null. *)
Inductive GetJson (A : Type) :=
| Raises (e : exn)
| Returns (data : option A).
Arguments Raises {A} e.
Arguments Returns {A} data.

(** [POST /create-visit]: the call of [get_json] is inside the [try]. *)
Definition create_visit_route (bully_manager : bool) (now hoy : Z)
  (body : GetJson VisitRequest) (db : Database) : Response * Database * list Event :=
  match body with
  | Raises e => ((Failure (StrOf e), 500), db, [Rollback])
  | Returns data => create_visit_distributed bully_manager now hoy data db
  end.

(** [POST /replicate-visit] *)
Definition replicate_visit_route (now hoy : Z) (body : GetJson VisitaData)
  (db : Database) : Response * Database :=
  match body with
  | Raises e => ((Failure (StrOf e), 500), db)
  | Returns data => replicate_visit now hoy data db
  end.

(** Number of stored visits that carry the folio [f]. *)
Definition count_folio (f : option string) (db : Database) : nat :=
  length (filter (fun v => folio v = f) (visitas db)).

(** The [unique=True] constraint of the [folio] column. *)
Definition folio_unique (db : Database) : Prop :=
  forall f : string, (count_folio (Some f) db <= 1)%nat.

(** *** Facts about the sequence table *)



Lemma find_app_none {A} (p : A -> bool) (l1 l2 : list A) :
  find p l1 = None -> find p (l1 ++ l2) = find p l2.
Proof.
  induction l1 as [|a l1 IH]; simpl; [reflexivity |].
  destruct (p a); [discriminate | exact IH].
Qed.

Lemma find_app_some {A} (p : A -> bool) (l1 l2 : list A) (a : A) :
  find p l1 = Some a -> find p (l1 ++ l2) = Some a.
Proof.
  induction l1 as [|b l1 IH]; simpl; [discriminate |].
  destruct (p b); [trivial | exact IH].
Qed.


(** Inside a flush the call raises, whatever the table holds. *)
Lemma get_next_consecutivo_flushing (sala hoy : Z) (rows : list Consecutivo) :
  get_next_consecutivo true sala hoy rows = Raise InvalidRequestError.
Proof.
  unfold get_next_consecutivo.
  destruct (increment_first sala hoy rows) as [[n rows']|]; reflexivity.
Qed.






(** *** Facts about the listener and the insert *)

(** Inside a flush the listener raises for every visit without folio. *)
Lemma generate_folio_unset (hoy : Z) (target : VisitaEmergencia) (rows : list Consecutivo) :
  folio_set (folio target) = false ->
  generate_folio true hoy target rows = Raise InvalidRequestError.
Proof.
  intros H. unfold generate_folio. rewrite H, get_next_consecutivo_flushing. reflexivity.
Qed.

Lemma generate_folio_kept (flushing : bool) (hoy : Z) (target : VisitaEmergencia)
  (rows : list Consecutivo) :
  folio_set (folio target) = true ->
  generate_folio flushing hoy target rows = Ok (target, rows).
Proof. intros H. unfold generate_folio. now rewrite H. Qed.

(** The commit of a visit without folio fails. *)
Lemma insert_visita_unset (hoy : Z) (target : VisitaEmergencia) (db : Database) :
  folio_set (folio target) = false ->
  insert_visita hoy target db = Raise InvalidRequestError.
Proof.
  intros H. unfold insert_visita. rewrite generate_folio_unset by exact H. reflexivity.
Qed.

(** A visit is stored as it was given: with its folio, which is not
    empty, under a new primary key, and the sequence table is not
    touched. *)
Lemma insert_visita_ok (hoy : Z) (target v : VisitaEmergencia) (db db' : Database) :
  insert_visita hoy target db = Ok (v, db') ->
  folio_set (folio target) = true /\
  existsb (has_folio (folio target)) (visitas db) = false /\
  v = set_id_visita (next_id_visita (visitas db)) target /\
  db' = mkDatabase (doctores db) (camas db) (pacientes db) (trabajadores db)
          (visitas db ++ [v]) (consecutivos db).
Proof.
  intros H. destruct (folio_set (folio target)) eqn:Hset.
  2:{ rewrite insert_visita_unset in H by exact Hset. discriminate. }
  unfold insert_visita in H. rewrite generate_folio_kept in H by exact Hset.
  assert (Hnn : bool_decide (folio target <> None) = true).
  { apply bool_decide_eq_true_2. destruct (folio target); [discriminate | discriminate Hset]. }
  rewrite Hnn, andb_true_r in H.
  destruct (existsb (has_folio (folio target)) (visitas db)); [discriminate |].
  injection H as <- <-. auto.
Qed.

Lemma existsb_find_none {A} (p : A -> bool) (l : list A) :
  find p l = None -> existsb p l = false.
Proof.
  induction l as [|a l IH]; simpl; [reflexivity |].
  destruct (p a); [discriminate | exact IH].
Qed.

Lemma count_folio_find_none (f : option string) (db : Database) :
  find (has_folio f) (visitas db) = None -> count_folio f db = 0%nat.
Proof.
  unfold count_folio. induction (visitas db) as [|v vs IH]; simpl; [reflexivity |].
  unfold has_folio at 1. destruct (bool_decide_reflect (folio v = f)) as [E|E];
    [discriminate |].
  intros H. rewrite filter_cons_False by exact E. auto.
Qed.

Lemma count_folio_find_some (f : option string) (db : Database) (v : VisitaEmergencia) :
  find (has_folio f) (visitas db) = Some v -> (1 <= count_folio f db)%nat.
Proof.
  unfold count_folio. induction (visitas db) as [|w vs IH]; simpl; [discriminate |].
  unfold has_folio at 1. destruct (bool_decide_reflect (folio w = f)) as [E|E].
  - intros _. rewrite filter_cons_True by exact E. simpl. lia.
  - intros H. rewrite filter_cons_False by exact E. auto.
Qed.

(** *** The two outcomes of a delivery *)

Lemma replicate_visit_known (now hoy : Z) (d : VisitaData) (db : Database)
  (w : VisitaEmergencia) :
  find (has_folio (vd_folio d)) (visitas db) = Some w ->
  replicate_visit now hoy (Some d) db = ((Success "Visit already exists", 200), db).
Proof. intros H. unfold replicate_visit. now rewrite H. Qed.

Lemma replicate_visit_fresh (now hoy : Z) (d : VisitaData) (db : Database) :
  folio_set (vd_folio d) = true ->
  find (has_folio (vd_folio d)) (visitas db) = None ->
  exists v db',
    replicate_visit now hoy (Some d) db
    = ((Success "Visit replicated successfully", 201), db') /\
    visitas db' = visitas db ++ [v] /\ folio v = vd_folio d.
Proof.
  intros Hset Hfind. unfold replicate_visit. rewrite Hfind.
  set (db1 := match doctores db !! vd_id_doctor d with
              | Some doctor => update_doctor (vd_id_doctor d) (set_disponible false doctor) db
              | None => db
              end).
  set (db2 := match camas db1 !! vd_id_cama d with
              | Some cama => update_cama (vd_id_cama d)
                               (set_ocupada true (Some (vd_id_paciente d)) cama) db1
              | None => db1
              end).
  assert (Hvis : visitas db2 = visitas db).
  { unfold db2, db1. destruct (doctores db !! vd_id_doctor d);
      match goal with |- context [camas ?x !! ?k] => destruct (camas x !! k) end;
      reflexivity. }
  unfold insert_visita. rewrite generate_folio_kept by exact Hset.
  cbn [folio]. rewrite Hvis, (existsb_find_none _ _ Hfind). cbn [andb].
  eexists _, _. split; [reflexivity |]. split; reflexivity.
Qed.

(** A payload whose folio is null or empty is answered 500 and nothing
    is stored. *)
Lemma replicate_visit_no_folio (now hoy : Z) (d : VisitaData) (db : Database) :
  folio_set (vd_folio d) = false ->
  find (has_folio (vd_folio d)) (visitas db) = None ->
  replicate_visit now hoy (Some d) db = ((Failure (StrOf InvalidRequestError), 500), db).
Proof.
  intros Hset Hfind. unfold replicate_visit. rewrite Hfind.
  rewrite insert_visita_unset by exact Hset. reflexivity.
Qed.

End Models.

(* ===================================================================== *)
(** ** The socket node, revision marked CORREGIDO *)
(* ===================================================================== *)

Module Entregable.
Import PyFormat.

Definition SERVER_PORT : Z := 5555.

(** *** Local database *)

Record FilaDoctor := mkFilaDoctor {
  fd_nombre : string;
  fd_disponible : Z
}.

Record FilaCama := mkFilaCama {
  fc_numero : Z;
  fc_ocupada : Z;
  fc_paciente_id : option Z
}.

Record FilaPaciente := mkFilaPaciente {
  fp_id : Z;
  fp_nombre : string;
  fp_edad : Z;
  fp_contacto : string
}.

Record FilaVisita := mkFilaVisita {
  fv_folio : string;
  fv_paciente_id : Z;
  fv_doctor_id : Z;
  fv_cama_id : Z;
  fv_sala_id : Z;
  fv_timestamp : Z;
  fv_estado : string
}.

(** Modelled from the spec: the declarations of the tables DOCTORES,
    CAMAS_ATENCION, PACIENTES and VISITAS_EMERGENCIA (file schema2.sql)
    are not among the sources. A doctor has an availability flag, a bed an
    occupancy flag and an optional current patient; the columns are the
    ones the statements of the node read and write, and [id] is the key
    of DOCTORES and CAMAS_ATENCION. CONSECUTIVOS_VISITAS is declared by
    [init_db] with [sala_id] as primary key. *)
Record BaseLocal := mkBaseLocal {
  DOCTORES : gmap Z FilaDoctor;
  CAMAS_ATENCION : gmap Z FilaCama;
  PACIENTES : list FilaPaciente;
  VISITAS_EMERGENCIA : list FilaVisita;
  CONSECUTIVOS_VISITAS : gmap Z Z
}.

(** The process: the lock table (key to the clock reading of its
    recording) and the database file. *)
Record Nodo := mkNodo {
  bloqueos_locales : gmap string Z;
  base : BaseLocal
}.

(** Values a transaction returns, with Python's truth value. *)
Inductive pyval :=
| PInt (n : Z)
| PBool (b : bool)
| PNone.

Definition truthy (v : pyval) : bool :=
  match v with
  | PInt n => negb (n =? 0)
  | PBool b => b
  | PNone => false
  end.

(** Parsed JSON commands, by their ['accion']. *)
Inductive Comando :=
| INSERTAR_PACIENTE (nombre : string) (edad : Z) (contacto : option string)
| ASIGNAR_RECURSOS (folio : string) (paciente_id doctor_id cama_id : Z)
| CERRAR_VISITA (folio : string)
| INCREMENTAR_CONSECUTIVO
| SOLICITAR_BLOQUEO_ATOMICO (recurso_tipo : string) (recurso_id : Z)
| LIBERAR_BLOQUEO (recurso_tipo : string) (recurso_id : Z)
| OTRA (accion : string).

Definition accion (c : Comando) : string :=
  match c with
  | INSERTAR_PACIENTE _ _ _ => "INSERTAR_PACIENTE"
  | ASIGNAR_RECURSOS _ _ _ _ => "ASIGNAR_RECURSOS"
  | CERRAR_VISITA _ => "CERRAR_VISITA"
  | INCREMENTAR_CONSECUTIVO => "INCREMENTAR_CONSECUTIVO"
  | SOLICITAR_BLOQUEO_ATOMICO _ _ => "SOLICITAR_BLOQUEO_ATOMICO"
  | LIBERAR_BLOQUEO _ _ => "LIBERAR_BLOQUEO"
  | OTRA a => a
  end.

(** What contacting a remote node yields: the text received, or an
    exception (timeout, refused connection). *)
Inductive Respuesta :=
| Recibido (texto : string)
| SinRespuesta.

Definition Remoto : Type := string * Z.

(** Lines the node prints that the properties below refer to. *)
Inductive Salida :=
| EjecutandoTransaccionLocal (a : string)
| IniciandoConsenso (a : string)
| NodoAprobo (r : Remoto)
| NodoRechazo (r : Remoto) (texto : string)
| NodoNoRespondio (r : Remoto)
| ConsensoAlcanzado (confirmaciones total : Z)
| ErrorLocalTrasConsenso
| ConsensoFallido (confirmaciones total : Z).

(** *** [verificar_recurso_local] *)

Definition verificar_recurso_local (recurso_tipo : string) (recurso_id : Z)
  (b : BaseLocal) : bool :=
  if String.eqb recurso_tipo "DOCTOR" then
    match DOCTORES b !! recurso_id with
    | Some d => fd_disponible d =? 1
    | None => false
    end
  else if String.eqb recurso_tipo "CAMA" then
    match CAMAS_ATENCION b !! recurso_id with
    | Some c => fc_ocupada c =? 0
    | None => false
    end
  else false.

Definition clave (recurso_tipo : string) (recurso_id : Z) : string :=
  recurso_tipo +:+ "_" +:+ py_str recurso_id.

Definition bloquear (k : string) (ahora : Z) (n : Nodo) : Nodo :=
  mkNodo (<[k := ahora]> (bloqueos_locales n)) (base n).

Definition desbloquear (k : string) (n : Nodo) : Nodo :=
  mkNodo (delete k (bloqueos_locales n)) (base n).

(** *** [solicitar_bloqueo_distribuido] *)

(** The loop over the remote nodes, each paired with what contacting it
    yields. [None] is the early [return False]; the nodes after the first
    refusal or silence are not contacted. *)
Fixpoint recolectar_aprobaciones (contactos : list (Remoto * Respuesta))
  (confirmaciones : Z) : option Z :=
  match contactos with
  | [] => Some confirmaciones
  | (_, Recibido texto) :: resto =>
      if String.eqb texto "BLOQUEO_APROBADO"
      then recolectar_aprobaciones resto (confirmaciones + 1)
      else None
  | (_, SinRespuesta) :: _ => None
  end.

Definition solicitar_bloqueo_distribuido (ahora : Z) (recurso_tipo : string)
  (recurso_id : Z) (contactos : list (Remoto * Respuesta)) (n : Nodo) : bool * Nodo :=
  if negb (verificar_recurso_local recurso_tipo recurso_id (base n)) then (false, n)
  else
    match contactos with
    | [] => (true, bloquear (clave recurso_tipo recurso_id) ahora n)
    | _ =>
        match recolectar_aprobaciones contactos 0 with
        | None => (false, n)
        | Some confirmaciones =>
            if confirmaciones =? Z.of_nat (length contactos)
            then (true, bloquear (clave recurso_tipo recurso_id) ahora n)
            else (false, n)
        end
    end.

(** [liberar_bloqueo_distribuido]: the local entry goes; the notices to
    the remote nodes are sent without reading any answer. *)
Definition liberar_bloqueo_distribuido (recurso_tipo : string) (recurso_id : Z)
  (n : Nodo) : Nodo :=
  desbloquear (clave recurso_tipo recurso_id) n.

(** *** [ejecutar_transaccion_local] *)

Definition siguiente_id_paciente (ps : list FilaPaciente) : Z :=
  1 + fold_right Z.max 0 (map fp_id ps).

Definition con_doctores (d : gmap Z FilaDoctor) (b : BaseLocal) : BaseLocal :=
  mkBaseLocal d (CAMAS_ATENCION b) (PACIENTES b) (VISITAS_EMERGENCIA b)
    (CONSECUTIVOS_VISITAS b).

Definition con_camas (c : gmap Z FilaCama) (b : BaseLocal) : BaseLocal :=
  mkBaseLocal (DOCTORES b) c (PACIENTES b) (VISITAS_EMERGENCIA b)
    (CONSECUTIVOS_VISITAS b).

Definition con_visitas (v : list FilaVisita) (b : BaseLocal) : BaseLocal :=
  mkBaseLocal (DOCTORES b) (CAMAS_ATENCION b) (PACIENTES b) v
    (CONSECUTIVOS_VISITAS b).

Definition con_consecutivos (c : gmap Z Z) (b : BaseLocal) : BaseLocal :=
  mkBaseLocal (DOCTORES b) (CAMAS_ATENCION b) (PACIENTES b) (VISITAS_EMERGENCIA b) c.

(** [UPDATE ... WHERE id = ?] changes the row when there is one. *)
Definition marcar_doctor (flag : Z) (i : Z) (b : BaseLocal) : BaseLocal :=
  con_doctores (alter (fun d => mkFilaDoctor (fd_nombre d) flag) i (DOCTORES b)) b.

Definition marcar_cama (flag : Z) (p : option Z) (i : Z) (b : BaseLocal) : BaseLocal :=
  con_camas (alter (fun c => mkFilaCama (fc_numero c) flag p) i (CAMAS_ATENCION b)) b.

Definition cerrar_fila (f : string) (v : FilaVisita) : FilaVisita :=
  if String.eqb (fv_folio v) f
  then mkFilaVisita (fv_folio v) (fv_paciente_id v) (fv_doctor_id v) (fv_cama_id v)
         (fv_sala_id v) (fv_timestamp v) "Cerrada"
  else v.

Definition transaccion (ahora : Z) (comando : Comando) (b : BaseLocal)
  : pyval * BaseLocal :=
  match comando with
  | INSERTAR_PACIENTE nombre edad contacto =>
      let paciente_id := siguiente_id_paciente (PACIENTES b) in
      (PInt paciente_id,
       mkBaseLocal (DOCTORES b) (CAMAS_ATENCION b)
         (PACIENTES b ++
          [mkFilaPaciente paciente_id nombre edad
             (match contacto with Some c => c | None => EmptyString end)])
         (VISITAS_EMERGENCIA b) (CONSECUTIVOS_VISITAS b))
  | ASIGNAR_RECURSOS folio paciente_id doctor_id cama_id =>
      if existsb (fun v => String.eqb (fv_folio v) folio) (VISITAS_EMERGENCIA b)
      then (PBool false, b)
      else
        let b1 := marcar_doctor 0 doctor_id b in
        let b2 := marcar_cama 1 (Some paciente_id) cama_id b1 in
        (PBool true,
         con_visitas
           (VISITAS_EMERGENCIA b2 ++
            [mkFilaVisita folio paciente_id doctor_id cama_id SERVER_PORT ahora
               "En tratamiento"]) b2)
  | CERRAR_VISITA folio =>
      match find (fun v => String.eqb (fv_folio v) folio) (VISITAS_EMERGENCIA b) with
      | Some visita =>
          let b1 := marcar_doctor 1 (fv_doctor_id visita) b in
          let b2 := marcar_cama 0 None (fv_cama_id visita) b1 in
          (PBool true, con_visitas (map (cerrar_fila folio) (VISITAS_EMERGENCIA b2)) b2)
      | None => (PBool false, b)
      end
  | INCREMENTAR_CONSECUTIVO =>
      match CONSECUTIVOS_VISITAS b !! SERVER_PORT with
      | Some ultimo =>
          let nuevo_consecutivo := ultimo + 1 in
          (PInt nuevo_consecutivo,
           con_consecutivos (<[SERVER_PORT := nuevo_consecutivo]> (CONSECUTIVOS_VISITAS b)) b)
      | None =>
          (PInt 1, con_consecutivos (<[SERVER_PORT := 1]> (CONSECUTIVOS_VISITAS b)) b)
      end
  | _ => (PNone, b)
  end.

(** The function with the line it prints first. *)
Definition ejecutar_transaccion_local (ahora : Z) (comando : Comando) (b : BaseLocal)
  : pyval * BaseLocal * list Salida :=
  let '(r, b') := transaccion ahora comando b in
  (r, b', [EjecutandoTransaccionLocal (accion comando)]).

(** *** [propagar_transaccion_con_consenso] *)

Definition es_consenso_ok (r : Respuesta) : bool :=
  match r with
  | Recibido texto => String.eqb texto "CONSENSO_OK"
  | SinRespuesta => false
  end.

(** The loop: every node is contacted; an answer other than CONSENSO_OK
    and a missing answer count for nothing. *)
Fixpoint contar_confirmaciones (contactos : list (Remoto * Respuesta))
  (confirmaciones : Z) : Z * list Salida :=
  match contactos with
  | [] => (confirmaciones, [])
  | (r, Recibido texto) :: resto =>
      if String.eqb texto "CONSENSO_OK" then
        let '(k, out) := contar_confirmaciones resto (confirmaciones + 1) in
        (k, NodoAprobo r :: out)
      else
        let '(k, out) := contar_confirmaciones resto confirmaciones in
        (k, NodoRechazo r texto :: out)
  | (r, SinRespuesta) :: resto =>
      let '(k, out) := contar_confirmaciones resto confirmaciones in
      (k, NodoNoRespondio r :: out)
  end.

Definition propagar_transaccion_con_consenso (ahora : Z) (comando : Comando)
  (contactos : list (Remoto * Respuesta)) (b : BaseLocal)
  : pyval * BaseLocal * list Salida :=
  match contactos with
  | [] => ejecutar_transaccion_local ahora comando b
  | _ =>
      let total_nodos := Z.of_nat (length contactos) in
      let '(confirmaciones, out) := contar_confirmaciones contactos 0 in
      let umbral_consenso := total_nodos / 2 + 1 in
      if confirmaciones >=? umbral_consenso then
        let '(resultado, b', out') := ejecutar_transaccion_local ahora comando b in
        if truthy resultado then
          (PBool true, b',
           IniciandoConsenso (accion comando) :: out ++ out'
           ++ [ConsensoAlcanzado confirmaciones total_nodos])
        else
          (PBool false, b',
           IniciandoConsenso (accion comando) :: out ++ out' ++ [ErrorLocalTrasConsenso])
      else
        (PBool false, b,
         IniciandoConsenso (accion comando) :: out
         ++ [ConsensoFallido confirmaciones total_nodos])
  end.

(** *** [handle_client] *)

(** What [recv] and [json.loads] deliver: nothing, text that makes the
    handler raise, or a command. *)
Inductive Mensaje :=
| Vacio
| Malformado
| Cmd (c : Comando).

(** The answer sent on the socket, if any, and the node afterwards. *)
Definition handle_client (ahora : Z) (m : Mensaje) (n : Nodo) : option string * Nodo :=
  match m with
  | Vacio => (None, n)
  | Malformado => (Some "ERROR"%string, n)
  | Cmd (SOLICITAR_BLOQUEO_ATOMICO recurso_tipo recurso_id) =>
      let k := clave recurso_tipo recurso_id in
      match bloqueos_locales n !! k with
      | Some _ => (Some "BLOQUEO_RECHAZADO"%string, n)
      | None =>
          if negb (verificar_recurso_local recurso_tipo recurso_id (base n))
          then (Some "BLOQUEO_RECHAZADO"%string, n)
          else (Some "BLOQUEO_APROBADO"%string, bloquear k ahora n)
      end
  | Cmd (LIBERAR_BLOQUEO recurso_tipo recurso_id) =>
      (Some "BLOQUEO_LIBERADO"%string, desbloquear (clave recurso_tipo recurso_id) n)
  | Cmd (OTRA _) => (None, n)
  | Cmd c =>
      let '(resultado, b', _) := ejecutar_transaccion_local ahora c (base n) in
      (Some (if truthy resultado then "CONSENSO_OK" else "CONSENSO_RECHAZADO")%string,
       mkNodo (bloqueos_locales n) b')
  end.

(** *** The node over time *)

(** Things that happen to a node, each at the clock reading [ahora] the
    node observes: a connection served by [handle_client]; a lock asked
    for, a lock released and a transaction propagated from the menus of
    the local user. Between two of them only the clock advances: the
    process starts no other thread than the server and its handlers. *)
Inductive Suceso :=
| Conexion (ahora : Z) (m : Mensaje)
| Solicita (ahora : Z) (recurso_tipo : string) (recurso_id : Z)
    (contactos : list (Remoto * Respuesta))
| Libera (ahora : Z) (recurso_tipo : string) (recurso_id : Z)
| Propaga (ahora : Z) (comando : Comando) (contactos : list (Remoto * Respuesta)).

Definition paso (s : Suceso) (n : Nodo) : Nodo :=
  match s with
  | Conexion ahora m => snd (handle_client ahora m n)
  | Solicita ahora t i contactos => snd (solicitar_bloqueo_distribuido ahora t i contactos n)
  | Libera _ t i => liberar_bloqueo_distribuido t i n
  | Propaga ahora comando contactos =>
      mkNodo (bloqueos_locales n)
        (snd (fst (propagar_transaccion_con_consenso ahora comando contactos (base n))))
  end.

Definition correr (sucesos : list Suceso) (n : Nodo) : Nodo :=
  fold_left (fun n s => paso s n) sucesos n.

Definition reloj (s : Suceso) : Z :=
  match s with
  | Conexion ahora _ | Solicita ahora _ _ _ | Libera ahora _ _ | Propaga ahora _ _ => ahora
  end.

(** The clock readings of a run never go back. *)
Fixpoint relojes_en_orden (sucesos : list Suceso) : bool :=
  match sucesos with
  | [] => true
  | s :: resto =>
      forallb (fun s' => reloj s <=? reloj s') resto && relojes_en_orden resto
  end.

(** The event releases the lock entry [k]. *)
Definition libera_clave (k : string) (s : Suceso) : bool :=
  match s with
  | Conexion _ (Cmd (LIBERAR_BLOQUEO t i)) => String.eqb (clave t i) k
  | Libera _ t i => String.eqb (clave t i) k
  | _ => false
  end.

(** A run of transactions on the database, each with its clock reading. *)
Definition correr_transacciones (cmds : list (Z * Comando)) (b : BaseLocal) : BaseLocal :=
  fold_left (fun b c => snd (transaccion (fst c) (snd c) b)) cmds b.

(** Number of CONSENSO_OK answers among the contacts. *)
Definition acuses (contactos : list (Remoto * Respuesta)) : Z :=
  Z.of_nat (length (filter (fun c => es_consenso_ok (snd c) = true) contactos)).

(** *** Unanimity of the lock request *)

Definition aprueba (r : Respuesta) : Prop := r = Recibido "BLOQUEO_APROBADO".

Lemma recolectar_aprobaciones_some (contactos : list (Remoto * Respuesta)) (k k' : Z) :
  recolectar_aprobaciones contactos k = Some k' ->
  Forall (fun c => aprueba (snd c)) contactos /\ k' = k + Z.of_nat (length contactos).
Proof.
  revert k. induction contactos as [|[r [texto|]] resto IH]; intros k; simpl.
  - intros [= <-]. split; [constructor | lia].
  - destruct (String.eqb_spec texto "BLOQUEO_APROBADO") as [->|]; [| discriminate].
    intros H. apply IH in H. destruct H as [H1 H2].
    split; [constructor; [reflexivity | exact H1] | lia].
  - discriminate.
Qed.

Lemma recolectar_aprobaciones_all (contactos : list (Remoto * Respuesta)) (k : Z) :
  Forall (fun c => aprueba (snd c)) contactos ->
  recolectar_aprobaciones contactos k = Some (k + Z.of_nat (length contactos)).
Proof.
  intros H. revert k. induction H as [|[r resp] resto Hc _ IH]; intros k; simpl.
  - f_equal. lia.
  - simpl in Hc. unfold aprueba in Hc. subst resp. simpl. rewrite IH. f_equal. lia.
Qed.

(** The lock is obtained only when every remote node approved; one
    refusal, one missing answer, and the request fails with the table
    untouched. *)
Lemma solicitar_bloqueo_unanime (ahora : Z) (recurso_tipo : string) (recurso_id : Z)
  (contactos : list (Remoto * Respuesta)) (n : Nodo) :
  (fst (solicitar_bloqueo_distribuido ahora recurso_tipo recurso_id contactos n) = true ->
   Forall (fun c => aprueba (snd c)) contactos) /\
  (Exists (fun c => ~ aprueba (snd c)) contactos ->
   solicitar_bloqueo_distribuido ahora recurso_tipo recurso_id contactos n = (false, n)).
Proof.
  assert (A : fst (solicitar_bloqueo_distribuido ahora recurso_tipo recurso_id contactos n)
              = true -> Forall (fun c => aprueba (snd c)) contactos).
  { unfold solicitar_bloqueo_distribuido.
    destruct (negb (verificar_recurso_local recurso_tipo recurso_id (base n)));
      [discriminate |].
    destruct contactos as [|c resto]; [constructor |].
    destruct (recolectar_aprobaciones (c :: resto) 0) as [k|] eqn:E; [| discriminate].
    intros _. apply recolectar_aprobaciones_some in E. tauto. }
  split; [exact A |].
  intros Hex.
  destruct (solicitar_bloqueo_distribuido ahora recurso_tipo recurso_id contactos n)
    as [[|] n'] eqn:E.
  - exfalso. specialize (A eq_refl).
    apply Exists_exists in Hex. destruct Hex as (c & Hin & Hno).
    rewrite Forall_forall in A. auto.
  - f_equal. revert E. unfold solicitar_bloqueo_distribuido.
    destruct (negb (verificar_recurso_local recurso_tipo recurso_id (base n)));
      [congruence |].
    destruct contactos as [|c resto]; [discriminate |].
    destruct (recolectar_aprobaciones (c :: resto) 0) as [k|]; [| congruence].
    destruct (k =? Z.of_nat (length (c :: resto))); [discriminate | congruence].
Qed.

(** *** Counting acknowledgements *)

Lemma contar_confirmaciones_fst (contactos : list (Remoto * Respuesta)) (k : Z) :
  fst (contar_confirmaciones contactos k) = k + acuses contactos.
Proof.
  unfold acuses. revert k.
  induction contactos as [|[r [texto|]] resto IH]; intros k; simpl.
  - lia.
  - destruct (String.eqb texto "CONSENSO_OK") eqn:E.
    + specialize (IH (k + 1)). destruct (contar_confirmaciones resto (k + 1)). simpl in *.
      rewrite filter_cons_True by (simpl; exact E). simpl length. lia.
    + specialize (IH k). destruct (contar_confirmaciones resto k). simpl in *.
      rewrite filter_cons_False by (simpl; rewrite E; discriminate). lia.
  - specialize (IH k). destruct (contar_confirmaciones resto k). simpl in *.
    rewrite filter_cons_False by (simpl; discriminate). lia.
Qed.

Definition es_ejecucion (s : Salida) : bool :=
  match s with EjecutandoTransaccionLocal _ => true | _ => false end.

Lemma contar_confirmaciones_sin_ejecucion (contactos : list (Remoto * Respuesta)) (k : Z) :
  Forall (fun s => es_ejecucion s = false) (snd (contar_confirmaciones contactos k)).
Proof.
  revert k. induction contactos as [|[r [texto|]] resto IH]; intros k; simpl.
  - constructor.
  - destruct (String.eqb texto "CONSENSO_OK").
    + specialize (IH (k + 1)). destruct (contar_confirmaciones resto (k + 1)).
      simpl in *. constructor; [reflexivity | exact IH].
    + specialize (IH k). destruct (contar_confirmaciones resto k).
      simpl in *. constructor; [reflexivity | exact IH].
  - specialize (IH k). destruct (contar_confirmaciones resto k).
    simpl in *. constructor; [reflexivity | exact IH].
Qed.

Lemma acuses_bounds (contactos : list (Remoto * Respuesta)) :
  0 <= acuses contactos <= Z.of_nat (length contactos).
Proof.
  unfold acuses. pose proof (length_filter (fun c => es_consenso_ok (snd c) = true) contactos).
  lia.
Qed.

(** *** The counter of the sala *)

Definition ultimo_consecutivo (b : BaseLocal) : option Z :=
  CONSECUTIVOS_VISITAS b !! SERVER_PORT.




(** *** Lock entries stay until released *)

Lemma paso_conserva_bloqueo (s : Suceso) (n : Nodo) (k : string) :
  libera_clave k s = false ->
  is_Some (bloqueos_locales n !! k) ->
  is_Some (bloqueos_locales (paso s n) !! k).
Proof.
  intros Hs Hk. destruct s as [ahora m|ahora t i contactos|ahora t i|ahora c contactos];
    simpl; [| | | exact Hk].
  - destruct m as [| |c]; simpl; [exact Hk | exact Hk |].
    destruct c as [? ? ?|? ? ? ?|?| |tipo i|tipo i|?]; simpl; try exact Hk;
      try (unfold ejecutar_transaccion_local; destruct (transaccion _ _ _); exact Hk).
    + destruct (bloqueos_locales n !! clave tipo i) eqn:E; [exact Hk |].
      destruct (negb _); simpl; [exact Hk |].
      rewrite lookup_insert. case_decide; [eauto | exact Hk].
    + simpl in Hs. apply String.eqb_neq in Hs.
      rewrite lookup_delete_ne by exact Hs. exact Hk.
  - unfold solicitar_bloqueo_distribuido.
    destruct (negb _); simpl; [exact Hk |].
    assert (B : is_Some (bloqueos_locales (bloquear (clave t i) ahora n) !! k)).
    { simpl. rewrite lookup_insert. case_decide; [eauto | exact Hk]. }
    destruct contactos as [|c resto]; [exact B |].
    destruct (recolectar_aprobaciones (c :: resto) 0) as [j|]; [| exact Hk].
    destruct (j =? _); [exact B | exact Hk].
  - simpl in Hs. apply String.eqb_neq in Hs. unfold liberar_bloqueo_distribuido. simpl.
    rewrite lookup_delete_ne by exact Hs. exact Hk.
Qed.

Lemma correr_conserva_bloqueo (sucesos : list Suceso) (n : Nodo) (k : string) :
  Forall (fun s => libera_clave k s = false) sucesos ->
  is_Some (bloqueos_locales n !! k) ->
  is_Some (bloqueos_locales (correr sucesos n) !! k).
Proof.
  intros H. revert n. induction H as [|s rest Hs _ IH]; intros n Hk; simpl; [exact Hk |].
  apply IH. apply paso_conserva_bloqueo; assumption.
Qed.

Definition es_conexion (s : Suceso) : bool :=
  match s with Conexion _ _ => true | _ => false end.

(** Connections that do not release the key leave its entry, clock
    reading included, as it is. *)
Lemma conexion_conserva_entrada (ahora : Z) (m : Mensaje) (n : Nodo) (k : string) (t0 : Z) :
  libera_clave k (Conexion ahora m) = false ->
  bloqueos_locales n !! k = Some t0 ->
  bloqueos_locales (snd (handle_client ahora m n)) !! k = Some t0.
Proof.
  intros Hs Hk. destruct m as [| |c]; simpl; [exact Hk | exact Hk |].
  destruct c as [? ? ?|? ? ? ?|?| |tipo i|tipo i|?]; simpl; try exact Hk;
    try (unfold ejecutar_transaccion_local; destruct (transaccion _ _ _); exact Hk).
  - destruct (bloqueos_locales n !! clave tipo i) eqn:E; [exact Hk |].
    destruct (negb _); simpl; [exact Hk |].
    rewrite lookup_insert_ne; [exact Hk | congruence].
  - simpl in Hs. apply String.eqb_neq in Hs.
    rewrite lookup_delete_ne by exact Hs. exact Hk.
Qed.

Lemma correr_conexiones_conserva_entrada (sucesos : list Suceso) (n : Nodo) (k : string)
  (t0 : Z) :
  Forall (fun s => libera_clave k s = false) sucesos ->
  Forall (fun s => es_conexion s = true) sucesos ->
  bloqueos_locales n !! k = Some t0 ->
  bloqueos_locales (correr sucesos n) !! k = Some t0.
Proof.
  intros H. revert n. induction H as [|s rest Hs _ IH]; intros n Hc Hk; simpl; [exact Hk |].
  inversion Hc as [|? ? Hs' Hrest]; subst. apply IH; [exact Hrest |].
  destruct s; try discriminate. simpl. apply conexion_conserva_entrada; assumption.
Qed.

End Entregable.

(* ===================================================================== *)
(** ** The socket node, earlier revision *)
(* ===================================================================== *)

Module EntregableAnterior.
Import PyFormat Entregable.

(** The loop of the earlier revision: every node is contacted and the
    answers BLOQUEO_OK are counted. *)
Fixpoint contar_bloqueo_ok (contactos : list (Remoto * Respuesta)) (confirmaciones : Z) : Z :=
  match contactos with
  | [] => confirmaciones
  | (_, Recibido texto) :: resto =>
      if String.eqb texto "BLOQUEO_OK"
      then contar_bloqueo_ok resto (confirmaciones + 1)
      else contar_bloqueo_ok resto confirmaciones
  | (_, SinRespuesta) :: resto => contar_bloqueo_ok resto confirmaciones
  end.

Definition sin_nodos (contactos : list (Remoto * Respuesta)) : bool :=
  match contactos with [] => true | _ => false end.

(** [solicitar_bloqueo_distribuido] as the earlier revision has it: the
    local entry is taken first and given back when the count falls short
    of [len(NODOS_REMOTOS) // 2]. *)
Definition solicitar_bloqueo_distribuido (ahora : Z) (recurso_tipo : string)
  (recurso_id : Z) (contactos : list (Remoto * Respuesta)) (n : Nodo) : bool * Nodo :=
  if negb (verificar_recurso_local recurso_tipo recurso_id (base n)) then (false, n)
  else
    let k := clave recurso_tipo recurso_id in
    match bloqueos_locales n !! k with
    | Some _ => (false, n)
    | None =>
        let n1 := bloquear k ahora n in
        let confirmaciones := contar_bloqueo_ok contactos 0 in
        if (confirmaciones >=? Z.of_nat (length contactos) / 2) || sin_nodos contactos
        then (true, n1)
        else (false, desbloquear k n1)
    end.

End EntregableAnterior.

(* ===================================================================== *)
(** ** Multicast discovery *)
(* ===================================================================== *)

Module Discovery.

(** Values of the ["node_id"] field that can key the peer dictionary:
    [null], an integer, a string. Python compares keys with [==]; JSON
    booleans and integral floats are the integers they equal. *)
Inductive pykey :=
| KNone
| KInt (n : Z)
| KStr (s : string).

#[global] Instance pykey_eq_dec : EqDecision pykey.
Proof. solve_decision. Defined.

Definition pykey_encode (k : pykey) : unit + (Z + string) :=
  match k with
  | KNone => inl tt
  | KInt n => inr (inl n)
  | KStr s => inr (inr s)
  end.

Definition pykey_decode (x : unit + (Z + string)) : pykey :=
  match x with
  | inl _ => KNone
  | inr (inl n) => KInt n
  | inr (inr s) => KStr s
  end.

#[global] Instance pykey_countable : Countable pykey.
Proof.
  refine (inj_countable' pykey_encode pykey_decode _).
  intros []; reflexivity.
Defined.

(** An entry of [discovered_nodes]. *)
Record NodeInfo := mkNodeInfo {
  host : string;
  info_tcp_port : Z;
  info_udp_port : Z;
  last_seen : Z
}.

(** The fields of a [NodeDiscovery] object that the handlers read or
    write; a callback attribute is [true] when a callable is set. *)
Record NodeDiscovery := mkNodeDiscovery {
  node_id : Z;
  node_timeout : Z;
  discovered_nodes : gmap pykey NodeInfo;
  on_node_discovered : bool;
  on_node_lost : bool;
  on_id_collision : bool
}.

(** [__init__]: empty table, no callbacks. *)
Definition init (node_id' node_timeout' : Z) : NodeDiscovery :=
  mkNodeDiscovery node_id' node_timeout' ∅ false false false.

Definition default_node_timeout : Z := 15.

(** Callbacks started by a handler. *)
Inductive Callback :=
| NodeDiscovered (sender : pykey) (ip : string) (tcp_port udp_port : Z)
| NodeLost (id : pykey)
| IdCollision (sender : Z) (ip : string).

(** A datagram decoded to a JSON object; a field that is absent is
    [None]. *)
Record Message := mkMessage {
  msg_type : option string;
  msg_node_id : option pykey;
  msg_tcp_port : option Z;
  msg_udp_port : option Z
}.

Definition with_nodes (m : gmap pykey NodeInfo) (d : NodeDiscovery) : NodeDiscovery :=
  mkNodeDiscovery (node_id d) (node_timeout d) m (on_node_discovered d)
    (on_node_lost d) (on_id_collision d).

(** [_remove_node] *)
Definition _remove_node (id : pykey) (d : NodeDiscovery) : NodeDiscovery * list Callback :=
  match discovered_nodes d !! id with
  | Some _ =>
      (with_nodes (delete id (discovered_nodes d)) d,
       if on_node_lost d then [NodeLost id] else [])
  | None => (d, [])
  end.

(** [_handle_announce]; a missing field raises [KeyError] before the
    table is touched, and [_handle_message] swallows the exception. *)
Definition _handle_announce (now : Z) (message : Message) (sender_ip : string)
  (d : NodeDiscovery) : NodeDiscovery * list Callback :=
  match msg_node_id message, msg_tcp_port message, msg_udp_port message with
  | Some sender_id, Some tcp_port, Some udp_port =>
      let is_new := bool_decide (discovered_nodes d !! sender_id = None) in
      (with_nodes
         (<[sender_id := mkNodeInfo sender_ip tcp_port udp_port now]> (discovered_nodes d)) d,
       if is_new && on_node_discovered d
       then [NodeDiscovered sender_id sender_ip tcp_port udp_port] else [])
  | _, _, _ => (d, [])
  end.

(** [_handle_leave] *)
Definition _handle_leave (message : Message) (d : NodeDiscovery)
  : NodeDiscovery * list Callback :=
  match msg_node_id message with
  | Some sender_id => _remove_node sender_id d
  | None => (d, [])
  end.

(** [_handle_message]. [data] is [None] when the datagram does not decode
    to an object; [my_ip] is what resolving the local host name gives,
    [None] when that raises; [now] is the clock reading of the upsert. *)
Definition _handle_message (now : Z) (my_ip : option string) (data : option Message)
  (sender_ip : string) (d : NodeDiscovery) : NodeDiscovery * list Callback :=
  match data with
  | None => (d, [])
  | Some message =>
      if bool_decide (msg_node_id message = Some (KInt (node_id d))) then
        match my_ip with
        | None => (d, [])
        | Some ip =>
            if negb (String.eqb sender_ip ip) && negb (String.eqb sender_ip "127.0.0.1")
               && on_id_collision d
            then (d, [IdCollision (node_id d) sender_ip])
            else (d, [])
        end
      else
        match msg_type message with
        | Some t =>
            if String.eqb t "ANNOUNCE" then _handle_announce now message sender_ip d
            else if String.eqb t "LEAVE" then _handle_leave message d
            else (d, [])
        | None => (d, [])
        end
  end.

(** One round of [_cleanup_loop]: the peers whose age exceeds the timeout
    are collected, then removed one by one. *)
Definition timed_out (current_time timeout : Z) (info : NodeInfo) : bool :=
  current_time - last_seen info >? timeout.

Definition nodes_to_remove (current_time : Z) (d : NodeDiscovery) : list pykey :=
  map fst (filter (fun p => timed_out current_time (node_timeout d) (snd p) = true)
             (map_to_list (discovered_nodes d))).

Fixpoint remove_all (ids : list pykey) (d : NodeDiscovery) : NodeDiscovery * list Callback :=
  match ids with
  | [] => (d, [])
  | id :: rest =>
      let '(d1, cb1) := _remove_node id d in
      let '(d2, cb2) := remove_all rest d1 in
      (d2, cb1 ++ cb2)
  end.

Definition cleanup (current_time : Z) (d : NodeDiscovery) : NodeDiscovery * list Callback :=
  remove_all (nodes_to_remove current_time d) d.

(** [get_discovered_nodes] *)
Definition get_discovered_nodes (d : NodeDiscovery) : gmap pykey (string * Z * Z) :=
  (fun info => (host info, info_tcp_port info, info_udp_port info)) <$> discovered_nodes d.

(** [set_callbacks] *)
Definition set_callbacks (on_discovered on_lost on_collision : bool) (d : NodeDiscovery)
  : NodeDiscovery :=
  mkNodeDiscovery (node_id d) (node_timeout d) (discovered_nodes d)
    on_discovered on_lost on_collision.

(** What the threads of the service do to the object, one at a time. *)
Inductive Step :=
| Receive (now : Z) (my_ip : option string) (data : option Message) (sender_ip : string)
| Cleanup (current_time : Z)
| SetCallbacks (on_discovered on_lost on_collision : bool).

Definition step (s : Step) (d : NodeDiscovery) : NodeDiscovery :=
  match s with
  | Receive now my_ip data sender_ip => fst (_handle_message now my_ip data sender_ip d)
  | Cleanup t => fst (cleanup t d)
  | SetCallbacks a b c => set_callbacks a b c d
  end.

Definition run (steps : list Step) (d : NodeDiscovery) : NodeDiscovery :=
  fold_left (fun d s => step s d) steps d.

(** *** Removal *)

Lemma remove_node_fields (id : pykey) (d : NodeDiscovery) :
  let d' := fst (_remove_node id d) in
  discovered_nodes d' = delete id (discovered_nodes d) /\
  node_id d' = node_id d /\ node_timeout d' = node_timeout d /\
  on_node_lost d' = on_node_lost d.
Proof.
  unfold _remove_node. destruct (discovered_nodes d !! id) eqn:E; simpl.
  - auto.
  - rewrite delete_id by exact E. auto.
Qed.

Lemma remove_all_fields (ids : list pykey) (d : NodeDiscovery) :
  let d' := fst (remove_all ids d) in
  node_id d' = node_id d /\ node_timeout d' = node_timeout d /\
  on_node_lost d' = on_node_lost d.
Proof.
  revert d. induction ids as [|id rest IH]; intros d; simpl; [auto |].
  pose proof (remove_node_fields id d) as H.
  destruct (_remove_node id d) as [d1 cb1]. simpl in H.
  specialize (IH d1). destruct (remove_all rest d1) as [d2 cb2]. simpl in *.
  destruct H as (_ & H1 & H2 & H3). destruct IH as (I1 & I2 & I3).
  repeat split; congruence.
Qed.

Lemma remove_all_lookup (ids : list pykey) (d : NodeDiscovery) (k : pykey) :
  discovered_nodes (fst (remove_all ids d)) !! k
  = if decide (k ∈ ids) then None else discovered_nodes d !! k.
Proof.
  revert d. induction ids as [|id rest IH]; intros d; cbn [remove_all].
  - destruct (decide (k ∈ [])) as [H|H]; [inversion H | reflexivity].
  - pose proof (remove_node_fields id d) as H.
    destruct (_remove_node id d) as [d1 cb1]. cbn [fst] in H. destruct H as (H & _).
    specialize (IH d1). destruct (remove_all rest d1) as [d2 cb2]. cbn [fst] in *.
    rewrite IH, H. destruct (decide (k ∈ rest)) as [Hin|Hin].
    + rewrite decide_True by (right; exact Hin). reflexivity.
    + destruct (decide (k = id)) as [->|Hne].
      * rewrite decide_True by left. apply lookup_delete_eq.
      * rewrite decide_False by (rewrite elem_of_cons; tauto).
        apply lookup_delete_ne. congruence.
Qed.

Lemma remove_all_callbacks_sound (ids : list pykey) (d : NodeDiscovery) (k : pykey) :
  NodeLost k ∈ snd (remove_all ids d) -> k ∈ ids.
Proof.
  revert d. induction ids as [|id rest IH]; intros d; simpl.
  - intros H. inversion H.
  - unfold _remove_node at 1.
    destruct (discovered_nodes d !! id) eqn:E.
    + specialize (IH (with_nodes (delete id (discovered_nodes d)) d)).
      destruct (remove_all rest _) as [d2 cb2]. simpl in *.
      rewrite elem_of_app. intros [H|H].
      * destruct (on_node_lost d); [| inversion H].
        apply list_elem_of_singleton in H. injection H as ->. left.
      * right. auto.
    + specialize (IH d). destruct (remove_all rest d) as [d2 cb2]. simpl in *.
      intros H. right. auto.
Qed.

Lemma remove_all_callbacks_complete (ids : list pykey) (d : NodeDiscovery) (k : pykey) :
  k ∈ ids -> is_Some (discovered_nodes d !! k) -> on_node_lost d = true ->
  NodeLost k ∈ snd (remove_all ids d).
Proof.
  revert d. induction ids as [|id rest IH]; intros d Hin Hk Hcb; simpl.
  - inversion Hin.
  - destruct (decide (k = id)) as [->|Hne].
    + unfold _remove_node at 1. destruct Hk as [info Hk]. rewrite Hk, Hcb.
      destruct (remove_all rest _) as [d2 cb2]. simpl. left.
    + apply elem_of_cons in Hin. destruct Hin as [?|Hin]; [contradiction |].
      pose proof (remove_node_fields id d) as H.
      destruct (_remove_node id d) as [d1 cb1]. simpl in H.
      destruct H as (Hd & _ & _ & Hl).
      specialize (IH d1 Hin). destruct (remove_all rest d1) as [d2 cb2]. simpl in *.
      rewrite elem_of_app. right. apply IH; [| congruence].
      rewrite Hd, lookup_delete_ne by congruence. exact Hk.
Qed.

Lemma elem_of_nodes_to_remove (current_time : Z) (d : NodeDiscovery) (k : pykey) :
  k ∈ nodes_to_remove current_time d <->
  exists info, discovered_nodes d !! k = Some info /\
               timed_out current_time (node_timeout d) info = true.
Proof.
  unfold nodes_to_remove. rewrite list_elem_of_fmap. split.
  - intros ([k' info] & -> & H). apply list_elem_of_filter in H. destruct H as [H1 H2].
    apply elem_of_map_to_list in H2. exists info. simpl in *. auto.
  - intros (info & H1 & H2). exists (k, info). split; [reflexivity |].
    apply list_elem_of_filter. split; [exact H2 | now apply elem_of_map_to_list].
Qed.

(** *** The local id stays out of the table *)

Definition own_id_absent (d : NodeDiscovery) : Prop :=
  discovered_nodes d !! KInt (node_id d) = None.

Lemma handle_message_own_id (now : Z) (my_ip : option string) (message : Message)
  (sender_ip : string) (d : NodeDiscovery) :
  msg_node_id message = Some (KInt (node_id d)) ->
  fst (_handle_message now my_ip (Some message) sender_ip d) = d.
Proof.
  intros H. unfold _handle_message. rewrite bool_decide_eq_true_2 by exact H.
  destruct my_ip as [ip|]; [| reflexivity].
  destruct (negb (String.eqb sender_ip ip) && negb (String.eqb sender_ip "127.0.0.1")
            && on_id_collision d); reflexivity.
Qed.

Lemma handle_message_keeps_own_id_absent (now : Z) (my_ip : option string)
  (data : option Message) (sender_ip : string) (d : NodeDiscovery) :
  own_id_absent d ->
  own_id_absent (fst (_handle_message now my_ip data sender_ip d)) /\
  node_id (fst (_handle_message now my_ip data sender_ip d)) = node_id d.
Proof.
  intros Hinv. destruct data as [message|]; [| split; [exact Hinv | reflexivity]].
  unfold _handle_message.
  destruct (bool_decide_reflect (msg_node_id message = Some (KInt (node_id d)))) as [E|E].
  - destruct my_ip as [ip|]; [| split; [exact Hinv | reflexivity]].
    destruct (negb (String.eqb sender_ip ip) && negb (String.eqb sender_ip "127.0.0.1")
              && on_id_collision d); split; (exact Hinv || reflexivity).
  - destruct (msg_type message) as [t|]; [| split; [exact Hinv | reflexivity]].
    destruct (String.eqb t "ANNOUNCE").
    + unfold _handle_announce.
      destruct (msg_node_id message) as [sender_id|]; [| split; [exact Hinv | reflexivity]].
      destruct (msg_tcp_port message); [| split; [exact Hinv | reflexivity]].
      destruct (msg_udp_port message); [| split; [exact Hinv | reflexivity]].
      split; [| reflexivity]. unfold own_id_absent. simpl.
      rewrite lookup_insert_ne by congruence. exact Hinv.
    + destruct (String.eqb t "LEAVE"); [| split; [exact Hinv | reflexivity]].
      unfold _handle_leave.
      destruct (msg_node_id message) as [sender_id|]; [| split; [exact Hinv | reflexivity]].
      pose proof (remove_node_fields sender_id d) as H. simpl in H.
      destruct H as (Hd & Hn & _). split; [| exact Hn].
      unfold own_id_absent. rewrite Hd, Hn. rewrite lookup_delete_ne by congruence.
      exact Hinv.
Qed.

Lemma cleanup_keeps_own_id_absent (current_time : Z) (d : NodeDiscovery) :
  own_id_absent d ->
  own_id_absent (fst (cleanup current_time d)) /\
  node_id (fst (cleanup current_time d)) = node_id d.
Proof.
  intros Hinv. unfold cleanup.
  pose proof (remove_all_fields (nodes_to_remove current_time d) d) as H. simpl in H.
  destruct H as (Hn & _). split; [| exact Hn].
  unfold own_id_absent. rewrite remove_all_lookup, Hn.
  destruct (decide _); [reflexivity | exact Hinv].
Qed.

Lemma step_keeps_own_id_absent (s : Step) (d : NodeDiscovery) :
  own_id_absent d -> own_id_absent (step s d) /\ node_id (step s d) = node_id d.
Proof.
  intros Hinv. destruct s; simpl.
  - now apply handle_message_keeps_own_id_absent.
  - now apply cleanup_keeps_own_id_absent.
  - split; [exact Hinv | reflexivity].
Qed.

Lemma run_keeps_own_id_absent (steps : list Step) (d : NodeDiscovery) :
  own_id_absent d -> own_id_absent (run steps d) /\ node_id (run steps d) = node_id d.
Proof.
  revert d. induction steps as [|s rest IH]; intros d Hinv; simpl; [auto |].
  destruct (step_keeps_own_id_absent s d Hinv) as [H1 H2].
  destruct (IH _ H1) as [H3 H4]. split; [exact H3 | congruence].
Qed.

End Discovery.

(* ===================================================================== *)
(** ** Node identity *)
(* ===================================================================== *)

Module IdGenerator.

(** What the operating system answers to a temporary [bind]. *)
Record Sistema := mkSistema {
  tcp_bind : Z -> bool;
  udp_bind : Z -> bool
}.

(** [_is_port_available]: a TCP socket and then a UDP socket are bound to
    the port. *)
Definition _is_port_available (os : Sistema) (port : Z) : bool :=
  tcp_bind os port && udp_bind os port.

Definition tcp_port_of (candidate_id : Z) : Z := 5555 + candidate_id mod 1000.
Definition udp_port_of (candidate_id : Z) : Z := 6000 + candidate_id mod 1000.

Definition id_available (os : Sistema) (candidate_id : Z) : bool :=
  _is_port_available os (tcp_port_of candidate_id)
  && _is_port_available os (udp_port_of candidate_id).

Inductive outcome :=
| Returned (node_id : Z)
| RuntimeError.

(** The [for] loop, [remaining] attempts left, the next one on
    [candidate_id]. *)
Fixpoint scan (os : Sistema) (candidate_id : Z) (remaining : nat) : outcome :=
  match remaining with
  | O => RuntimeError
  | S remaining' =>
      if id_available os candidate_id then Returned candidate_id
      else scan os (candidate_id + 1) remaining'
  end.

Definition generate_node_id (os : Sistema) (start_id max_attempts : Z) : outcome :=
  scan os start_id (Z.to_nat max_attempts).

Definition default_max_attempts : Z := 100.

Lemma scan_returned (os : Sistema) (remaining : nat) (candidate_id x : Z) :
  scan os candidate_id remaining = Returned x <->
  candidate_id <= x < candidate_id + Z.of_nat remaining /\
  id_available os x = true /\
  (forall y, candidate_id <= y < x -> id_available os y = false).
Proof.
  revert candidate_id. induction remaining as [|r IH]; intros c; simpl scan.
  - split; [discriminate | lia].
  - destruct (id_available os c) eqn:E.
    + split.
      * intros [= <-]. split; [lia |]. split; [exact E |]. intros y Hy. lia.
      * intros (Hr & Hx & Hmin). f_equal.
        destruct (Z.eq_dec c x) as [|Hne]; [assumption |].
        specialize (Hmin c ltac:(lia)). congruence.
    + rewrite IH. split.
      * intros (Hr & Hx & Hmin). split; [lia |]. split; [exact Hx |].
        intros y Hy. destruct (Z.eq_dec y c) as [->|]; [exact E | apply Hmin; lia].
      * intros (Hr & Hx & Hmin).
        assert (c <> x) by congruence.
        split; [lia |]. split; [exact Hx |]. intros y Hy. apply Hmin. lia.
Qed.

Lemma scan_error (os : Sistema) (remaining : nat) (candidate_id : Z) :
  scan os candidate_id remaining = RuntimeError <->
  (forall y, candidate_id <= y < candidate_id + Z.of_nat remaining ->
             id_available os y = false).
Proof.
  revert candidate_id. induction remaining as [|r IH]; intros c; simpl scan.
  - split; [intros _ y Hy; lia | reflexivity].
  - destruct (id_available os c) eqn:E.
    + split; [discriminate |]. intros H. specialize (H c ltac:(lia)). congruence.
    + rewrite IH. split.
      * intros H y Hy. destruct (Z.eq_dec y c) as [->|]; [exact E | apply H; lia].
      * intros H y Hy. apply H. lia.
Qed.

End IdGenerator.

(* ===================================================================== *)
(** ** Sample states *)
(* ===================================================================== *)

Module Escenarios.
Import Models.

(** Sala 1 has handed out nothing yet: doctor 2 is available, bed 3 is
    free, patient 5 and social worker 1 are registered. *)
Definition ward_fresh : Database :=
  mkDatabase {[ 2 := mkDoctor "Dra. Ruiz" 1 true true ]}
    {[ 3 := mkCama 3 1 false None ]} {[ 5 ]} {[ 1 ]} [] [].

(** CreateVisit(patient=5, doctor=2, bed=3, sw=1, sala=1). *)
Definition chest_pain : option VisitRequest :=
  Some (mkVisitRequest (Some 5) (Some 2) (Some 3) (Some 1) (Some 1)
          (Some "chest pain"%string)).

(** A visit record as [/replicate-visit] receives it: patient 5 with
    doctor 2 in bed 3 of sala 1, under the folio 5+2+1+001. *)
Definition replica_payload : VisitaData :=
  mkVisitaData (Some "5+2+1+001"%string) 5 2 3 1 1 "chest pain" None "activa"
    (Some 1000) None.

(** After that record has been delivered to the node, doctor 2 and bed 3
    are taken. *)
Definition ward_busy : Database :=
  snd (replicate_visit 1003 20000 (Some replica_payload) ward_fresh).

(** *** The socket node *)

(** A node with an empty lock table whose database has doctor 7
    available and bed 3 free. *)
Definition nodo_libre : Entregable.Nodo :=
  Entregable.mkNodo ∅
    (Entregable.mkBaseLocal
       {[ 7 := Entregable.mkFilaDoctor "Dra. Soto" 1 ]}
       {[ 3 := Entregable.mkFilaCama 3 0 None ]}
       [] [] ∅).

Definition remoto_a : Entregable.Remoto := ("192.168.95.131"%string, 5555).
Definition remoto_b : Entregable.Remoto := ("192.168.95.132"%string, 5555).

(** *** Discovery *)

(** A peer last seen at 100, with the default timeout of 15. *)
Definition one_peer : Discovery.NodeDiscovery :=
  Discovery.mkNodeDiscovery 1 Discovery.default_node_timeout
    {[ Discovery.KInt 2 := Discovery.mkNodeInfo "10.0.0.2" 5557 6002 100 ]}
    false true false.

(** Node 1 hears its own id from another host, then a peer with id 2,
    then runs a cleanup round. *)
Definition heard_own_id : list Discovery.Step :=
  [Discovery.SetCallbacks true true true;
   Discovery.Receive 100 (Some "10.0.0.1"%string)
     (Some (Discovery.mkMessage (Some "ANNOUNCE"%string) (Some (Discovery.KInt 1))
              (Some 5556) (Some 6001)))
     "10.0.0.9";
   Discovery.Receive 101 (Some "10.0.0.1"%string)
     (Some (Discovery.mkMessage (Some "ANNOUNCE"%string) (Some (Discovery.KInt 2))
              (Some 5557) (Some 6002)))
     "10.0.0.2";
   Discovery.Cleanup 105].

(** *** Identity *)

(** A host on which nodes 1 and 2 already run: their TCP ports 5556 and
    5557 and their UDP ports 6001 and 6002 are bound. *)
Definition two_nodes_running : IdGenerator.Sistema :=
  IdGenerator.mkSistema
    (fun p => negb (p =? 5556) && negb (p =? 5557))
    (fun p => negb (p =? 6001) && negb (p =? 6002)).

End Escenarios.

(* ===================================================================== *)
(** ** Properties of the coordination layer *)
(* ===================================================================== *)

Section FolioFormat.
Import PyFormat Models Escenarios.

(** C1: the leader write path never mints a folio. The endpoint adds the
    visit without folio and commits; the commit flushes the session, the
    [before_insert] listener runs inside that flush and asks
    [get_next_consecutivo] for the next value of the sala, and the
    [db.session.flush()] of that function is refused by a session that is
    already flushing. So every request that passes all the checks of the
    endpoint (doctor known and available, bed known and free, patient
    and social worker known) is answered 500 with the text of that
    error after a rollback: the store is as it was, nothing is committed
    or replicated. The listener raises for every visit without folio,
    whatever the sequence table holds, and no request whatsoever is
    answered with a folio. *)
Theorem C1_leader_write_path_never_mints
  (bully_manager : bool) (now hoy paciente doctor_id cama_id trabajador sala : Z)
  (sintomas : string) (db : Database) (doctor : Doctor) (cama : Cama) :
  doctores db !! doctor_id = Some doctor -> disponible doctor = true ->
  camas db !! cama_id = Some cama -> ocupada cama = false ->
  paciente ∈ pacientes db -> trabajador ∈ trabajadores db ->
  create_visit_distributed bully_manager now hoy
    (Some (mkVisitRequest (Some paciente) (Some doctor_id) (Some cama_id)
             (Some trabajador) (Some sala) (Some sintomas))) db
  = ((Failure (StrOf InvalidRequestError), 500), db,
     [LockAcquire; QueryDoctor doctor_id; QueryCama cama_id; QueryPaciente paciente;
      QueryTrabajador trabajador; LockRelease; Rollback]) /\
  (forall (target : VisitaEmergencia) (rows : list Consecutivo),
     folio_set (folio target) = false ->
     generate_folio true hoy target rows = Raise InvalidRequestError) /\
  (forall (data : option VisitRequest) (db0 : Database) (f : option string)
          (vd : VisitaData),
     fst (fst (create_visit_distributed bully_manager now hoy data db0))
     <> (Created f vd, 201)).
Proof.
  intros Hd Hdisp Hc Hocc Hp Ht. split; [| split].
  - unfold create_visit_distributed, create_visit_locked.
    rewrite Hd, Hdisp, Hc, Hocc. cbn [negb].
    rewrite !bool_decide_eq_true_2 by assumption. cbn [negb].
    rewrite insert_visita_unset by reflexivity. reflexivity.
  - intros target rows H. apply generate_folio_unset. exact H.
  - intros data db0 f vd. unfold create_visit_distributed.
    destruct data as [[[p|] [d|] [c|] [t|] [s|] [sy|]]|];
      try (destruct (no_data _); cbn [fst]; discriminate); try (cbn [fst]; discriminate).
    unfold create_visit_locked.
    destruct (doctores db0 !! d) as [doc|]; [| cbn [fst]; discriminate].
    destruct (negb (disponible doc)); [cbn [fst]; discriminate |].
    destruct (camas db0 !! c) as [cm|]; [| cbn [fst]; discriminate].
    destruct (ocupada cm); [cbn [fst]; discriminate |].
    destruct (negb (bool_decide (p ∈ pacientes db0))); [cbn [fst]; discriminate |].
    destruct (negb (bool_decide (t ∈ trabajadores db0))); [cbn [fst]; discriminate |].
    rewrite insert_visita_unset by reflexivity. cbn [fst]. discriminate.
Qed.

(** CreateVisit(patient=5, doctor=2, bed=3, sw=1, sala=1, "chest pain")
    on a node whose sala has handed out nothing: the answer is 500, not
    the folio 5+2+1+001, and doctor 2 and bed 3 stay free. *)
Lemma C1_first_visit_is_refused :
  create_visit_distributed false 1000 20000 chest_pain ward_fresh
  = ((Failure (StrOf InvalidRequestError), 500), ward_fresh,
     [LockAcquire; QueryDoctor 2; QueryCama 3; QueryPaciente 5; QueryTrabajador 1;
      LockRelease; Rollback])
  /\ disponible <$> doctores ward_fresh !! 2 = Some true
  /\ ocupada <$> camas ward_fresh !! 3 = Some false.
Proof.
  assert (Hd : doctores ward_fresh !! 2 = Some (mkDoctor "Dra. Ruiz" 1 true true))
    by (vm_compute; reflexivity).
  assert (Hc : camas ward_fresh !! 3 = Some (mkCama 3 1 false None))
    by (vm_compute; reflexivity).
  assert (Hp : 5 ∈ pacientes ward_fresh) by (vm_compute; reflexivity).
  assert (Ht : 1 ∈ trabajadores ward_fresh) by (vm_compute; reflexivity).
  destruct (C1_leader_write_path_never_mints false 1000 20000 5 2 3 1 1 "chest pain"
              ward_fresh _ _ Hd eq_refl Hc eq_refl Hp Ht) as (H & _).
  split; [exact H |]. rewrite Hd, Hc. split; reflexivity.
Defined.

End FolioFormat.

Section Replication.
Import PyFormat Models Escenarios.

(** C3: for a payload that carries a folio, on a store that respects the
    uniqueness of folios, two deliveries in sequence leave exactly one
    visit with that folio; the second delivery answers success with
    status 200 and leaves the store as the first delivery left it. *)
Theorem C3_replicate_visit_idempotent
  (now1 hoy1 now2 hoy2 : Z) (d : VisitaData) (f : string) (db : Database) :
  vd_folio d = Some f -> f <> ""%string -> folio_unique db ->
  let first := replicate_visit now1 hoy1 (Some d) db in
  let second := replicate_visit now2 hoy2 (Some d) (snd first) in
  count_folio (Some f) (snd second) = 1%nat /\
  fst second = (Success "Visit already exists", 200) /\
  snd second = snd first /\
  (fst first = (Success "Visit replicated successfully", 201) \/
   fst first = (Success "Visit already exists", 200)).
Proof.
  intros Hf Hne Huniq. cbv zeta.
  assert (Hset : folio_set (vd_folio d) = true).
  { rewrite Hf. simpl. destruct (String.eqb_spec f ""); [contradiction | reflexivity]. }
  destruct (find (has_folio (vd_folio d)) (visitas db)) as [w|] eqn:Hfind.
  - (* the receiver already holds the folio *)
    rewrite (replicate_visit_known now1 hoy1 d db w Hfind). cbn [fst snd].
    rewrite (replicate_visit_known now2 hoy2 d db w Hfind). cbn [fst snd].
    split; [| split; [reflexivity | split; [reflexivity | now right]]].
    rewrite Hf in Hfind.
    pose proof (count_folio_find_some _ _ _ Hfind). specialize (Huniq f). lia.
  - (* the first delivery inserts, the second finds the row *)
    destruct (replicate_visit_fresh now1 hoy1 d db Hset Hfind) as (v & db' & E & Hv & Hfv).
    rewrite E. cbn [fst snd].
    assert (Hfind' : find (has_folio (vd_folio d)) (visitas db') = Some v).
    { rewrite Hv, find_app_none by exact Hfind. simpl. unfold has_folio.
      now rewrite bool_decide_eq_true_2 by exact Hfv. }
    rewrite (replicate_visit_known now2 hoy2 d db' v Hfind'). cbn [fst snd].
    split; [| split; [reflexivity | split; [reflexivity | now left]]].
    unfold count_folio. rewrite Hv, filter_app, length_app.
    rewrite Hf in Hfind, Hfv.
    pose proof (count_folio_find_none _ _ Hfind) as H0. unfold count_folio in H0.
    rewrite H0. rewrite filter_cons_True by exact Hfv. reflexivity.
Qed.

(** The payload of the first visit, delivered twice to an empty follower. *)
Lemma C3_delivered_twice :
  replica_payload.(vd_folio) = Some "5+2+1+001"%string /\
  "5+2+1+001"%string <> ""%string /\
  folio_unique ward_fresh /\
  let first := replicate_visit 1003 20000 (Some replica_payload) ward_fresh in
  let second := replicate_visit 1004 20000 (Some replica_payload) (snd first) in
  count_folio (Some "5+2+1+001"%string) (snd second) = 1%nat /\
  fst second = (Success "Visit already exists", 200) /\
  snd second = snd first /\
  (fst first = (Success "Visit replicated successfully", 201) \/
   fst first = (Success "Visit already exists", 200)).
Proof.
  assert (U : folio_unique ward_fresh) by (intros g; vm_compute; lia).
  split; [reflexivity |]. split; [discriminate |]. split; [exact U |].
  apply (C3_replicate_visit_idempotent 1003 20000 1004 20000 replica_payload
           "5+2+1+001" ward_fresh); [reflexivity | discriminate | exact U].
Defined.

End Replication.

Section ResourceBusy.
Import PyFormat Models Escenarios.

(** C6: the doctor and the bed are read between the acquisition and the
    release of the visit-creation mutex; when the doctor read there is
    not available, or the bed read there is occupied, the answer is 409
    and the store is returned unchanged: no visit added, no doctor or bed
    touched, no commit. *)
Theorem C6_resource_busy_rejected
  (bully_manager : bool) (now hoy paciente doctor_id cama_id trabajador sala : Z)
  (sintomas : string) (db : Database) (doctor : Doctor) :
  doctores db !! doctor_id = Some doctor ->
  (disponible doctor = false \/
   exists cama, camas db !! cama_id = Some cama /\ ocupada cama = true) ->
  exists (msg : string) (checks : list Event),
    create_visit_distributed bully_manager now hoy
      (Some (mkVisitRequest (Some paciente) (Some doctor_id) (Some cama_id)
               (Some trabajador) (Some sala) (Some sintomas))) db
    = ((Failure (Msg msg), 409), db, LockAcquire :: checks ++ [LockRelease]) /\
    (checks = [QueryDoctor doctor_id] \/
     checks = [QueryDoctor doctor_id; QueryCama cama_id]).
Proof.
  intros Hd Hbusy. unfold create_visit_distributed, create_visit_locked. rewrite Hd.
  destruct (disponible doctor) eqn:Hdisp; simpl.
  - destruct Hbusy as [?|(cama & Hc & Hocc)]; [discriminate |].
    rewrite Hc, Hocc. eexists _, [QueryDoctor doctor_id; QueryCama cama_id].
    split; [reflexivity |]. now right.
  - eexists _, [QueryDoctor doctor_id]. split; [reflexivity |]. now left.
Qed.

Lemma C6_second_request_for_doctor_2 :
  doctores ward_busy !! 2 = Some (mkDoctor "Dra. Ruiz" 1 false true) /\
  exists (msg : string) (checks : list Event),
    create_visit_distributed false 1001 20000
      (Some (mkVisitRequest (Some 6) (Some 2) (Some 4) (Some 1) (Some 1)
               (Some "fever"%string))) ward_busy
    = ((Failure (Msg msg), 409), ward_busy, LockAcquire :: checks ++ [LockRelease]) /\
    (checks = [QueryDoctor 2] \/ checks = [QueryDoctor 2; QueryCama 4]).
Proof.
  assert (H : doctores ward_busy !! 2 = Some (mkDoctor "Dra. Ruiz" 1 false true))
    by (vm_compute; reflexivity).
  split; [exact H |].
  apply (C6_resource_busy_rejected false 1001 20000 6 2 4 1 1 "fever" ward_busy
           (mkDoctor "Dra. Ruiz" 1 false true) H).
  left. reflexivity.
Defined.

End ResourceBusy.

Section LockAcquisition.
Import Entregable Escenarios.

(** C2 on the earlier revision of the node: with two remote nodes, one
    approval and one refusal, the lock is granted and recorded; with a
    single remote node that never answers it is granted as well. The
    revision marked CORREGIDO refuses in both situations. *)
Theorem C2_earlier_revision_grants_without_unanimity :
  EntregableAnterior.solicitar_bloqueo_distribuido 100 "DOCTOR" 7
    [(remoto_a, Recibido "BLOQUEO_OK"); (remoto_b, Recibido "BLOQUEO_RECHAZADO")]
    nodo_libre
  = (true, bloquear "DOCTOR_7" 100 nodo_libre) /\
  EntregableAnterior.solicitar_bloqueo_distribuido 100 "DOCTOR" 7
    [(remoto_a, SinRespuesta)] nodo_libre
  = (true, bloquear "DOCTOR_7" 100 nodo_libre) /\
  solicitar_bloqueo_distribuido 100 "DOCTOR" 7
    [(remoto_a, Recibido "BLOQUEO_APROBADO"); (remoto_b, Recibido "BLOQUEO_RECHAZADO")]
    nodo_libre
  = (false, nodo_libre) /\
  solicitar_bloqueo_distribuido 100 "DOCTOR" 7 [(remoto_a, SinRespuesta)] nodo_libre
  = (false, nodo_libre).
Proof. repeat split; vm_compute; reflexivity. Qed.

End LockAcquisition.

Section Consensus.
Import Entregable Escenarios.

(** C4: with N >= 1 remote nodes the command is executed on the local
    database exactly when at least N/2 + 1 of them answered CONSENSO_OK;
    the call then returns the truth value of the local execution. Below
    the threshold, N/2 acknowledgements included, it returns False and
    the database is untouched. With no remote node the command is
    executed locally at once. *)
Theorem C4_majority_consensus
  (ahora : Z) (comando : Comando) (contactos : list (Remoto * Respuesta)) (b : BaseLocal) :
  let N := Z.of_nat (length contactos) in
  let k := acuses contactos in
  let r := propagar_transaccion_con_consenso ahora comando contactos b in
  let aplicada := EjecutandoTransaccionLocal (accion comando) ∈ snd r in
  let local := transaccion ahora comando b in
  (N = 0 -> r = ejecutar_transaccion_local ahora comando b /\ aplicada) /\
  (0 < N -> (aplicada <-> N / 2 + 1 <= k)) /\
  (0 < N -> N / 2 + 1 <= k ->
   fst (fst r) = PBool (truthy (fst local)) /\ snd (fst r) = snd local) /\
  (0 < N -> k < N / 2 + 1 ->
   fst (fst r) = PBool false /\ snd (fst r) = b /\ ConsensoFallido k N ∈ snd r) /\
  (0 < N -> k = N / 2 -> ~ aplicada /\ fst (fst r) = PBool false) /\
  (0 < N -> k = N / 2 + 1 -> aplicada).
Proof.
  intros N k r aplicada local.
  assert (Hlocal : EjecutandoTransaccionLocal (accion comando)
                   ∈ snd (ejecutar_transaccion_local ahora comando b)).
  { unfold ejecutar_transaccion_local. destruct (transaccion ahora comando b).
    simpl. left. }
  destruct contactos as [|c resto].
  { subst N r aplicada. cbn [length Z.of_nat propagar_transaccion_con_consenso].
    split; [auto |]. repeat split; intros; lia. }
  assert (HN : 0 < N) by (subst N; cbn [length]; lia).
  pose proof (contar_confirmaciones_fst (c :: resto) 0) as Hk.
  pose proof (contar_confirmaciones_sin_ejecucion (c :: resto) 0) as Hout.
  assert (Hr : r = let '(confirmaciones, out) := contar_confirmaciones (c :: resto) 0 in
                   if confirmaciones >=? N / 2 + 1 then
                     let '(resultado, b', out') := ejecutar_transaccion_local ahora comando b in
                     if truthy resultado then
                       (PBool true, b',
                        IniciandoConsenso (accion comando) :: out ++ out'
                        ++ [ConsensoAlcanzado confirmaciones N])
                     else
                       (PBool false, b',
                        IniciandoConsenso (accion comando) :: out ++ out'
                        ++ [ErrorLocalTrasConsenso])
                   else
                     (PBool false, b,
                      IniciandoConsenso (accion comando) :: out
                      ++ [ConsensoFallido confirmaciones N])) by reflexivity.
  destruct (contar_confirmaciones (c :: resto) 0) as [kk out]. cbn [fst snd] in Hk, Hout.
  assert (Ek : kk = k) by (subst k; lia). clear Hk. subst kk.
  assert (Hnone : forall tail, Forall (fun s => es_ejecucion s = false) tail ->
            ~ EjecutandoTransaccionLocal (accion comando)
              ∈ IniciandoConsenso (accion comando) :: out ++ tail).
  { intros tail Ht Hin. apply elem_of_cons in Hin. destruct Hin as [Hin|Hin]; [discriminate |].
    apply elem_of_app in Hin. rewrite Forall_forall in Hout, Ht.
    destruct Hin as [Hin|Hin]; [apply Hout in Hin | apply Ht in Hin]; discriminate. }
  destruct (Z.geb_spec k (N / 2 + 1)) as [Hge|Hlt].
  - (* quorum reached *)
    unfold ejecutar_transaccion_local in Hr, Hlocal.
    fold local in Hr, Hlocal. destruct local as [res b'].
    assert (Hin : aplicada).
    { subst aplicada. rewrite Hr. destruct (truthy res); cbn [snd];
        right; apply elem_of_app; right; left. }
    split; [intros; lia |]. split; [intros _; split; [lia | auto] |].
    split; [intros _ _; rewrite Hr; cbn [fst snd]; destruct (truthy res); split; reflexivity |].
    split; [intros; lia |]. split; [intros; lia | auto].
  - (* quorum missed *)
    assert (Hnot : ~ aplicada).
    { subst aplicada. rewrite Hr. cbn [snd]. apply Hnone.
      constructor; [reflexivity | constructor]. }
    split; [intros; lia |]. split; [intros _; split; [tauto | lia] |].
    split; [intros; lia |].
    split.
    { intros _ _. rewrite Hr. cbn [fst snd]. split; [reflexivity |].
      split; [reflexivity |]. right. apply elem_of_app. right. left. }
    split; [intros _ _; split; [exact Hnot | rewrite Hr; reflexivity] |].
    intros; lia.
Qed.

(** Two remote nodes: one acknowledgement is N/2 and fails, two succeed. *)
Lemma C4_two_remote_nodes :
  (let r := propagar_transaccion_con_consenso 50 INCREMENTAR_CONSECUTIVO
              [(remoto_a, Recibido "CONSENSO_OK"); (remoto_b, Recibido "CONSENSO_RECHAZADO")]
              (base nodo_libre) in
   ~ EjecutandoTransaccionLocal "INCREMENTAR_CONSECUTIVO" ∈ snd r /\
   fst (fst r) = PBool false) /\
  (let r := propagar_transaccion_con_consenso 50 INCREMENTAR_CONSECUTIVO
              [(remoto_a, Recibido "CONSENSO_OK"); (remoto_b, Recibido "CONSENSO_OK")]
              (base nodo_libre) in
   EjecutandoTransaccionLocal "INCREMENTAR_CONSECUTIVO" ∈ snd r).
Proof.
  split.
  - apply (C4_majority_consensus 50 INCREMENTAR_CONSECUTIVO
             [(remoto_a, Recibido "CONSENSO_OK"); (remoto_b, Recibido "CONSENSO_RECHAZADO")]
             (base nodo_libre)); vm_compute; reflexivity.
  - apply (C4_majority_consensus 50 INCREMENTAR_CONSECUTIVO
             [(remoto_a, Recibido "CONSENSO_OK"); (remoto_b, Recibido "CONSENSO_OK")]
             (base nodo_libre)); vm_compute; reflexivity.
Defined.

End Consensus.

Section Sequence.
Import Models Entregable Escenarios.




End Sequence.

Section PeerTimeout.
Import Discovery Escenarios.

(** C7, as stated, does not hold: a peer whose age is exactly
    [node_timeout] is not evicted. *)
Lemma C7_peer_aged_exactly_timeout_is_kept :
  ~ (forall (current_time : Z) (d : NodeDiscovery) (id : pykey) (info : NodeInfo),
       discovered_nodes d !! id = Some info ->
       current_time - last_seen info = node_timeout d ->
       discovered_nodes (fst (cleanup current_time d)) !! id = None).
Proof.
  intros H.
  specialize (H 115 one_peer (KInt 2) (mkNodeInfo "10.0.0.2" 5557 6002 100)
                eq_refl eq_refl).
  vm_compute in H. discriminate.
Qed.

(** C7, amended: a round of the cleanup task evicts a peer when the time
    since its [last_seen] exceeds [node_timeout], and then the lost-node
    callback, if one is set, is started for it; a peer whose age is at
    most [node_timeout], the timeout itself included, stays as it is and
    no callback is started for it. *)
Theorem C7_cleanup_evicts_strictly_older
  (current_time : Z) (d : NodeDiscovery) (id : pykey) (info : NodeInfo) :
  discovered_nodes d !! id = Some info ->
  let r := cleanup current_time d in
  (node_timeout d < current_time - last_seen info ->
   discovered_nodes (fst r) !! id = None /\
   (on_node_lost d = true -> NodeLost id ∈ snd r)) /\
  (current_time - last_seen info <= node_timeout d ->
   discovered_nodes (fst r) !! id = Some info /\ ~ NodeLost id ∈ snd r).
Proof.
  intros Hid r. subst r. unfold cleanup.
  pose proof (elem_of_nodes_to_remove current_time d id) as Hmem.
  split.
  - intros Hold.
    assert (Hin : id ∈ nodes_to_remove current_time d).
    { apply Hmem. exists info. split; [exact Hid |]. unfold timed_out.
      apply Z.gtb_lt. lia. }
    split.
    + rewrite remove_all_lookup. now rewrite decide_True by exact Hin.
    + intros Hcb. apply remove_all_callbacks_complete; eauto.
  - intros Hyoung.
    assert (Hnin : ~ id ∈ nodes_to_remove current_time d).
    { intros Hin. apply Hmem in Hin. destruct Hin as (info' & H1 & H2).
      rewrite Hid in H1. injection H1 as <-. unfold timed_out in H2.
      apply Z.gtb_lt in H2. lia. }
    split.
    + rewrite remove_all_lookup. now rewrite decide_False by exact Hnin.
    + intros Hcb. apply remove_all_callbacks_sound in Hcb. contradiction.
Qed.

(** The peer of [one_peer] at the clock readings 115 and 116. *)
Lemma C7_at_the_boundary :
  discovered_nodes one_peer !! KInt 2 = Some (mkNodeInfo "10.0.0.2" 5557 6002 100) /\
  (discovered_nodes (fst (cleanup 115 one_peer)) !! KInt 2
   = Some (mkNodeInfo "10.0.0.2" 5557 6002 100) /\
   ~ NodeLost (KInt 2) ∈ snd (cleanup 115 one_peer)) /\
  (discovered_nodes (fst (cleanup 116 one_peer)) !! KInt 2 = None /\
   NodeLost (KInt 2) ∈ snd (cleanup 116 one_peer)).
Proof.
  assert (H : discovered_nodes one_peer !! KInt 2
              = Some (mkNodeInfo "10.0.0.2" 5557 6002 100)) by reflexivity.
  split; [exact H |]. split.
  - apply (C7_cleanup_evicts_strictly_older 115 one_peer (KInt 2) _ H).
    vm_compute. discriminate.
  - destruct (C7_cleanup_evicts_strictly_older 116 one_peer (KInt 2) _ H) as [Hold _].
    destruct Hold as [H1 H2]; [vm_compute; reflexivity |].
    split; [exact H1 | apply H2; reflexivity].
Defined.

End PeerTimeout.

Section LockLifetime.
Import Entregable Escenarios.

(** C8, as stated, does not hold: nothing in the node removes a lock
    entry because of its age. An entry recorded at clock reading 0 for a
    granted request is still in the table when a connection is served one
    hour later. *)
Lemma C8_entry_outlives_thirty_seconds :
  ~ (forall (n : Nodo) (sucesos : list Suceso) (ultimo : Suceso) (k : string) (t0 : Z),
       bloqueos_locales n = ∅ ->
       relojes_en_orden (sucesos ++ [ultimo]) = true ->
       bloqueos_locales (correr (sucesos ++ [ultimo]) n) !! k = Some t0 ->
       reloj ultimo - t0 <= 30).
Proof.
  intros H.
  specialize (H nodo_libre [Conexion 0 (Cmd (SOLICITAR_BLOQUEO_ATOMICO "DOCTOR" 7))]
                (Conexion 3600 Vacio) "DOCTOR_7"%string 0 eq_refl eq_refl).
  assert (E : bloqueos_locales
                (correr ([Conexion 0 (Cmd (SOLICITAR_BLOQUEO_ATOMICO "DOCTOR" 7))]
                         ++ [Conexion 3600 Vacio]) nodo_libre) !! "DOCTOR_7"%string
              = Some 0) by (vm_compute; reflexivity).
  specialize (H E). simpl in H. lia.
Qed.

(** C8, amended: the entry recorded when a lock request is granted stays
    in the table until a release for its key is processed, by a
    LIBERAR_BLOQUEO connection or by the local user; no amount of elapsed
    time removes it, and connections leave its recorded clock reading
    unchanged. *)
Theorem C8_entry_kept_until_released
  (ahora : Z) (recurso_tipo : string) (recurso_id : Z) (n : Nodo) (sucesos : list Suceso) :
  fst (handle_client ahora (Cmd (SOLICITAR_BLOQUEO_ATOMICO recurso_tipo recurso_id)) n)
  = Some "BLOQUEO_APROBADO"%string ->
  Forall (fun s => libera_clave (clave recurso_tipo recurso_id) s = false) sucesos ->
  let n1 :=
    snd (handle_client ahora (Cmd (SOLICITAR_BLOQUEO_ATOMICO recurso_tipo recurso_id)) n) in
  bloqueos_locales n1 !! clave recurso_tipo recurso_id = Some ahora /\
  is_Some (bloqueos_locales (correr sucesos n1) !! clave recurso_tipo recurso_id) /\
  (Forall (fun s => es_conexion s = true) sucesos ->
   bloqueos_locales (correr sucesos n1) !! clave recurso_tipo recurso_id = Some ahora).
Proof.
  intros Hgrant Hno n1.
  assert (H1 : bloqueos_locales n1 !! clave recurso_tipo recurso_id = Some ahora).
  { subst n1. revert Hgrant. simpl.
    destruct (bloqueos_locales n !! clave recurso_tipo recurso_id); [discriminate |].
    destruct (negb _); [discriminate |]. intros _. simpl. apply lookup_insert_eq. }
  split; [exact H1 |]. split.
  - apply correr_conserva_bloqueo; [exact Hno | eauto].
  - intros Hcon. apply correr_conexiones_conserva_entrada; assumption.
Qed.

(** Doctor 7 is granted at 0; an hour of unrelated connections later the
    entry is still there. *)
Lemma C8_granted_then_left_alone :
  fst (handle_client 0 (Cmd (SOLICITAR_BLOQUEO_ATOMICO "DOCTOR" 7)) nodo_libre)
  = Some "BLOQUEO_APROBADO"%string /\
  let sucesos :=
    [Conexion 40 (Cmd (SOLICITAR_BLOQUEO_ATOMICO "CAMA" 3));
     Conexion 90 (Cmd (LIBERAR_BLOQUEO "CAMA" 3));
     Conexion 3600 Vacio] in
  let n1 := snd (handle_client 0 (Cmd (SOLICITAR_BLOQUEO_ATOMICO "DOCTOR" 7)) nodo_libre) in
  bloqueos_locales n1 !! clave "DOCTOR" 7 = Some 0 /\
  is_Some (bloqueos_locales (correr sucesos n1) !! clave "DOCTOR" 7) /\
  (Forall (fun s => es_conexion s = true) sucesos ->
   bloqueos_locales (correr sucesos n1) !! clave "DOCTOR" 7 = Some 0).
Proof.
  split; [vm_compute; reflexivity |].
  apply (C8_entry_kept_until_released 0 "DOCTOR" 7 nodo_libre).
  - vm_compute. reflexivity.
  - repeat constructor.
Defined.

End LockLifetime.

Section Identity.
Import IdGenerator Escenarios.

(** C9: with the default bound of 100 attempts, the generator returns the
    smallest id of [start_id .. start_id + 99] whose two derived ports are
    both available, and it raises exactly when none of these ids has both
    ports available; a port is available when a TCP and a UDP socket can
    be bound to it. *)
Theorem C9_generate_node_id_smallest_free (os : Sistema) (start_id : Z) :
  (forall c,
     generate_node_id os start_id default_max_attempts = Returned c <->
     start_id <= c <= start_id + 99 /\
     id_available os c = true /\
     (forall y, start_id <= y < c -> id_available os y = false)) /\
  (generate_node_id os start_id default_max_attempts = RuntimeError <->
   (forall y, start_id <= y <= start_id + 99 -> id_available os y = false)) /\
  (forall c,
     id_available os c = true <->
     (tcp_bind os (5555 + c mod 1000) = true /\ udp_bind os (5555 + c mod 1000) = true) /\
     (tcp_bind os (6000 + c mod 1000) = true /\ udp_bind os (6000 + c mod 1000) = true)).
Proof.
  unfold generate_node_id, default_max_attempts.
  split; [| split].
  - intros c. rewrite scan_returned.
    replace (Z.of_nat (Z.to_nat 100)) with 100 by reflexivity.
    split; intros (H1 & H2 & H3); (split; [lia | split; [exact H2 | exact H3]]).
  - rewrite scan_error. replace (Z.of_nat (Z.to_nat 100)) with 100 by reflexivity.
    split; intros H y Hy; apply H; lia.
  - intros c. unfold id_available, _is_port_available, tcp_port_of, udp_port_of.
    rewrite !andb_true_iff. tauto.
Qed.

(** With nodes 1 and 2 running, the third node gets id 3. *)
Lemma C9_third_node :
  generate_node_id two_nodes_running 1 default_max_attempts = Returned 3.
Proof.
  apply (proj1 (C9_generate_node_id_smallest_free two_nodes_running 1) 3).
  split; [lia |]. split; [reflexivity |].
  intros y Hy. assert (Hc : y = 1 \/ y = 2) by lia.
  destruct Hc as [-> | ->]; reflexivity.
Defined.

End Identity.

Section OwnId.
Import Discovery Escenarios.

(** C10: in every state that the service reaches from its initial state,
    the peer table has no entry under the local id, and neither has the
    dictionary returned by [get_discovered_nodes]; a message that carries
    the local id leaves the object as it is, whether or not the
    collision callback is started. *)
Theorem C10_own_id_never_in_peer_table (own timeout : Z) (steps : list Step) :
  let d := run steps (init own timeout) in
  node_id d = own /\
  discovered_nodes d !! KInt own = None /\
  get_discovered_nodes d !! KInt own = None /\
  (forall now my_ip message sender_ip,
     msg_node_id message = Some (KInt own) ->
     fst (_handle_message now my_ip (Some message) sender_ip d) = d).
Proof.
  intros d.
  destruct (run_keeps_own_id_absent steps (init own timeout)) as [Habs Hid];
    [reflexivity |].
  fold d in Habs, Hid. simpl in Hid. unfold own_id_absent in Habs. rewrite Hid in Habs.
  split; [exact Hid |]. split; [exact Habs |]. split.
  - unfold get_discovered_nodes. rewrite lookup_fmap, Habs. reflexivity.
  - intros now my_ip message sender_ip Hm. apply handle_message_own_id. now rewrite Hid.
Qed.

(** After [heard_own_id] node 1 knows peer 2 and not itself. *)
Lemma C10_after_hearing_own_id :
  let d := run heard_own_id (init 1 default_node_timeout) in
  node_id d = 1 /\
  discovered_nodes d !! KInt 1 = None /\
  get_discovered_nodes d !! KInt 1 = None /\
  get_discovered_nodes d !! KInt 2 = Some ("10.0.0.2"%string, 5557, 6002).
Proof.
  destruct (C10_own_id_never_in_peer_table 1 default_node_timeout heard_own_id)
    as (H1 & H2 & H3 & _).
  split; [exact H1 |]. split; [exact H2 |]. split; [exact H3 |].
  vm_compute. reflexivity.
Defined.

End OwnId.

(* ===================================================================== *)
(** ** The write endpoints: what a call changes and what it preserves *)
(* ===================================================================== *)

Module WritePath.
Import PyFormat Models Escenarios.

(** Every stored visit carries a non-empty folio. *)
Definition folios_set (db : Database) : Prop :=
  Forall (fun v => folio_set (folio v) = true) (visitas db).

(** The primary keys of the stored visits are pairwise different. *)
Definition ids_unique (db : Database) : Prop :=
  NoDup (map id_visita (visitas db)).

Lemma count_folio_app (f : option string) (db : Database) (v : VisitaEmergencia)
  (rows : list Consecutivo) :
  count_folio f (mkDatabase (doctores db) (camas db) (pacientes db) (trabajadores db)
                   (visitas db ++ [v]) rows)
  = (count_folio f db + if decide (folio v = f) then 1 else 0)%nat.
Proof.
  unfold count_folio. simpl. rewrite filter_app, length_app. f_equal.
  destruct (decide (folio v = f)) as [E|E].
  - now rewrite filter_cons_True by exact E.
  - now rewrite filter_cons_False by exact E.
Qed.

Lemma count_folio_existsb (f : option string) (db : Database) :
  existsb (has_folio f) (visitas db) = false -> count_folio f db = 0%nat.
Proof.
  unfold count_folio. induction (visitas db) as [|w ws IH]; simpl; [reflexivity |].
  unfold has_folio at 1. destruct (bool_decide_reflect (folio w = f)) as [E|E];
    [discriminate |].
  simpl. intros H. rewrite filter_cons_False by exact E. auto.
Qed.

Lemma next_id_visita_fresh (vs : list VisitaEmergencia) :
  ~ In (next_id_visita vs) (map id_visita vs).
Proof.
  assert (B : forall x, In x (map id_visita vs) -> x <= fold_right Z.max 0 (map id_visita vs)).
  { induction vs as [|w ws IH]; simpl; [tauto |].
    intros x [<-|Hx]; [lia |]. specialize (IH x Hx). lia. }
  intros H. apply B in H. unfold next_id_visita in H. lia.
Qed.

(** The three invariants survive an insert. *)
Lemma insert_visita_keeps_invariants (hoy : Z) (target v : VisitaEmergencia)
  (db db' : Database) :
  insert_visita hoy target db = Ok (v, db') ->
  folio_unique db -> folios_set db -> ids_unique db ->
  folio_unique db' /\ folios_set db' /\ ids_unique db'.
Proof.
  intros Hi Hu Hs Hn.
  destruct (insert_visita_ok _ _ _ _ _ Hi) as (Hset & Hfresh & Hv & Hdb).
  assert (Hfv : folio v = folio target) by (rewrite Hv; reflexivity).
  split; [| split].
  - intros f. rewrite Hdb, count_folio_app. specialize (Hu f).
    destruct (decide (folio v = Some f)) as [E|E]; [| lia].
    rewrite Hfv in E. rewrite E in Hfresh. rewrite (count_folio_existsb _ _ Hfresh). lia.
  - unfold folios_set. rewrite Hdb. simpl. apply Forall_app. split; [exact Hs |].
    constructor; [| constructor]. rewrite Hfv. exact Hset.
  - unfold ids_unique. rewrite Hdb. simpl. rewrite map_app. simpl.
    apply NoDup_app. split; [exact Hn |]. split.
    + intros x Hx Hx'. apply list_elem_of_singleton in Hx'. subst x.
      rewrite Hv in Hx. simpl in Hx. apply list_elem_of_In in Hx.
      now apply next_id_visita_fresh in Hx.
    + apply NoDup_singleton.
Qed.

(** *** [POST /create-visit] *)

(** Membership in an explicit list of events. *)
Ltac absent :=
  let Hc := fresh "Hc" in
  intros Hc; cbn in Hc;
  repeat (apply elem_of_cons in Hc; destruct Hc as [Hc|Hc]; [discriminate |]);
  inversion Hc.

Ltac present := cbn; solve [repeat (first [left | right])].

(** What every answer of the route has in common. *)
Definition nothing_written (db : Database) (r : Response * Database * list Event) : Prop :=
  snd (fst r) = db /\
  (exists e, fst (fst (fst r)) = Failure e) /\
  ~ Commit ∈ snd r /\
  (forall vd, ~ Replicate vd ∈ snd r) /\
  (LockAcquire ∈ snd r -> LockRelease ∈ snd r) /\
  (Rollback ∈ snd r <-> snd (fst (fst r)) = 500).

Ltac refused :=
  split; [reflexivity |]; split; [eauto |]; split; [absent |];
  split; [intros ?; absent |]; split; [first [intros _; present | absent] |];
  split; [absent | intros Hst; discriminate Hst].

Ltac failed :=
  split; [reflexivity |]; split; [eauto |]; split; [absent |];
  split; [intros ?; absent |]; split; [first [intros _; present | absent] |];
  split; [intros _; reflexivity | intros _; present].

Lemma create_visit_route_unchanged
  (bully_manager : bool) (now hoy : Z) (body : GetJson VisitRequest) (db : Database) :
  snd (fst (create_visit_route bully_manager now hoy body db)) = db /\
  forall f vd, fst (fst (fst (create_visit_route bully_manager now hoy body db)))
               <> Created f vd.
Proof.
  unfold create_visit_route. destruct body as [e|data]; [split; [reflexivity | discriminate] |].
  unfold create_visit_distributed.
  destruct data as [[[p|] [d|] [c|] [t|] [s|] [sy|]]|];
    try (destruct (no_data _); split; [reflexivity | discriminate]);
    try (split; [reflexivity | discriminate]).
  unfold create_visit_locked.
  destruct (doctores db !! d) as [doc|]; [| split; [reflexivity | discriminate]].
  destruct (negb (disponible doc)); [split; [reflexivity | discriminate] |].
  destruct (camas db !! c) as [cm|]; [| split; [reflexivity | discriminate]].
  destruct (ocupada cm); [split; [reflexivity | discriminate] |].
  destruct (negb (bool_decide (p ∈ pacientes db))); [split; [reflexivity | discriminate] |].
  destruct (negb (bool_decide (t ∈ trabajadores db))); [split; [reflexivity | discriminate] |].
  rewrite insert_visita_unset by reflexivity. split; [reflexivity | discriminate].
Qed.

(** X1: The route never writes. Whatever the request, a body that is not
    JSON included, the database is returned as it was given, nothing is
    committed or replicated, the answer is an error body with status
    400, 404, 409 or 500, the mutex is released whenever it was taken,
    and the session is rolled back exactly when the status is 500. A
    request that passes every check is among those answered 500. *)
Theorem create_visit_route_never_writes
  (bully_manager : bool) (now hoy : Z) (body : GetJson VisitRequest) (db : Database) :
  let r := create_visit_route bully_manager now hoy body db in
  nothing_written db r /\
  (snd (fst (fst r)) = 400 \/ snd (fst (fst r)) = 404 \/ snd (fst (fst r)) = 409 \/
   snd (fst (fst r)) = 500) /\
  (forall p d c t s sy doc cm,
     body = Returns (Some (mkVisitRequest (Some p) (Some d) (Some c) (Some t) (Some s)
                             (Some sy))) ->
     doctores db !! d = Some doc -> disponible doc = true ->
     camas db !! c = Some cm -> ocupada cm = false ->
     p ∈ pacientes db -> t ∈ trabajadores db ->
     fst (fst r) = (Failure (StrOf InvalidRequestError), 500)).
Proof.
  cbv zeta. split; [| split].
  - unfold create_visit_route, nothing_written.
    destruct body as [e|data]; [failed |].
    unfold create_visit_distributed.
    destruct data as [[[p|] [d|] [c|] [t|] [s|] [sy|]]|];
      try (destruct (no_data _); refused); try refused.
    unfold create_visit_locked.
    destruct (doctores db !! d) as [doc|]; [| refused].
    destruct (negb (disponible doc)); [refused |].
    destruct (camas db !! c) as [cm|]; [| refused].
    destruct (ocupada cm); [refused |].
    destruct (negb (bool_decide (p ∈ pacientes db))); [refused |].
    destruct (negb (bool_decide (t ∈ trabajadores db))); [refused |].
    rewrite insert_visita_unset by reflexivity. failed.
  - unfold create_visit_route.
    destruct body as [e|data]; [cbn; auto |].
    unfold create_visit_distributed.
    destruct data as [[[p|] [d|] [c|] [t|] [s|] [sy|]]|];
      try (destruct (no_data _); cbn; auto); try (cbn; auto; fail).
    unfold create_visit_locked.
    destruct (doctores db !! d) as [doc|]; [| cbn; auto].
    destruct (negb (disponible doc)); [cbn; auto |].
    destruct (camas db !! c) as [cm|]; [| cbn; auto].
    destruct (ocupada cm); [cbn; auto |].
    destruct (negb (bool_decide (p ∈ pacientes db))); [cbn; auto |].
    destruct (negb (bool_decide (t ∈ trabajadores db))); [cbn; auto |].
    rewrite insert_visita_unset by reflexivity. cbn. auto.
  - intros p d c t s sy doc cm -> Hd Hdisp Hc Hocc Hp Ht.
    unfold create_visit_route, create_visit_distributed, create_visit_locked.
    rewrite Hd, Hdisp, Hc, Hocc. cbn [negb].
    rewrite !bool_decide_eq_true_2 by assumption. cbn [negb].
    rewrite insert_visita_unset by reflexivity. reflexivity.
Qed.

(** *** [POST /replicate-visit] *)

Lemma update_if_known {A} (g : A -> A) (k : Z) (m : gmap Z A) :
  match m !! k with Some x => <[k := g x]> m | None => m end = alter g k m.
Proof.
  apply map_eq. intros i. destruct (decide (k = i)) as [<-|Hne].
  - rewrite lookup_alter_eq. destruct (m !! k) as [x|] eqn:E.
    + now rewrite lookup_insert_eq.
    + now rewrite E.
  - rewrite lookup_alter_ne by exact Hne. destruct (m !! k) as [x|] eqn:E.
    + now rewrite lookup_insert_ne.
    + reflexivity.
Qed.

(** The visit [replicate_visit] stores for a payload. *)
Definition visita_replicada (now : Z) (pl : VisitaData) (db : Database)
  : VisitaEmergencia :=
  mkVisita (next_id_visita (visitas db)) (vd_folio pl) (vd_id_paciente pl)
    (vd_id_doctor pl) (vd_id_cama pl) (vd_id_trabajador pl) (vd_id_sala pl)
    (vd_sintomas pl) (vd_diagnostico pl) (vd_estado pl)
    (match vd_timestamp pl with Some t => t | None => now end) (vd_fecha_cierre pl).

Lemma replicate_visit_fresh_store (now hoy : Z) (pl : VisitaData) (db : Database) :
  folio_set (vd_folio pl) = true ->
  find (has_folio (vd_folio pl)) (visitas db) = None ->
  replicate_visit now hoy (Some pl) db
  = ((Success "Visit replicated successfully", 201),
     mkDatabase (alter (set_disponible false) (vd_id_doctor pl) (doctores db))
       (alter (set_ocupada true (Some (vd_id_paciente pl))) (vd_id_cama pl) (camas db))
       (pacientes db) (trabajadores db) (visitas db ++ [visita_replicada now pl db])
       (consecutivos db)).
Proof.
  intros Hset Hfind. unfold replicate_visit. rewrite Hfind.
  set (db1 := match doctores db !! vd_id_doctor pl with
              | Some doctor => update_doctor (vd_id_doctor pl) (set_disponible false doctor) db
              | None => db
              end).
  set (db2 := match camas db1 !! vd_id_cama pl with
              | Some cama => update_cama (vd_id_cama pl)
                               (set_ocupada true (Some (vd_id_paciente pl)) cama) db1
              | None => db1
              end).
  assert (H1 : doctores db1 = alter (set_disponible false) (vd_id_doctor pl) (doctores db)
               /\ camas db1 = camas db /\ visitas db1 = visitas db
               /\ consecutivos db1 = consecutivos db /\ pacientes db1 = pacientes db
               /\ trabajadores db1 = trabajadores db).
  { rewrite <- update_if_known. unfold db1.
    destruct (doctores db !! vd_id_doctor pl); simpl; auto 10. }
  destruct H1 as (D1 & C1 & V1 & S1 & P1 & T1).
  assert (H2 : doctores db2 = doctores db1
               /\ camas db2 = alter (set_ocupada true (Some (vd_id_paciente pl)))
                                 (vd_id_cama pl) (camas db1)
               /\ visitas db2 = visitas db1 /\ consecutivos db2 = consecutivos db1
               /\ pacientes db2 = pacientes db1 /\ trabajadores db2 = trabajadores db1).
  { rewrite <- update_if_known. unfold db2.
    destruct (camas db1 !! vd_id_cama pl); simpl; auto 10. }
  destruct H2 as (D2 & C2 & V2 & S2 & P2 & T2).
  unfold insert_visita. rewrite generate_folio_kept by exact Hset. cbn [folio].
  rewrite V2, V1, (existsb_find_none _ _ Hfind). cbn [andb fst snd].
  rewrite D2, D1, C2, C1, S2, S1, P2, P1, T2, T1. reflexivity.
Qed.

(** The three answers of the route that leave the store alone, and the
    one that does not. *)
Lemma replicate_visit_route_cases (now hoy : Z) (body : GetJson VisitaData)
  (db : Database) :
  (exists pl, body = Returns (Some pl) /\ folio_set (vd_folio pl) = true /\
              find (has_folio (vd_folio pl)) (visitas db) = None) \/
  (exists b st, replicate_visit_route now hoy body db = ((b, st), db) /\
                (st = 200 \/ st = 400 \/ st = 500)).
Proof.
  destruct body as [e|[pl|]]; [right; eexists _, 500; cbn; auto | |
                                right; eexists _, 400; cbn; auto].
  destruct (find (has_folio (vd_folio pl)) (visitas db)) as [w|] eqn:Hfind.
  - right. eexists _, 200. cbn [replicate_visit_route].
    rewrite (replicate_visit_known now hoy pl db w Hfind). auto.
  - destruct (folio_set (vd_folio pl)) eqn:Hset; [left; eauto |].
    right. eexists _, 500. cbn [replicate_visit_route].
    rewrite (replicate_visit_no_folio now hoy pl db Hset Hfind). auto.
Qed.

(** X30: The replication route stores a visit only for a payload that
    carries a non-empty folio no stored visit has. Every other delivery
    leaves the database as it was and is answered 200 (the folio is
    held), 400 (the body is null) or 500 (the body is not JSON, or the
    folio of the payload is null or empty: the insert reaches the
    listener, which raises). *)
Theorem replicate_visit_route_writes_only_fresh_folios
  (now hoy : Z) (body : GetJson VisitaData) (db : Database) :
  let r := replicate_visit_route now hoy body db in
  (snd r <> db ->
   exists pl, body = Returns (Some pl) /\ folio_set (vd_folio pl) = true /\
              find (has_folio (vd_folio pl)) (visitas db) = None /\
              snd (fst r) = 201) /\
  (snd (fst r) <> 201 ->
   snd r = db /\ (snd (fst r) = 200 \/ snd (fst r) = 400 \/ snd (fst r) = 500)) /\
  (forall pl, body = Returns (Some pl) -> folio_set (vd_folio pl) = false ->
              snd r = db /\ (snd (fst r) = 200 \/ snd (fst r) = 500)).
Proof.
  cbv zeta.
  destruct (replicate_visit_route_cases now hoy body db)
    as [(pl & -> & Hset & Hfind) | (b & st & E & Hst)].
  - cbn [replicate_visit_route].
    rewrite (replicate_visit_fresh_store now hoy pl db Hset Hfind). cbn [fst snd].
    split; [intros _; exists pl; auto |]. split; [intros H; contradiction H; reflexivity |].
    intros pl' [= <-] Hno. rewrite Hset in Hno. discriminate.
  - rewrite E. cbn [fst snd].
    split; [intros H; contradiction H; reflexivity |]. split; [auto |].
    intros pl -> Hno. split; [reflexivity |].
    cbn [replicate_visit_route] in E.
    destruct (find (has_folio (vd_folio pl)) (visitas db)) as [w|] eqn:Hfind.
    + rewrite (replicate_visit_known now hoy pl db w Hfind) in E.
      injection E as <- <-. auto.
    + rewrite (replicate_visit_no_folio now hoy pl db Hno Hfind) in E.
      injection E as <- <-. auto.
Qed.

(** X5: A delivery whose folio the receiver does not hold is answered 201.
    The visit is stored with the fields of the payload (the clock of the
    receiver is used only when the payload has no timestamp); the doctor
    and the bed of the payload are marked when the receiver knows them and
    are not required to exist; the sequence table of the receiver is not
    touched, so replication never consumes a folio number. *)
Theorem replicate_visit_effects
  (now hoy : Z) (pl : VisitaData) (db : Database) :
  folio_set (vd_folio pl) = true ->
  find (has_folio (vd_folio pl)) (visitas db) = None ->
  let r := replicate_visit now hoy (Some pl) db in
  fst r = (Success "Visit replicated successfully", 201) /\
  consecutivos (snd r) = consecutivos db /\
  doctores (snd r) = alter (set_disponible false) (vd_id_doctor pl) (doctores db) /\
  camas (snd r)
  = alter (set_ocupada true (Some (vd_id_paciente pl))) (vd_id_cama pl) (camas db) /\
  pacientes (snd r) = pacientes db /\ trabajadores (snd r) = trabajadores db /\
  exists v,
    visitas (snd r) = visitas db ++ [v] /\
    visita_data v
    = mkVisitaData (vd_folio pl) (vd_id_paciente pl) (vd_id_doctor pl) (vd_id_cama pl)
        (vd_id_trabajador pl) (vd_id_sala pl) (vd_sintomas pl) (vd_diagnostico pl)
        (vd_estado pl)
        (Some (match vd_timestamp pl with Some t => t | None => now end))
        (vd_fecha_cierre pl).
Proof.
  intros Hset Hfind r. subst r.
  rewrite (replicate_visit_fresh_store now hoy pl db Hset Hfind).
  cbn [fst snd doctores camas pacientes trabajadores visitas consecutivos].
  repeat (split; [reflexivity |]).
  exists (visita_replicada now pl db). split; reflexivity.
Qed.

Lemma replicate_visit_effects_example :
  folio_set (vd_folio replica_payload) = true /\
  find (has_folio (vd_folio replica_payload)) (visitas ward_fresh) = None /\
  fst (replicate_visit 1003 20000 (Some replica_payload) ward_fresh)
  = (Success "Visit replicated successfully", 201) /\
  consecutivos (snd (replicate_visit 1003 20000 (Some replica_payload) ward_fresh)) = [].
Proof.
  split; [reflexivity |]. split; [reflexivity |].
  destruct (replicate_visit_effects 1003 20000 replica_payload ward_fresh
              eq_refl eq_refl) as (H1 & H2 & _).
  split; [exact H1 | exact H2].
Defined.

(** *** The two routes together *)

Lemma replicate_visit_created_inv (now hoy : Z) (pl : VisitaData) (db : Database) :
  fst (replicate_visit now hoy (Some pl) db)
  = (Success "Visit replicated successfully", 201) ->
  folio_set (vd_folio pl) = true /\
  find (has_folio (vd_folio pl)) (visitas db) = None.
Proof.
  intros H.
  destruct (find (has_folio (vd_folio pl)) (visitas db)) as [w|] eqn:Hfind.
  - rewrite (replicate_visit_known now hoy pl db w Hfind) in H. discriminate.
  - destruct (folio_set (vd_folio pl)) eqn:Hset; [auto |].
    rewrite (replicate_visit_no_folio now hoy pl db Hset Hfind) in H. discriminate.
Qed.

(** X3: No double booking on a node that received a visit: once a delivery
    has been stored, a request to create a visit with the doctor of that
    visit, if the node knows the doctor, is answered 409; so is a request
    for the bed of that visit, if the node knows the bed and the doctor
    the request names. The database stays as the delivery left it. *)
Theorem replicated_visit_blocks_its_resources
  (now hoy : Z) (pl : VisitaData) (db : Database)
  (bully_manager : bool) (now2 hoy2 p2 d2 c2 t2 s2 : Z) (sy2 : string) :
  fst (replicate_visit now hoy (Some pl) db)
  = (Success "Visit replicated successfully", 201) ->
  (d2 = vd_id_doctor pl /\ is_Some (doctores db !! d2)) \/
  (c2 = vd_id_cama pl /\ is_Some (camas db !! c2) /\ is_Some (doctores db !! d2)) ->
  let db' := snd (replicate_visit now hoy (Some pl) db) in
  exists msg evs,
    create_visit_distributed bully_manager now2 hoy2
      (Some (mkVisitRequest (Some p2) (Some d2) (Some c2) (Some t2) (Some s2) (Some sy2)))
      db'
    = ((Failure (Msg msg), 409), db', evs).
Proof.
  intros H Hres. apply replicate_visit_created_inv in H. destruct H as [Hset Hfind].
  cbv zeta. rewrite (replicate_visit_fresh_store now hoy pl db Hset Hfind). cbn [snd].
  set (db' := mkDatabase _ _ _ _ _ _).
  unfold create_visit_distributed, create_visit_locked.
  assert (Hdoc : forall doc, doctores db !! d2 = Some doc ->
            exists doc', doctores db' !! d2 = Some doc' /\
                         (d2 = vd_id_doctor pl -> disponible doc' = false)).
  { intros doc Hd. subst db'. cbn [doctores].
    destruct (decide (d2 = vd_id_doctor pl)) as [->|Hne].
    - rewrite lookup_alter_eq, Hd. eexists. split; [reflexivity | reflexivity].
    - rewrite lookup_alter_ne by congruence. rewrite Hd. eexists.
      split; [reflexivity | contradiction]. }
  destruct Hres as [[Hd2 [doc Hd]] | (Hc2 & [cm Hc] & [doc Hd])].
  - destruct (Hdoc doc Hd) as (doc' & -> & Hno). rewrite (Hno Hd2). cbn [negb].
    eexists _, _. reflexivity.
  - destruct (Hdoc doc Hd) as (doc' & -> & _).
    destruct (disponible doc'); cbn [negb]; [| eexists _, _; reflexivity].
    assert (Hcm : camas db' !! c2
                  = Some (set_ocupada true (Some (vd_id_paciente pl)) cm)).
    { subst db'. cbn [camas]. rewrite Hc2, lookup_alter_eq. rewrite <- Hc2, Hc.
      reflexivity. }
    rewrite Hcm. cbn [ocupada set_ocupada]. eexists _, _. reflexivity.
Qed.

(** After the visit of patient 5 has been delivered, a request for
    doctor 2 is answered 409. *)
Lemma replicated_visit_blocks_its_resources_example :
  exists msg evs,
    create_visit_distributed false 1004 20000
      (Some (mkVisitRequest (Some 6) (Some 2) (Some 4) (Some 1) (Some 1)
               (Some "fever"%string))) ward_busy
    = ((Failure (Msg msg), 409), ward_busy, evs).
Proof.
  assert (H : fst (replicate_visit 1003 20000 (Some replica_payload) ward_fresh)
              = (Success "Visit replicated successfully", 201))
    by (vm_compute; reflexivity).
  assert (R : (2 = vd_id_doctor replica_payload /\ is_Some (doctores ward_fresh !! 2)) \/
              (4 = vd_id_cama replica_payload /\ is_Some (camas ward_fresh !! 4) /\
               is_Some (doctores ward_fresh !! 2)))
    by (left; split; [reflexivity | vm_compute; eauto]).
  exact (replicated_visit_blocks_its_resources 1003 20000 replica_payload ward_fresh
           false 1004 20000 6 2 4 1 1 "fever" H R).
Defined.

(** *** Store invariants *)

(** X4: Both routes keep the store well formed: folios stay unique, every
    stored visit has a non-empty folio, and the primary keys of the
    visits stay distinct, whatever the request and whatever the answer. *)
Theorem endpoints_keep_store_invariants
  (bully_manager : bool) (now hoy : Z) (request : GetJson VisitRequest)
  (delivery : GetJson VisitaData) (db : Database) :
  folio_unique db -> folios_set db -> ids_unique db ->
  let created := snd (fst (create_visit_route bully_manager now hoy request db)) in
  let replicated := snd (replicate_visit_route now hoy delivery db) in
  (folio_unique created /\ folios_set created /\ ids_unique created) /\
  (folio_unique replicated /\ folios_set replicated /\ ids_unique replicated).
Proof.
  intros Hu Hs Hn. cbv zeta. split.
  - destruct (create_visit_route_unchanged bully_manager now hoy request db) as [-> _].
    auto.
  - destruct delivery as [e|[pl|]]; cbn [replicate_visit_route snd]; [auto | | auto].
    unfold replicate_visit.
    destruct (find (has_folio (vd_folio pl)) (visitas db)); [auto |].
    match goal with
    | |- context [insert_visita ?h ?tg ?dd] =>
        destruct (insert_visita h tg dd) as [[v db3]|e] eqn:Hi; [| auto];
        assert (Hvis : visitas dd = visitas db)
    end.
    { destruct (doctores db !! vd_id_doctor pl);
        match goal with |- context [camas ?x !! ?k] => destruct (camas x !! k) end;
        reflexivity. }
    cbn [snd]. eapply insert_visita_keeps_invariants; [exact Hi | | |].
    + intros g. unfold count_folio. rewrite Hvis. apply Hu.
    + unfold folios_set. rewrite Hvis. exact Hs.
    + unfold ids_unique. rewrite Hvis. exact Hn.
Qed.

Lemma endpoints_keep_store_invariants_example :
  let db' := snd (replicate_visit_route 1003 20000 (Returns (Some replica_payload))
                    ward_fresh) in
  folio_unique db' /\ folios_set db' /\ ids_unique db'.
Proof.
  assert (U : folio_unique ward_fresh) by (intros g; vm_compute; lia).
  assert (S : folios_set ward_fresh) by constructor.
  assert (N : ids_unique ward_fresh) by constructor.
  exact (proj2 (endpoints_keep_store_invariants false 1000 20000 (Returns chest_pain)
                  (Returns (Some replica_payload)) ward_fresh U S N)).
Defined.

End WritePath.

(* ===================================================================== *)
(** ** Fan-out over the cluster: replication and aggregated statistics *)
(* ===================================================================== *)

Module Cluster.
Import PyFormat Models.

(** Modelled from the spec: the class BullyNode is not among the sources.
    Of a [bully_manager] the functions below read the dictionary
    [cluster_nodes] (node id to host, TCP port, UDP port, in insertion
    order) and the leader reference that [get_current_leader()] returns,
    an optional node id. *)
Record BullyNode := mkBullyNode {
  cluster_nodes : list (Z * (string * Z * Z));
  current_leader : option Z
}.

(** [get_cluster_nodes_info] *)
Definition get_cluster_nodes_info (bully_manager : option BullyNode)
  : list (Z * string * Z) :=
  match bully_manager with
  | None => []
  | Some b =>
      map (fun n => (fst n, fst (fst (snd n)), snd (fst (snd n)))) (cluster_nodes b)
  end.

(** [get_node_flask_url] *)
Definition flask_port_of (node_id : Z) : Z := 5000 + node_id mod 1000.

Definition get_node_flask_url (node_id : Z) (host : string) : string :=
  "http://" +:+ host +:+ ":" +:+ py_str (flask_port_of node_id).

(** [get_leader_flask_url]: the leader id and its URL, or nothing when
    there is no manager or no leader. *)
Definition get_leader_flask_url (bully_manager : option BullyNode)
  : option Z * option string :=
  match bully_manager with
  | None => (None, None)
  | Some b =>
      match current_leader b with
      | None => (None, None)
      | Some leader_id =>
          if leader_id =? 0 then (None, None)
          else
            let host :=
              match find (fun n => fst n =? leader_id) (cluster_nodes b) with
              | Some n => fst (fst (snd n))
              | None => "localhost"%string
              end in
            (Some leader_id, Some (get_node_flask_url leader_id host))
      end
  end.

(** What an HTTP request gives: a response with its status, or one of
    the exceptions the callers catch. *)
Inductive HttpResult (A : Type) :=
| Responded (status_code : Z) (body : A)
| Timeout
| ConnectionError
| OtherError.
Arguments Responded {A} status_code body.
Arguments Timeout {A}.
Arguments ConnectionError {A}.
Arguments OtherError {A}.

(** [response.ok]: no client or server error status. *)
Definition ok (status_code : Z) : bool :=
  negb ((400 <=? status_code) && (status_code <? 600)).

(** *** [replicate_visit_to_cluster] *)

Record ReplicationResult := mkReplicationResult {
  success_count : Z;
  failed_nodes : list Z;
  total_nodes : Z
}.

(** The node is skipped: it is the current node or the excluded one. *)
Definition skipped (NODE_ID exclude_node_id : option Z) (node_id : Z) : bool :=
  bool_decide (Some node_id = NODE_ID) || bool_decide (Some node_id = exclude_node_id).

Definition replicate_endpoint (node_id : Z) (host : string) : string :=
  get_node_flask_url node_id host +:+ "/api/cluster/replicate-visit".

(** The loop over [nodes_info]; [post] is what [requests.post] gives for
    an endpoint and a JSON body. *)
Fixpoint replicate_loop (NODE_ID exclude_node_id : option Z)
  (post : string -> VisitaData -> HttpResult unit) (visita_data' : VisitaData)
  (nodes_info : list (Z * string * Z)) (success_count' : Z) (failed_nodes' : list Z)
  : Z * list Z :=
  match nodes_info with
  | [] => (success_count', failed_nodes')
  | (node_id, host, _) :: rest =>
      if skipped NODE_ID exclude_node_id node_id then
        replicate_loop NODE_ID exclude_node_id post visita_data' rest
          success_count' failed_nodes'
      else
        match post (replicate_endpoint node_id host) visita_data' with
        | Responded status_code _ =>
            if ok status_code then
              replicate_loop NODE_ID exclude_node_id post visita_data' rest
                (success_count' + 1) failed_nodes'
            else
              replicate_loop NODE_ID exclude_node_id post visita_data' rest
                success_count' (failed_nodes' ++ [node_id])
        | _ =>
            replicate_loop NODE_ID exclude_node_id post visita_data' rest
              success_count' (failed_nodes' ++ [node_id])
        end
  end.

(** Truth value of [exclude_node_id]. *)
Definition exclude_given (exclude_node_id : option Z) : bool :=
  match exclude_node_id with
  | Some n => negb (n =? 0)
  | None => false
  end.

Definition node_ids (nodes_info : list (Z * string * Z)) : list Z :=
  map (fun n => fst (fst n)) nodes_info.

Definition replicate_visit_to_cluster (NODE_ID : option Z)
  (bully_manager : option BullyNode) (post : string -> VisitaData -> HttpResult unit)
  (visita_data' : VisitaData) (exclude_node_id : option Z) : ReplicationResult :=
  let nodes_info := get_cluster_nodes_info bully_manager in
  let '(success_count', failed_nodes') :=
    replicate_loop NODE_ID exclude_node_id post visita_data' nodes_info 0 [] in
  let total_nodes' :=
    Z.of_nat (length nodes_info)
    - (if existsb (fun i => bool_decide (Some i = NODE_ID)) (node_ids nodes_info)
       then 1 else 0) in
  mkReplicationResult success_count' failed_nodes'
    (if exclude_given exclude_node_id then total_nodes' - 1 else total_nodes').

(** The nodes a call posts to, and whether a post counts as a success. *)
Definition contacted (NODE_ID exclude_node_id : option Z)
  (nodes_info : list (Z * string * Z)) : list (Z * string * Z) :=
  filter (fun n => skipped NODE_ID exclude_node_id (fst (fst n)) = false) nodes_info.

Definition accepted (post : string -> VisitaData -> HttpResult unit)
  (visita_data' : VisitaData) (n : Z * string * Z) : bool :=
  match post (replicate_endpoint (fst (fst n)) (snd (fst n))) visita_data' with
  | Responded status_code _ => ok status_code
  | _ => false
  end.

Lemma replicate_loop_spec (NODE_ID exclude_node_id : option Z)
  (post : string -> VisitaData -> HttpResult unit) (vd : VisitaData)
  (nodes_info : list (Z * string * Z)) (sc : Z) (fn : list Z) :
  replicate_loop NODE_ID exclude_node_id post vd nodes_info sc fn
  = (sc + Z.of_nat (length (filter (fun n => accepted post vd n = true)
                              (contacted NODE_ID exclude_node_id nodes_info))),
     fn ++ node_ids (filter (fun n => accepted post vd n = false)
                       (contacted NODE_ID exclude_node_id nodes_info))).
Proof.
  revert sc fn. induction nodes_info as [|[[node_id host] tcp] rest IH]; intros sc fn.
  - simpl. rewrite app_nil_r. f_equal. lia.
  - cbn [replicate_loop]. unfold contacted. 
    destruct (skipped NODE_ID exclude_node_id node_id) eqn:Hs.
    + rewrite filter_cons_False by (simpl; rewrite Hs; discriminate). apply IH.
    + rewrite filter_cons_True by (simpl; exact Hs).
      fold (contacted NODE_ID exclude_node_id rest).
      assert (Hacc : accepted post vd (node_id, host, tcp)
                     = match post (replicate_endpoint node_id host) vd with
                       | Responded status_code _ => ok status_code
                       | _ => false
                       end) by reflexivity.
      destruct (accepted post vd (node_id, host, tcp)) eqn:Ha.
      * rewrite filter_cons_True by exact Ha.
        rewrite (filter_cons_False (fun n => accepted post vd n = false))
          by (rewrite Ha; discriminate).
        destruct (post (replicate_endpoint node_id host) vd) as [st b| | |];
          try discriminate.
        rewrite <- Hacc. rewrite IH. f_equal. simpl length. lia.
      * rewrite filter_cons_False by (rewrite Ha; discriminate).
        rewrite (filter_cons_True (fun n => accepted post vd n = false)) by exact Ha.
        assert (E : replicate_loop NODE_ID exclude_node_id post vd rest sc
                      (fn ++ [node_id])
                    = (sc + Z.of_nat (length (filter (fun n => accepted post vd n = true)
                                                (contacted NODE_ID exclude_node_id rest))),
                       fn ++ node_ids ((node_id, host, tcp)
                                       :: filter (fun n => accepted post vd n = false)
                                            (contacted NODE_ID exclude_node_id rest)))).
        { rewrite IH. f_equal. unfold node_ids. simpl. now rewrite <- app_assoc. }
        destruct (post (replicate_endpoint node_id host) vd) as [st b| | |];
          try exact E.
        rewrite <- Hacc. exact E.
Qed.

Lemma length_filter_split {A} (p : A -> bool) (l : list A) :
  (length (filter (fun x => p x = true) l) + length (filter (fun x => p x = false) l)
   = length l)%nat.
Proof.
  induction l as [|a l IH]; [reflexivity |].
  destruct (p a) eqn:E.
  - rewrite filter_cons_True by exact E.
    rewrite (filter_cons_False (fun x => p x = false)) by (rewrite E; discriminate).
    simpl. lia.
  - rewrite filter_cons_False by (rewrite E; discriminate).
    rewrite (filter_cons_True (fun x => p x = false)) by exact E.
    simpl. lia.
Qed.

(** X7: Every node other than the current and the excluded one is posted to
    once and lands either in the success count or in the list of failed
    nodes, in the order of the dictionary; a node fails when it answers an
    error status or the request raises. The total reported is the size
    of the dictionary, less one when it holds the current node and less
    one more when an exclusion was given. *)
Theorem replicate_visit_to_cluster_accounting
  (NODE_ID : option Z) (bully_manager : option BullyNode)
  (post : string -> VisitaData -> HttpResult unit) (vd : VisitaData)
  (exclude_node_id : option Z) :
  let r := replicate_visit_to_cluster NODE_ID bully_manager post vd exclude_node_id in
  let targets := contacted NODE_ID exclude_node_id (get_cluster_nodes_info bully_manager) in
  success_count r = Z.of_nat (length (filter (fun n => accepted post vd n = true) targets)) /\
  failed_nodes r = node_ids (filter (fun n => accepted post vd n = false) targets) /\
  success_count r + Z.of_nat (length (failed_nodes r)) = Z.of_nat (length targets) /\
  (bully_manager = None -> r = mkReplicationResult 0 []
                                 (if exclude_given exclude_node_id then -1 else 0)).
Proof.
  intros r targets. subst r. unfold replicate_visit_to_cluster.
  rewrite replicate_loop_spec. fold targets. cbn [success_count failed_nodes].
  split; [lia |]. split; [reflexivity |]. split.
  - cbn [app]. unfold node_ids. rewrite length_map.
    pose proof (length_filter_split (accepted post vd) targets). lia.
  - intros ->. subst targets. simpl. destruct (exclude_given exclude_node_id); reflexivity.
Qed.

(** X8: In the call the leader makes, with its own id as exclusion, the total
    reported is one less than the number of nodes posted to. *)
Theorem replicate_visit_to_cluster_leader_total
  (node_id : Z) (bully_manager : option BullyNode)
  (post : string -> VisitaData -> HttpResult unit) (vd : VisitaData) :
  node_id <> 0 ->
  NoDup (node_ids (get_cluster_nodes_info bully_manager)) ->
  let r := replicate_visit_to_cluster (Some node_id) bully_manager post vd (Some node_id) in
  total_nodes r = success_count r + Z.of_nat (length (failed_nodes r)) - 1.
Proof.
  intros Hnz Hnd r. subst r. unfold replicate_visit_to_cluster.
  rewrite replicate_loop_spec. cbn [total_nodes success_count failed_nodes exclude_given app].
  assert (Hlen : forall l : list (Z * string * Z), length (node_ids l) = length l)
    by (intros l; unfold node_ids; apply length_map).
  rewrite Hlen.
  pose proof (length_filter_split (accepted post vd)
                (contacted (Some node_id) (Some node_id)
                   (get_cluster_nodes_info bully_manager))) as Hsplit.
  rewrite (proj2 (Z.eqb_neq node_id 0) Hnz). cbn [negb].
  set (nodes := get_cluster_nodes_info bully_manager) in *.
  assert (H : Z.of_nat (length (contacted (Some node_id) (Some node_id) nodes))
              = Z.of_nat (length nodes)
                - (if existsb (fun i => bool_decide (Some i = Some node_id)) (node_ids nodes)
                   then 1 else 0)).
  { clear -Hnd. unfold node_ids in *.
    induction nodes as [|[[i h] t] rest IH]; [reflexivity |].
    simpl in Hnd. apply NoDup_cons in Hnd. destruct Hnd as [Hi Hr].
    specialize (IH Hr). unfold contacted in *. cbn [map existsb fst].
    destruct (bool_decide_reflect (Some i = Some node_id)) as [E|E].
    - rewrite filter_cons_False
        by (unfold skipped; simpl; rewrite bool_decide_eq_true_2 by exact E; discriminate).
      injection E as ->.
      assert (Hno : existsb (fun j => bool_decide (Some j = Some node_id))
                      (map (fun n : Z * string * Z => fst (fst n)) rest) = false).
      { apply not_true_is_false. intros Hex. apply existsb_exists in Hex.
        destruct Hex as (j & Hj & Hb). apply bool_decide_eq_true in Hb.
        injection Hb as ->. apply Hi. apply list_elem_of_In. exact Hj. }
      rewrite Hno in IH. cbn [orb]. simpl length. lia.
    - rewrite filter_cons_True
        by (unfold skipped; simpl; rewrite bool_decide_eq_false_2 by exact E; reflexivity).
      cbn [orb]. simpl length. lia. }
  lia.
Qed.

(** Node 1 leads a cluster whose dictionary holds nodes 2 and 3; node 2
    accepts, node 3 is down. *)
Definition tres_nodos : option BullyNode :=
  Some (mkBullyNode [(2, ("10.0.0.2"%string, 5557, 6002)); (3, ("10.0.0.3"%string, 5558, 6003))]
          (Some 1)).

Definition solo_nodo_2 (url : string) (vd : VisitaData) : HttpResult unit :=
  if String.eqb url "http://10.0.0.2:5002/api/cluster/replicate-visit"
  then Responded 201 tt else ConnectionError.

Lemma replicate_visit_to_cluster_leader_total_example :
  (1 <> 0) /\
  NoDup (node_ids (get_cluster_nodes_info tres_nodos)) /\
  replicate_visit_to_cluster (Some 1) tres_nodos solo_nodo_2 Escenarios.replica_payload
    (Some 1)
  = mkReplicationResult 1 [3] 1 /\
  (let r := replicate_visit_to_cluster (Some 1) tres_nodos solo_nodo_2
              Escenarios.replica_payload (Some 1) in
   total_nodes r = success_count r + Z.of_nat (length (failed_nodes r)) - 1).
Proof.
  assert (N : NoDup (node_ids (get_cluster_nodes_info tres_nodos))).
  { simpl. repeat constructor; intros H; repeat (apply elem_of_cons in H;
      destruct H as [H|H]; [discriminate |]); inversion H. }
  split; [discriminate |]. split; [exact N |]. split; [vm_compute; reflexivity |].
  apply (replicate_visit_to_cluster_leader_total 1 tres_nodos solo_nodo_2
           Escenarios.replica_payload); [discriminate | exact N].
Defined.

(** *** [get_all_cluster_stats] *)

(** The six counters of a node. *)
Record Counts := mkCounts {
  doctors_available : Z;
  doctors_total : Z;
  beds_available : Z;
  beds_total : Z;
  visits_active : Z;
  visits_completed : Z
}.

Definition add_counts (a b : Counts) : Counts :=
  mkCounts (doctors_available a + doctors_available b)
    (doctors_total a + doctors_total b)
    (beds_available a + beds_available b)
    (beds_total a + beds_total b)
    (visits_active a + visits_active b)
    (visits_completed a + visits_completed b).

Definition zero_counts : Counts := mkCounts 0 0 0 0 0 0.

(** A value found in a body where a counter is expected: an integer, as
    [get_stats] sends it, or a value that [+=] on an integer total
    rejects with TypeError (null, a string, a list, an object). A body
    with a counter that is a number with a fraction, or true or false,
    is not covered: it would be added and make the totals something
    else than integers. *)
Inductive JValue :=
| JInt (n : Z)
| JNotNumber.

(** The six values read from a body that has every key, in the order in
    which [node_stats] is built and the totals are updated. *)
Record StatsBody := mkStatsBody {
  b_doctors_available : JValue;
  b_doctors_total : JValue;
  b_beds_available : JValue;
  b_beds_total : JValue;
  b_visits_active : JValue;
  b_visits_completed : JValue
}.

(** An entry of the list ['nodes']. *)
Inductive NodeEntry :=
| LocalNode (node_id : option Z) (c : Counts)
| OnlineNode (node_id : Z) (stats : StatsBody)
| ErrorNode (node_id : Z)
| OfflineNode (node_id : Z).

Record ClusterStats := mkClusterStats {
  nodes : list NodeEntry;
  totals : Counts
}.

(** [filter_by(id_sala=Config.NODE_ID)]: no row matches a missing id. *)
Definition in_sala (NODE_ID : option Z) (sala : Z) : bool :=
  bool_decide (Some sala = NODE_ID).

Definition count_map {A} (p : A -> bool) (m : gmap Z A) : Z :=
  Z.of_nat (length (filter (fun kv => p (snd kv) = true) (map_to_list m))).

Definition count_list {A} (p : A -> bool) (l : list A) : Z :=
  Z.of_nat (length (filter (fun x => p x = true) l)).

(** The local statistics, one query per counter. *)
Definition local_counts (NODE_ID : option Z) (db : Database) : Counts :=
  mkCounts
    (count_map (fun d => in_sala NODE_ID (doc_id_sala d) && disponible d && doc_activo d)
       (doctores db))
    (count_map (fun d => in_sala NODE_ID (doc_id_sala d) && doc_activo d) (doctores db))
    (count_map (fun c => in_sala NODE_ID (cama_id_sala c) && negb (ocupada c)) (camas db))
    (count_map (fun c => in_sala NODE_ID (cama_id_sala c)) (camas db))
    (count_list (fun v => in_sala NODE_ID (id_sala v) && String.eqb (estado v) "activa")
       (visitas db))
    (count_list (fun v => in_sala NODE_ID (id_sala v) && String.eqb (estado v) "completada")
       (visitas db)).

Definition stats_url (host : string) (tcp_port : Z) : string :=
  "http://" +:+ host +:+ ":" +:+ py_str tcp_port +:+ "/api/cluster/stats".

(** The six [+=] on the totals, in their order. The first value that is
    not a number raises; the totals keep what the earlier ones added.
    The boolean tells whether all six were added. *)
Definition add_stats (t : Counts) (s : StatsBody) : Counts * bool :=
  match b_doctors_available s with
  | JNotNumber => (t, false)
  | JInt a =>
      let t1 := mkCounts (doctors_available t + a) (doctors_total t) (beds_available t)
                  (beds_total t) (visits_active t) (visits_completed t) in
      match b_doctors_total s with
      | JNotNumber => (t1, false)
      | JInt b =>
          let t2 := mkCounts (doctors_available t1) (doctors_total t1 + b)
                      (beds_available t1) (beds_total t1) (visits_active t1)
                      (visits_completed t1) in
          match b_beds_available s with
          | JNotNumber => (t2, false)
          | JInt c =>
              let t3 := mkCounts (doctors_available t2) (doctors_total t2)
                          (beds_available t2 + c) (beds_total t2) (visits_active t2)
                          (visits_completed t2) in
              match b_beds_total s with
              | JNotNumber => (t3, false)
              | JInt d =>
                  let t4 := mkCounts (doctors_available t3) (doctors_total t3)
                              (beds_available t3) (beds_total t3 + d) (visits_active t3)
                              (visits_completed t3) in
                  match b_visits_active s with
                  | JNotNumber => (t4, false)
                  | JInt e =>
                      let t5 := mkCounts (doctors_available t4) (doctors_total t4)
                                  (beds_available t4) (beds_total t4) (visits_active t4 + e)
                                  (visits_completed t4) in
                      match b_visits_completed s with
                      | JNotNumber => (t5, false)
                      | JInt f =>
                          (mkCounts (doctors_available t5) (doctors_total t5)
                             (beds_available t5) (beds_total t5) (visits_active t5)
                             (visits_completed t5 + f), true)
                      end
                  end
              end
          end
      end
  end.

(** The loop over the other nodes; [get] is what [requests.get] gives
    for a URL. The body of a response is [None] when it is not JSON or
    lacks one of the keys: reading it raises before anything is appended.
    Otherwise the online entry is appended first and the totals are
    updated after it; when that update raises, the [except] clause
    appends an offline entry for the same node. *)
Fixpoint stats_loop (NODE_ID : option Z) (get : string -> HttpResult (option StatsBody))
  (nodes_info : list (Z * string * Z)) (acc : ClusterStats) : ClusterStats :=
  match nodes_info with
  | [] => acc
  | (node_id, host, tcp_port) :: rest =>
      if bool_decide (Some node_id = NODE_ID) then stats_loop NODE_ID get rest acc
      else
        match get (stats_url host tcp_port) with
        | Responded status_code body =>
            if ok status_code then
              match body with
              | Some node_stats =>
                  let listed := nodes acc ++ [OnlineNode node_id node_stats] in
                  let '(t, added) := add_stats (totals acc) node_stats in
                  if added then stats_loop NODE_ID get rest (mkClusterStats listed t)
                  else
                    stats_loop NODE_ID get rest
                      (mkClusterStats (listed ++ [OfflineNode node_id]) t)
              | None =>
                  stats_loop NODE_ID get rest
                    (mkClusterStats (nodes acc ++ [OfflineNode node_id]) (totals acc))
              end
            else
              stats_loop NODE_ID get rest
                (mkClusterStats (nodes acc ++ [ErrorNode node_id]) (totals acc))
        | _ =>
            stats_loop NODE_ID get rest
              (mkClusterStats (nodes acc ++ [OfflineNode node_id]) (totals acc))
        end
  end.

Definition get_all_cluster_stats (NODE_ID : option Z) (bully_manager : option BullyNode)
  (get : string -> HttpResult (option StatsBody)) (db : Database) : ClusterStats :=
  let local_stats := local_counts NODE_ID db in
  stats_loop NODE_ID get (get_cluster_nodes_info bully_manager)
    (mkClusterStats [LocalNode NODE_ID local_stats] (add_counts zero_counts local_stats)).



Definition entry_id (e : NodeEntry) : option Z :=
  match e with
  | LocalNode i _ => i
  | OnlineNode i _ | ErrorNode i | OfflineNode i => Some i
  end.















(** Node 2 answers 200 with a body whose second counter is null: it is
    listed as online and as offline, and its first counter is in the
    totals. *)
Lemma get_all_cluster_stats_null_counter :
  let get := fun url : string =>
               if String.eqb url "http://10.0.0.2:5557/api/cluster/stats"
               then Responded 200 (Some (mkStatsBody (JInt 3) JNotNumber (JInt 4) (JInt 5)
                                           (JInt 1) (JInt 0)))
               else ConnectionError in
  let r := get_all_cluster_stats (Some 1) tres_nodos get Escenarios.ward_fresh in
  map entry_id (nodes r) = [Some 1; Some 2; Some 2; Some 3] /\
  doctors_available (totals r) = 3 + doctors_available (local_counts (Some 1) Escenarios.ward_fresh) /\
  doctors_total (totals r) = doctors_total (local_counts (Some 1) Escenarios.ward_fresh).
Proof. vm_compute. repeat split; reflexivity. Qed.

End Cluster.

(* ===================================================================== *)
(** ** Persisted identity and the configuration derived from it *)
(* ===================================================================== *)

Module Persistencia.
Import PyFormat IdGenerator.

(** What a file of the directory [data/node_ids] holds: text that
    [json.load] or [int] rejects, or an object with its ["node_id"]
    field, absent or null as [None]. *)
Inductive Contenido :=
| Ilegible
| Json (node_id : option Z).

(** The directory, by file name. *)
Abbreviation Disco := (gmap string Contenido).

(** [get_persistent_id_file], relative to the directory; [pid] is what
    [os.getpid()] returns. *)
Definition get_persistent_id_file (pid : Z) (use_process_unique : bool) : string :=
  if use_process_unique then "node_pid_" +:+ py_str pid +:+ ".json" else "node_id.json".

Definition ruta (pid : Z) (persist_file : option string) (use_process_unique : bool)
  : string :=
  match persist_file with
  | Some f => f
  | None => get_persistent_id_file pid use_process_unique
  end.

(** [save_node_id]; [escribe] tells whether opening the file for writing
    succeeds. A failure is logged and the disk stays as it is. *)
Definition save_node_id (pid : Z) (escribe : bool) (node_id : Z)
  (persist_file : option string) (use_process_unique : bool) (d : Disco) : Disco :=
  if escribe then <[ruta pid persist_file use_process_unique := Json (Some node_id)]> d
  else d.

(** [load_node_id] *)
Definition load_node_id (pid : Z) (persist_file : option string)
  (use_process_unique : bool) (d : Disco) : option Z :=
  match d !! ruta pid persist_file use_process_unique with
  | Some (Json (Some node_id)) => Some node_id
  | _ => None
  end.

(** [get_or_create_node_id]; the search uses the default start and bound
    of [generate_node_id] and its error is not caught. *)
Definition get_or_create_node_id (pid : Z) (os : Sistema) (escribe : bool)
  (persist_file : option string) (force_new use_process_unique : bool) (d : Disco)
  : outcome * Disco :=
  let generate :=
    match generate_node_id os 1 default_max_attempts with
    | Returned new_id =>
        (Returned new_id, save_node_id pid escribe new_id persist_file use_process_unique d)
    | RuntimeError => (RuntimeError, d)
    end in
  if force_new then generate
  else
    match load_node_id pid persist_file use_process_unique d with
    | Some existing_id => (Returned existing_id, d)
    | None => generate
    end.

(** [clear_persistent_id]; [borra] tells whether [os.remove] succeeds. *)
Definition clear_persistent_id (pid : Z) (borra : bool) (persist_file : option string)
  (use_process_unique : bool) (d : Disco) : bool * Disco :=
  match d !! ruta pid persist_file use_process_unique with
  | Some _ =>
      if borra then (true, delete (ruta pid persist_file use_process_unique) d)
      else (false, d)
  | None => (false, d)
  end.

(** Arguments of [validate_node_id]: an [int], or a value of another
    type. *)
Inductive PyValue :=
| VInt (n : Z)
| VOther.

Definition validate_node_id (node_id : PyValue) : bool :=
  match node_id with
  | VOther => false
  | VInt n => if n <=? 0 then false else if n >=? 2 ^ 31 then false else true
  end.

(** *** [Config] *)

Record Config := mkConfig {
  NODE_ID : option Z;
  _node_id_auto_generated : bool;
  FLASK_PORT : Z;
  TCP_PORT : Z;
  UDP_PORT : Z;
  SQLALCHEMY_DATABASE_URI : string
}.

(** ["temp.db" in uri] *)
Definition has_temp_db (uri : string) : bool :=
  match String.index 0 "temp.db" uri with
  | Some _ => true
  | None => false
  end.

Definition sala_uri (data_dir : string) (node_id : Z) : string :=
  "sqlite:///" +:+ data_dir +:+ "/emergency_sala" +:+ py_str node_id +:+ ".db".

(** The second half of [initialize_node_id], once the id is known. *)
Definition derive_ports (data_dir : string) (node_id : Z) (auto : bool) (c : Config)
  : Config :=
  mkConfig (Some node_id) auto
    (if FLASK_PORT c =? 0 then 5000 + node_id mod 1000 else FLASK_PORT c)
    (if TCP_PORT c =? 0 then 5555 + node_id mod 1000 else TCP_PORT c)
    (if UDP_PORT c =? 0 then 6000 + node_id mod 1000 else UDP_PORT c)
    (if has_temp_db (SQLALCHEMY_DATABASE_URI c) then sala_uri data_dir node_id
     else SQLALCHEMY_DATABASE_URI c).

(** [Config.initialize_node_id]: the id it returns with the class
    attributes and the disk afterwards, or the error of the search. *)
Definition initialize_node_id (pid : Z) (os : Sistema) (escribe : bool)
  (data_dir : string) (c : Config) (d : Disco) : option (Z * Config) * Disco :=
  match NODE_ID c with
  | Some node_id =>
      (Some (node_id, derive_ports data_dir node_id (_node_id_auto_generated c) c), d)
  | None =>
      match get_or_create_node_id pid os escribe None false true d with
      | (Returned generated_id, d') =>
          (Some (generated_id, derive_ports data_dir generated_id true c), d')
      | (RuntimeError, d') => (None, d')
      end
  end.

(** The class as it is before the call when the environment sets
    neither NODE_ID nor FLASK_PORT nor DATABASE_URI. *)
Definition config_inicial (data_dir : string) : Config :=
  mkConfig None false 0 0 0 ("sqlite:///" +:+ data_dir +:+ "/emergency_salatemp.db").

(** *** Round trips of the persisted id *)

(** X10: What is saved is what is loaded; a successful clear makes the load
    come back empty; and a save to one file leaves every other file as it
    was. *)
Theorem persisted_id_round_trip
  (pid node_id : Z) (persist_file : option string) (use_process_unique : bool) (d : Disco) :
  let saved := save_node_id pid true node_id persist_file use_process_unique d in
  load_node_id pid persist_file use_process_unique saved = Some node_id /\
  clear_persistent_id pid true persist_file use_process_unique saved
  = (true, delete (ruta pid persist_file use_process_unique) d) /\
  load_node_id pid persist_file use_process_unique
    (snd (clear_persistent_id pid true persist_file use_process_unique saved)) = None /\
  (forall other : string,
     other <> ruta pid persist_file use_process_unique ->
     load_node_id pid (Some other) use_process_unique saved
     = load_node_id pid (Some other) use_process_unique d) /\
  save_node_id pid false node_id persist_file use_process_unique d = d.
Proof.
  cbv zeta. unfold save_node_id, load_node_id, clear_persistent_id.
  set (f := ruta pid persist_file use_process_unique).
  rewrite !lookup_insert_eq. cbn [snd].
  split; [reflexivity |]. split; [now rewrite delete_insert_eq |].
  split; [now rewrite lookup_delete_eq |]. split; [| reflexivity].
  intros other Hne. cbn [ruta]. rewrite lookup_insert_ne by congruence. reflexivity.
Qed.

(** *** A generated id *)

Lemma generate_default (os : Sistema) (n : Z) :
  generate_node_id os 1 default_max_attempts = Returned n ->
  1 <= n <= 100 /\ id_available os n = true /\
  (forall y, 1 <= y < n -> id_available os y = false).
Proof.
  unfold generate_node_id, default_max_attempts. intros H.
  apply scan_returned in H. replace (Z.of_nat (Z.to_nat 100)) with 100 in H by reflexivity.
  destruct H as (H1 & H2 & H3). split; [lia | split; assumption].
Qed.

Lemma get_or_create_generated
  (pid : Z) (os : Sistema) (escribe : bool) (persist_file : option string)
  (force_new use_process_unique : bool) (d d' : Disco) (n : Z) :
  force_new = true \/ load_node_id pid persist_file use_process_unique d = None ->
  get_or_create_node_id pid os escribe persist_file force_new use_process_unique d
  = (Returned n, d') ->
  generate_node_id os 1 default_max_attempts = Returned n /\
  d' = save_node_id pid escribe n persist_file use_process_unique d.
Proof.
  intros Hfresh H. unfold get_or_create_node_id in H.
  assert (G : match generate_node_id os 1 default_max_attempts with
              | Returned new_id =>
                  (Returned new_id,
                   save_node_id pid escribe new_id persist_file use_process_unique d)
              | RuntimeError => (RuntimeError, d)
              end = (Returned n, d')).
  { destruct force_new; [exact H |]. destruct Hfresh as [?|Hl]; [discriminate |].
    rewrite Hl in H. exact H. }
  destruct (generate_node_id os 1 default_max_attempts) as [m|]; [| discriminate].
  injection G as -> <-. split; reflexivity.
Qed.

(** X11: When no id is on file, or a new one is forced, the id returned lies
    between 1 and 100, passes [validate_node_id], is the least id whose
    TCP and UDP ports are both free, and, the write succeeding, is on
    file afterwards. *)
Theorem fresh_node_id_is_valid_and_free
  (pid : Z) (os : Sistema) (escribe : bool) (persist_file : option string)
  (force_new use_process_unique : bool) (d d' : Disco) (n : Z) :
  force_new = true \/ load_node_id pid persist_file use_process_unique d = None ->
  get_or_create_node_id pid os escribe persist_file force_new use_process_unique d
  = (Returned n, d') ->
  1 <= n <= 100 /\
  validate_node_id (VInt n) = true /\
  _is_port_available os (tcp_port_of n) = true /\
  _is_port_available os (udp_port_of n) = true /\
  (forall y, 1 <= y < n -> id_available os y = false) /\
  (escribe = true -> load_node_id pid persist_file use_process_unique d' = Some n) /\
  (escribe = false -> d' = d).
Proof.
  intros Hfresh H.
  destruct (get_or_create_generated _ _ _ _ _ _ _ _ _ Hfresh H) as [E ->].
  destruct (generate_default os n E) as (Hr & Ha & Hmin).
  split; [exact Hr |]. split.
  { unfold validate_node_id. destruct (Z.leb_spec n 0); [lia |].
    destruct (Z.geb_spec n (2 ^ 31)); [| reflexivity].
    assert (2 ^ 31 = 2147483648) by reflexivity. lia. }
  unfold id_available in Ha. apply andb_true_iff in Ha. destruct Ha as [Ht Hu].
  split; [exact Ht |]. split; [exact Hu |]. split; [exact Hmin |]. split.
  - intros ->. unfold save_node_id, load_node_id. now rewrite lookup_insert_eq.
  - intros ->. reflexivity.
Qed.

(** X12: Once an id has been returned and written, every later call that does
    not force a new one returns the same id from the file, without a
    search: whatever the ports have become, and whether or not the disk
    can still be written. *)
Theorem get_or_create_node_id_stable
  (pid : Z) (os : Sistema) (persist_file : option string)
  (force_new use_process_unique : bool) (d d' : Disco) (n : Z)
  (os2 : Sistema) (escribe2 : bool) :
  get_or_create_node_id pid os true persist_file force_new use_process_unique d
  = (Returned n, d') ->
  get_or_create_node_id pid os2 escribe2 persist_file false use_process_unique d'
  = (Returned n, d').
Proof.
  intros H.
  assert (L : load_node_id pid persist_file use_process_unique d' = Some n).
  { unfold get_or_create_node_id in H.
    assert (G : match generate_node_id os 1 default_max_attempts with
                | Returned new_id =>
                    (Returned new_id,
                     save_node_id pid true new_id persist_file use_process_unique d)
                | RuntimeError => (RuntimeError, d)
                end = (Returned n, d') ->
                load_node_id pid persist_file use_process_unique d' = Some n).
    { destruct (generate_node_id os 1 default_max_attempts); [| discriminate].
      intros [= -> <-]. unfold save_node_id, load_node_id. now rewrite lookup_insert_eq. }
    destruct force_new; [auto |].
    destruct (load_node_id pid persist_file use_process_unique d) as [e|] eqn:E; [| auto].
    injection H as -> <-. exact E. }
  unfold get_or_create_node_id. rewrite L. reflexivity.
Qed.

(** *** [Config.initialize_node_id] *)

Lemma derive_ports_again (data_dir : string) (node_id : Z) (auto : bool) (c : Config) :
  derive_ports data_dir node_id auto (derive_ports data_dir node_id auto c)
  = derive_ports data_dir node_id auto c.
Proof.
  unfold derive_ports. cbn [FLASK_PORT TCP_PORT UDP_PORT SQLALCHEMY_DATABASE_URI].
  pose proof (Z.mod_pos_bound node_id 1000 ltac:(lia)) as Hm.
  f_equal.
  - destruct (Z.eqb_spec (FLASK_PORT c) 0) as [E|E].
    + destruct (Z.eqb_spec (5000 + node_id mod 1000) 0); [lia | reflexivity].
    + destruct (Z.eqb_spec (FLASK_PORT c) 0); [contradiction | reflexivity].
  - destruct (Z.eqb_spec (TCP_PORT c) 0) as [E|E].
    + destruct (Z.eqb_spec (5555 + node_id mod 1000) 0); [lia | reflexivity].
    + destruct (Z.eqb_spec (TCP_PORT c) 0); [contradiction | reflexivity].
  - destruct (Z.eqb_spec (UDP_PORT c) 0) as [E|E].
    + destruct (Z.eqb_spec (6000 + node_id mod 1000) 0); [lia | reflexivity].
    + destruct (Z.eqb_spec (UDP_PORT c) 0); [contradiction | reflexivity].
  - destruct (has_temp_db (SQLALCHEMY_DATABASE_URI c)) eqn:E.
    + destruct (has_temp_db (sala_uri data_dir node_id)); reflexivity.
    + rewrite E. reflexivity.
Qed.

(** X13: When the environment gives neither an id nor ports and no id is on
    file, the node ends up with the least free id between 1 and 100; its
    TCP and UDP ports are the two ports the search found free; its
    Flask port is the one at which the other nodes address it
    ([get_node_flask_url]); and the three ports lie in 5000..5999,
    5555..6554 and 6000..6999. *)
Theorem initialize_node_id_uses_the_ports_found_free
  (pid : Z) (os : Sistema) (escribe : bool) (data_dir : string) (c c' : Config)
  (d d' : Disco) (n : Z) :
  NODE_ID c = None -> FLASK_PORT c = 0 -> TCP_PORT c = 0 -> UDP_PORT c = 0 ->
  load_node_id pid None true d = None ->
  initialize_node_id pid os escribe data_dir c d = (Some (n, c'), d') ->
  NODE_ID c' = Some n /\ _node_id_auto_generated c' = true /\ 1 <= n <= 100 /\
  TCP_PORT c' = tcp_port_of n /\ UDP_PORT c' = udp_port_of n /\
  _is_port_available os (TCP_PORT c') = true /\
  _is_port_available os (UDP_PORT c') = true /\
  FLASK_PORT c' = Cluster.flask_port_of n /\
  5000 <= FLASK_PORT c' <= 5999 /\ 5555 <= TCP_PORT c' <= 6554 /\
  6000 <= UDP_PORT c' <= 6999.
Proof.
  intros Hn Hf Ht Hu Hl H. unfold initialize_node_id in H. rewrite Hn in H.
  destruct (get_or_create_node_id pid os escribe None false true d) as [[m|] d1] eqn:G;
    [| discriminate].
  injection H as -> <- <-.
  destruct (get_or_create_generated _ _ _ _ _ _ _ _ _ (or_intror Hl) G) as [E _].
  destruct (generate_default os n E) as (Hr & Ha & _).
  unfold id_available in Ha. apply andb_true_iff in Ha. destruct Ha as [Hta Hua].
  unfold derive_ports. cbn [NODE_ID _node_id_auto_generated FLASK_PORT TCP_PORT UDP_PORT].
  rewrite Hf, Ht, Hu. cbn [Z.eqb].
  pose proof (Z.mod_pos_bound n 1000 ltac:(lia)) as Hm.
  unfold tcp_port_of, udp_port_of, Cluster.flask_port_of in *.
  repeat split; try assumption; lia.
Qed.

(** X14: A second call changes nothing: it returns the same id and leaves the
    attributes and the disk as the first call left them, without a
    search. *)
Theorem initialize_node_id_idempotent
  (pid : Z) (os : Sistema) (escribe : bool) (data_dir : string) (c c' : Config)
  (d d' : Disco) (n : Z) (pid2 : Z) (os2 : Sistema) (escribe2 : bool) (d2 : Disco) :
  initialize_node_id pid os escribe data_dir c d = (Some (n, c'), d') ->
  initialize_node_id pid2 os2 escribe2 data_dir c' d2 = (Some (n, c'), d2).
Proof.
  intros H. unfold initialize_node_id in H.
  assert (Hc : exists auto, c' = derive_ports data_dir n auto c).
  { destruct (NODE_ID c) as [m|].
    - injection H as -> <- <-. eauto.
    - destruct (get_or_create_node_id pid os escribe None false true d) as [[m|] d1];
        [| discriminate].
      injection H as -> <- <-. eauto. }
  destruct Hc as [auto ->]. unfold initialize_node_id.
  cbn [NODE_ID derive_ports _node_id_auto_generated].
  f_equal. f_equal. f_equal. apply derive_ports_again.
Qed.

(** A host on which ids 1 and 2 are taken: a first start with an empty
    directory. *)
Lemma initialize_node_id_example :
  let r := initialize_node_id 4242 Escenarios.two_nodes_running true "/srv/data"
             (config_inicial "/srv/data") ∅ in
  r = (Some (3, mkConfig (Some 3) true 5003 5558 6003
                  "sqlite:////srv/data/emergency_sala3.db"),
       {[ "node_pid_4242.json"%string := Json (Some 3) ]}) /\
  initialize_node_id 4242 Escenarios.two_nodes_running true "/srv/data"
    (mkConfig (Some 3) true 5003 5558 6003 "sqlite:////srv/data/emergency_sala3.db")
    {[ "node_pid_4242.json"%string := Json (Some 3) ]}
  = (Some (3, mkConfig (Some 3) true 5003 5558 6003
                 "sqlite:////srv/data/emergency_sala3.db"),
     {[ "node_pid_4242.json"%string := Json (Some 3) ]}).
Proof.
  assert (E : initialize_node_id 4242 Escenarios.two_nodes_running true "/srv/data"
                (config_inicial "/srv/data") ∅
              = (Some (3, mkConfig (Some 3) true 5003 5558 6003
                             "sqlite:////srv/data/emergency_sala3.db"),
                 {[ "node_pid_4242.json"%string := Json (Some 3) ]}))
    by (vm_compute; reflexivity).
  split; [exact E |].
  exact (initialize_node_id_idempotent _ _ _ _ _ _ _ _ _ 4242
           Escenarios.two_nodes_running true _ E).
Defined.

(** With nodes 1 and 2 running and nothing on file, process 4242 gets
    id 3 and finds it on file afterwards. *)
Lemma fresh_node_id_example :
  1 <= 3 <= 100 /\
  validate_node_id (VInt 3) = true /\
  _is_port_available Escenarios.two_nodes_running (tcp_port_of 3) = true /\
  _is_port_available Escenarios.two_nodes_running (udp_port_of 3) = true /\
  load_node_id 4242 None true {[ "node_pid_4242.json"%string := Json (Some 3) ]} = Some 3.
Proof.
  assert (E : get_or_create_node_id 4242 Escenarios.two_nodes_running true None false
                true ∅
              = (Returned 3, {[ "node_pid_4242.json"%string := Json (Some 3) ]}))
    by (vm_compute; reflexivity).
  assert (L : false = true \/ load_node_id 4242 None true ∅ = None)
    by (right; vm_compute; reflexivity).
  destruct (fresh_node_id_is_valid_and_free 4242 Escenarios.two_nodes_running true None
              false true ∅ _ 3 L E) as (H1 & H2 & H3 & H4 & _ & H6 & _).
  split; [exact H1 |]. split; [exact H2 |]. split; [exact H3 |]. split; [exact H4 |].
  apply H6. reflexivity.
Defined.

(** A forced new id written to the shared file [node_id.json] is the one
    a later call returns, whatever ports are free by then. *)
Lemma get_or_create_node_id_stable_example :
  get_or_create_node_id 7 (mkSistema (fun _ => true) (fun _ => true)) false
    (Some "node_id.json"%string) false false
    {[ "node_id.json"%string := Json (Some 3) ]}
  = (Returned 3, {[ "node_id.json"%string := Json (Some 3) ]}).
Proof.
  assert (E : get_or_create_node_id 7 Escenarios.two_nodes_running true
                (Some "node_id.json"%string) true false
                {[ "node_id.json"%string := Json (Some 9) ]}
              = (Returned 3, {[ "node_id.json"%string := Json (Some 3) ]}))
    by (vm_compute; reflexivity).
  exact (get_or_create_node_id_stable 7 Escenarios.two_nodes_running
           (Some "node_id.json"%string) true false _ _ 3
           (mkSistema (fun _ => true) (fun _ => true)) false E).
Defined.

(** The first start of process 4242 beside nodes 1 and 2: ports 5003,
    5558 and 6003. *)
Lemma initialize_node_id_ports_example :
  let c' := mkConfig (Some 3) true 5003 5558 6003
              "sqlite:////srv/data/emergency_sala3.db" in
  TCP_PORT c' = tcp_port_of 3 /\ UDP_PORT c' = udp_port_of 3 /\
  _is_port_available Escenarios.two_nodes_running (TCP_PORT c') = true /\
  _is_port_available Escenarios.two_nodes_running (UDP_PORT c') = true /\
  FLASK_PORT c' = Cluster.flask_port_of 3.
Proof.
  assert (E : initialize_node_id 4242 Escenarios.two_nodes_running true "/srv/data"
                (config_inicial "/srv/data") ∅
              = (Some (3, mkConfig (Some 3) true 5003 5558 6003
                             "sqlite:////srv/data/emergency_sala3.db"),
                 {[ "node_pid_4242.json"%string := Json (Some 3) ]}))
    by (vm_compute; reflexivity).
  assert (L : load_node_id 4242 None true ∅ = None) by (vm_compute; reflexivity).
  destruct (initialize_node_id_uses_the_ports_found_free 4242
              Escenarios.two_nodes_running true "/srv/data" (config_inicial "/srv/data")
              _ ∅ _ 3 eq_refl eq_refl eq_refl eq_refl L E)
    as (_ & _ & _ & H4 & H5 & H6 & H7 & H8 & _).
  cbv zeta. repeat split; assumption.
Defined.

End Persistencia.

(* ===================================================================== *)
(** ** Discovery: what the messages of one node do to another *)
(* ===================================================================== *)

Module DiscoveryMessages.
Import Discovery.

(** [_send_announce]: the datagram a node multicasts; [tcp_port] and
    [udp_port] are the ports the object was built with. *)
Definition _send_announce (tcp_port udp_port : Z) (d : NodeDiscovery) : Message :=
  mkMessage (Some "ANNOUNCE"%string) (Some (KInt (node_id d))) (Some tcp_port)
    (Some udp_port).

(** [_send_leave_message] *)
Definition _send_leave_message (d : NodeDiscovery) : Message :=
  mkMessage (Some "LEAVE"%string) (Some (KInt (node_id d))) None None.

(** [get_node_count] *)
Definition get_node_count (d : NodeDiscovery) : nat := size (discovered_nodes d).

Lemma handle_announce_of_other (now : Z) (my_ip : option string) (tcp_port udp_port : Z)
  (a b : NodeDiscovery) (sender_ip : string) :
  node_id a <> node_id b ->
  _handle_message now my_ip (Some (_send_announce tcp_port udp_port a)) sender_ip b
  = (with_nodes (<[KInt (node_id a) := mkNodeInfo sender_ip tcp_port udp_port now]>
                   (discovered_nodes b)) b,
     if bool_decide (discovered_nodes b !! KInt (node_id a) = None) && on_node_discovered b
     then [NodeDiscovered (KInt (node_id a)) sender_ip tcp_port udp_port] else []).
Proof.
  intros Hne. unfold _handle_message, _send_announce. cbn [msg_node_id msg_type].
  rewrite bool_decide_eq_false_2 by congruence. reflexivity.
Qed.

Lemma handle_leave_of_other (now : Z) (my_ip : option string) (a b : NodeDiscovery)
  (sender_ip : string) :
  node_id a <> node_id b ->
  _handle_message now my_ip (Some (_send_leave_message a)) sender_ip b
  = _remove_node (KInt (node_id a)) b.
Proof.
  intros Hne. unfold _handle_message, _send_leave_message. cbn [msg_node_id msg_type].
  rewrite bool_decide_eq_false_2 by congruence. reflexivity.
Qed.

(** X15: The announce of node [a], received by a node [b] with another id,
    registers [a] under the address the datagram came from and the ports
    it announces, stamped with the clock of [b]; the other peers are as
    before; the discovered callback, when set, is started only if [a]
    was unknown, and the count of peers grows by one exactly then. The
    same datagram received by [a] itself changes nothing. *)
Theorem announce_registers_the_sender
  (now : Z) (my_ip : option string) (tcp_port udp_port : Z) (a b : NodeDiscovery)
  (sender_ip : string) :
  node_id a <> node_id b ->
  let r := _handle_message now my_ip (Some (_send_announce tcp_port udp_port a))
             sender_ip b in
  let known := bool_decide (is_Some (discovered_nodes b !! KInt (node_id a))) in
  get_discovered_nodes (fst r) !! KInt (node_id a) = Some (sender_ip, tcp_port, udp_port) /\
  last_seen <$> discovered_nodes (fst r) !! KInt (node_id a) = Some now /\
  (forall k, k <> KInt (node_id a) ->
             discovered_nodes (fst r) !! k = discovered_nodes b !! k) /\
  snd r = (if negb known && on_node_discovered b
           then [NodeDiscovered (KInt (node_id a)) sender_ip tcp_port udp_port] else []) /\
  get_node_count (fst r) = (get_node_count b + if known then 0 else 1)%nat /\
  fst (_handle_message now my_ip (Some (_send_announce tcp_port udp_port a)) sender_ip a)
  = a.
Proof.
  intros Hne r known.
  assert (Hself : fst (_handle_message now my_ip
                         (Some (_send_announce tcp_port udp_port a)) sender_ip a) = a)
    by (apply handle_message_own_id; reflexivity).
  subst r. rewrite handle_announce_of_other by exact Hne.
  cbn [fst snd]. unfold get_discovered_nodes, get_node_count. cbn [discovered_nodes with_nodes].
  rewrite lookup_fmap, !lookup_insert_eq. cbn [fmap option_fmap option_map host info_tcp_port info_udp_port last_seen].
  split; [reflexivity |]. split; [reflexivity |].
  split; [intros k Hk; now rewrite lookup_insert_ne by congruence |].
  split; [| split; [| exact Hself]].
  - subst known. destruct (discovered_nodes b !! KInt (node_id a)) as [i|] eqn:E.
    + rewrite bool_decide_eq_false_2 by discriminate.
      rewrite bool_decide_eq_true_2 by eauto. reflexivity.
    + rewrite bool_decide_eq_true_2 by reflexivity.
      rewrite bool_decide_eq_false_2 by (intros [? ?]; discriminate). reflexivity.
  - subst known. destruct (discovered_nodes b !! KInt (node_id a)) as [i|] eqn:E.
    + rewrite bool_decide_eq_true_2 by eauto.
      rewrite map_size_insert_Some by eauto. lia.
    + rewrite bool_decide_eq_false_2 by (intros [? ?]; discriminate).
      rewrite map_size_insert_None by exact E. lia.
Qed.

(** X16: The leave message of node [a], received by [b], removes [a] and
    nothing else; the lost callback, when set, is started only if [a]
    was known. An announce of an unknown node followed by its leave puts
    the peer table back exactly as it was. *)
Theorem leave_forgets_the_sender
  (now now2 : Z) (my_ip : option string) (tcp_port udp_port : Z) (a b : NodeDiscovery)
  (sender_ip : string) :
  node_id a <> node_id b ->
  let r := _handle_message now my_ip (Some (_send_leave_message a)) sender_ip b in
  discovered_nodes (fst r) = delete (KInt (node_id a)) (discovered_nodes b) /\
  snd r = (if bool_decide (is_Some (discovered_nodes b !! KInt (node_id a)))
              && on_node_lost b
           then [NodeLost (KInt (node_id a))] else []) /\
  (discovered_nodes b !! KInt (node_id a) = None ->
   let announced :=
     fst (_handle_message now my_ip (Some (_send_announce tcp_port udp_port a))
            sender_ip b) in
   fst (_handle_message now2 my_ip (Some (_send_leave_message a)) sender_ip announced)
   = b).
Proof.
  intros Hne r. subst r. rewrite handle_leave_of_other by exact Hne.
  split; [apply remove_node_fields |]. split.
  - unfold _remove_node. destruct (discovered_nodes b !! KInt (node_id a)) eqn:E.
    + rewrite bool_decide_eq_true_2 by eauto. reflexivity.
    + rewrite bool_decide_eq_false_2 by (intros [? ?]; discriminate). reflexivity.
  - intros Hnone. cbv zeta. rewrite handle_announce_of_other by exact Hne. cbn [fst].
    assert (Hid : node_id a <> node_id (with_nodes
                    (<[KInt (node_id a) := mkNodeInfo sender_ip tcp_port udp_port now]>
                       (discovered_nodes b)) b)) by exact Hne.
    rewrite handle_leave_of_other by exact Hid.
    unfold _remove_node. cbn [discovered_nodes with_nodes]. rewrite lookup_insert_eq.
    cbn [fst]. unfold with_nodes. cbn.
    rewrite delete_insert_eq, delete_id by exact Hnone. destruct b; reflexivity.
Qed.

Lemma nodes_to_remove_nil (current_time : Z) (d : NodeDiscovery) :
  (forall k info, discovered_nodes d !! k = Some info ->
                  timed_out current_time (node_timeout d) info = false) ->
  nodes_to_remove current_time d = [].
Proof.
  intros H. destruct (nodes_to_remove current_time d) as [|k l] eqn:E; [reflexivity |].
  assert (Hin : k ∈ nodes_to_remove current_time d) by (rewrite E; left).
  apply elem_of_nodes_to_remove in Hin. destruct Hin as (info & H1 & H2).
  rewrite (H _ _ H1) in H2. discriminate.
Qed.

(** X17: After a round of the cleanup task every peer left in the table was
    seen within the timeout, every entry left is an entry of the table
    as it was, and a second round at the same clock reading removes
    nothing and starts no callback. *)
Theorem cleanup_leaves_fresh_peers (current_time : Z) (d : NodeDiscovery) :
  let d' := fst (cleanup current_time d) in
  (forall k info, discovered_nodes d' !! k = Some info ->
                  discovered_nodes d !! k = Some info /\
                  current_time - last_seen info <= node_timeout d) /\
  cleanup current_time d' = (d', []).
Proof.
  cbv zeta.
  assert (A : forall k info,
            discovered_nodes (fst (cleanup current_time d)) !! k = Some info ->
            discovered_nodes d !! k = Some info /\
            current_time - last_seen info <= node_timeout d).
  { intros k info H. unfold cleanup in H. rewrite remove_all_lookup in H.
    destruct (decide (k ∈ nodes_to_remove current_time d)) as [Hin|Hnin]; [discriminate |].
    split; [exact H |].
    destruct (Z_le_gt_dec (current_time - last_seen info) (node_timeout d)) as [L|G];
      [exact L |].
    exfalso. apply Hnin. apply elem_of_nodes_to_remove. exists info. split; [exact H |].
    unfold timed_out. apply Z.gtb_lt. lia. }
  split; [exact A |].
  unfold cleanup at 1. rewrite nodes_to_remove_nil; [reflexivity |].
  intros k info H. apply A in H. destruct H as [_ H].
  pose proof (remove_all_fields (nodes_to_remove current_time d) d) as F. cbv zeta in F.
  destruct F as (_ & Ft & _). unfold cleanup. rewrite Ft.
  unfold timed_out. destruct (Z.gtb_spec (current_time - last_seen info) (node_timeout d));
    [lia | reflexivity].
Qed.

(** X18: A peer that keeps announcing stays: after an announce at [now], a
    cleanup round at any clock reading up to [now + node_timeout] keeps
    it. A peer that falls silent for longer is dropped, and its next
    announce is reported as a new discovery. *)
Theorem heartbeat_keeps_alive_and_silence_is_noticed
  (now current_time now2 : Z) (my_ip : option string) (tcp_port udp_port : Z)
  (a b : NodeDiscovery) (sender_ip : string) :
  node_id a <> node_id b ->
  let announced :=
    fst (_handle_message now my_ip (Some (_send_announce tcp_port udp_port a))
           sender_ip b) in
  let cleaned := fst (cleanup current_time announced) in
  (current_time - now <= node_timeout b ->
   discovered_nodes cleaned !! KInt (node_id a)
   = Some (mkNodeInfo sender_ip tcp_port udp_port now)) /\
  (node_timeout b < current_time - now ->
   discovered_nodes cleaned !! KInt (node_id a) = None /\
   (on_node_discovered b = true ->
    snd (_handle_message now2 my_ip (Some (_send_announce tcp_port udp_port a))
           sender_ip cleaned)
    = [NodeDiscovered (KInt (node_id a)) sender_ip tcp_port udp_port])).
Proof.
  intros Hne announced cleaned.
  assert (Ha : discovered_nodes announced !! KInt (node_id a)
               = Some (mkNodeInfo sender_ip tcp_port udp_port now)).
  { subst announced. rewrite handle_announce_of_other by exact Hne.
    cbn. apply lookup_insert_eq. }
  assert (Ht : node_timeout announced = node_timeout b
               /\ node_id announced = node_id b
               /\ on_node_discovered announced = on_node_discovered b).
  { subst announced. rewrite handle_announce_of_other by exact Hne. cbn. auto. }
  destruct Ht as (Ht & Hi & Hcb).
  pose proof (elem_of_nodes_to_remove current_time announced (KInt (node_id a))) as Hmem.
  pose proof (remove_all_fields (nodes_to_remove current_time announced) announced) as F.
  cbv zeta in F. destruct F as (Fi & _ & _).
  split.
  - intros Hfresh. subst cleaned. unfold cleanup. rewrite remove_all_lookup.
    rewrite decide_False; [exact Ha |].
    intros Hin. apply Hmem in Hin. destruct Hin as (info & H1 & H2).
    rewrite Ha in H1. injection H1 as <-. unfold timed_out in H2. cbn in H2.
    apply Z.gtb_lt in H2. lia.
  - intros Hold.
    assert (Hgone : discovered_nodes cleaned !! KInt (node_id a) = None).
    { subst cleaned. unfold cleanup. rewrite remove_all_lookup.
      rewrite decide_True; [reflexivity |].
      apply Hmem. eexists. split; [exact Ha |]. unfold timed_out. cbn.
      apply Z.gtb_lt. lia. }
    split; [exact Hgone |]. intros Hon.
    assert (Hne' : node_id a <> node_id cleaned).
    { subst cleaned. unfold cleanup. rewrite Fi, Hi. exact Hne. }
    rewrite handle_announce_of_other by exact Hne'. cbn [snd].
    rewrite bool_decide_eq_true_2 by exact Hgone.
    assert (Hon' : on_node_discovered cleaned = true).
    { subst cleaned. unfold cleanup.
      assert (G : forall ids x, on_node_discovered (fst (remove_all ids x))
                                = on_node_discovered x).
      { clear. induction ids as [|i ids IH]; intros x; [reflexivity |].
        cbn [remove_all]. unfold _remove_node at 1.
        destruct (discovered_nodes x !! i).
        - specialize (IH (with_nodes (delete i (discovered_nodes x)) x)).
          destruct (remove_all ids _). cbn in *. exact IH.
        - specialize (IH x). destruct (remove_all ids x). cbn in *. exact IH. }
      rewrite G, Hcb. exact Hon. }
    rewrite Hon'. reflexivity.
Qed.

(** X19: The collision callback is started for a datagram exactly when the
    datagram carries the local id, a callback is set, the local host name
    resolves, and the sender address is neither the resolved address nor
    127.0.0.1: a second process with the same id on the same host is
    not reported. *)
Theorem collision_reported_only_for_foreign_address
  (now : Z) (my_ip : option string) (data : option Message) (sender_ip : string)
  (d : NodeDiscovery) (who : Z) (ip : string) :
  IdCollision who ip ∈ snd (_handle_message now my_ip data sender_ip d) <->
  who = node_id d /\ ip = sender_ip /\ on_id_collision d = true /\
  (exists message, data = Some message /\ msg_node_id message = Some (KInt (node_id d))) /\
  (exists mine, my_ip = Some mine /\ sender_ip <> mine) /\
  sender_ip <> "127.0.0.1"%string.
Proof.
  unfold _handle_message. split.
  - destruct data as [message|]; [| intros H; inversion H].
    destruct (bool_decide_reflect (msg_node_id message = Some (KInt (node_id d)))) as [E|E].
    + destruct my_ip as [mine|]; [| intros H; inversion H].
      destruct (String.eqb_spec sender_ip mine) as [Hm|Hm]; cbn [negb andb];
        [intros H; inversion H |].
      destruct (String.eqb_spec sender_ip "127.0.0.1") as [Hl|Hl]; cbn [negb andb];
        [intros H; inversion H |].
      destruct (on_id_collision d) eqn:Hc; [| intros H; inversion H].
      intros H. apply list_elem_of_singleton in H. injection H as -> ->.
      repeat split; eauto.
    + intros H. exfalso.
      destruct (msg_type message) as [t|]; [| inversion H].
      destruct (String.eqb t "ANNOUNCE").
      * unfold _handle_announce in H.
        destruct (msg_node_id message), (msg_tcp_port message), (msg_udp_port message);
          try (inversion H; fail).
        cbn [snd] in H. destruct (_ && _); [| inversion H].
        apply list_elem_of_singleton in H. discriminate.
      * destruct (String.eqb t "LEAVE"); [| inversion H].
        unfold _handle_leave in H. destruct (msg_node_id message); [| inversion H].
        unfold _remove_node in H. destruct (discovered_nodes d !! p); [| inversion H].
        cbn [snd] in H. destruct (on_node_lost d); [| inversion H].
        apply list_elem_of_singleton in H. discriminate.
  - intros (-> & -> & Hc & (message & -> & Hm) & (mine & -> & Hne) & Hl).
    rewrite bool_decide_eq_true_2 by exact Hm.
    rewrite (proj2 (String.eqb_neq _ _) Hne), (proj2 (String.eqb_neq _ _) Hl), Hc.
    cbn. left.
Qed.

(** Node 3 announces itself to node 1 of [Escenarios.one_peer]. *)
Lemma announce_registers_the_sender_example :
  let r := _handle_message 200 (Some "10.0.0.1"%string)
             (Some (_send_announce 5558 6003 (init 3 default_node_timeout)))
             "10.0.0.3" Escenarios.one_peer in
  get_discovered_nodes (fst r) !! KInt 3 = Some ("10.0.0.3"%string, 5558, 6003) /\
  snd r = [] /\
  get_node_count (fst r) = 2%nat.
Proof.
  assert (Hne : node_id (init 3 default_node_timeout) <> node_id Escenarios.one_peer)
    by (vm_compute; discriminate).
  destruct (announce_registers_the_sender 200 (Some "10.0.0.1"%string) 5558 6003
              (init 3 default_node_timeout) Escenarios.one_peer "10.0.0.3" Hne)
    as (H1 & _ & _ & H4 & H5 & _).
  split; [exact H1 |]. split; [exact H4 | exact H5].
Defined.

(** Node 2 leaves: node 1 of [Escenarios.one_peer] forgets it and starts
    the lost callback. *)
Lemma leave_forgets_the_sender_example :
  let r := _handle_message 200 (Some "10.0.0.1"%string)
             (Some (_send_leave_message (init 2 default_node_timeout)))
             "10.0.0.2" Escenarios.one_peer in
  discovered_nodes (fst r) !! KInt 2 = None /\ snd r = [NodeLost (KInt 2)].
Proof.
  assert (Hne : node_id (init 2 default_node_timeout) <> node_id Escenarios.one_peer)
    by (vm_compute; discriminate).
  destruct (leave_forgets_the_sender 200 201 (Some "10.0.0.1"%string) 5557 6002
              (init 2 default_node_timeout) Escenarios.one_peer "10.0.0.2" Hne)
    as (H1 & H2 & _).
  cbv zeta. rewrite H1. split; [apply lookup_delete_eq | exact H2].
Defined.

(** Node 3 announces at 200: a cleanup round at 215 keeps it. *)
Lemma heartbeat_example :
  discovered_nodes
    (fst (cleanup 215
            (fst (_handle_message 200 None
                    (Some (_send_announce 5558 6003 (init 3 default_node_timeout)))
                    "10.0.0.3" Escenarios.one_peer))))
  !! KInt 3 = Some (mkNodeInfo "10.0.0.3" 5558 6003 200).
Proof.
  assert (Hne : node_id (init 3 default_node_timeout) <> node_id Escenarios.one_peer)
    by (vm_compute; discriminate).
  destruct (heartbeat_keeps_alive_and_silence_is_noticed 200 215 230 None 5558 6003
              (init 3 default_node_timeout) Escenarios.one_peer "10.0.0.3" Hne)
    as (H1 & _).
  apply H1. vm_compute. discriminate.
Defined.

End DiscoveryMessages.

(* ===================================================================== *)
(** ** The node of the deliverable: locks and transactions together *)
(* ===================================================================== *)

Module Recursos.
Import PyFormat Entregable.

Definition tiene_folio (folio : string) (v : FilaVisita) : bool :=
  String.eqb (fv_folio v) folio.

Lemma find_existsb_false {A} (p : A -> bool) (l : list A) :
  existsb p l = false -> find p l = None.
Proof.
  induction l as [|a l IH]; simpl; [reflexivity |].
  destruct (p a); [discriminate | exact IH].
Qed.

Lemma map_cerrar_fila_otros (folio : string) (l : list FilaVisita) :
  existsb (tiene_folio folio) l = false -> map (cerrar_fila folio) l = l.
Proof.
  induction l as [|v l IH]; simpl; [reflexivity |].
  unfold tiene_folio at 1. unfold cerrar_fila at 1.
  destruct (String.eqb (fv_folio v) folio); [discriminate |].
  intros H. now rewrite IH.
Qed.

Lemma verificar_doctor (i : Z) (b : BaseLocal) :
  verificar_recurso_local "DOCTOR" i b
  = match DOCTORES b !! i with Some d => fd_disponible d =? 1 | None => false end.
Proof. reflexivity. Qed.

Lemma verificar_cama (i : Z) (b : BaseLocal) :
  verificar_recurso_local "CAMA" i b
  = match CAMAS_ATENCION b !! i with Some c => fc_ocupada c =? 0 | None => false end.
Proof. reflexivity. Qed.

(** *** Acquire and release *)

(** X20: A lock request never touches the database; a granted one records the
    key with the clock reading and was preceded by a successful local
    check; a refused one leaves the node as it was; and a release after
    the request puts back the lock table of a node that did not hold the
    key before. *)
Theorem lock_request_then_release
  (ahora : Z) (recurso_tipo : string) (recurso_id : Z)
  (contactos : list (Remoto * Respuesta)) (n : Nodo) :
  let r := solicitar_bloqueo_distribuido ahora recurso_tipo recurso_id contactos n in
  base (snd r) = base n /\
  (fst r = true ->
   bloqueos_locales (snd r) !! clave recurso_tipo recurso_id = Some ahora /\
   verificar_recurso_local recurso_tipo recurso_id (base n) = true) /\
  (fst r = false -> snd r = n) /\
  bloqueos_locales (liberar_bloqueo_distribuido recurso_tipo recurso_id (snd r))
  = delete (clave recurso_tipo recurso_id) (bloqueos_locales n) /\
  (bloqueos_locales n !! clave recurso_tipo recurso_id = None ->
   liberar_bloqueo_distribuido recurso_tipo recurso_id (snd r) = n).
Proof.
  cbv zeta.
  assert (C : solicitar_bloqueo_distribuido ahora recurso_tipo recurso_id contactos n
              = (false, n) \/
              (solicitar_bloqueo_distribuido ahora recurso_tipo recurso_id contactos n
               = (true, bloquear (clave recurso_tipo recurso_id) ahora n) /\
               verificar_recurso_local recurso_tipo recurso_id (base n) = true)).
  { unfold solicitar_bloqueo_distribuido.
    destruct (verificar_recurso_local recurso_tipo recurso_id (base n));
      cbn [negb]; [| now left].
    destruct contactos as [|c resto]; [now right |].
    destruct (recolectar_aprobaciones (c :: resto) 0) as [k|]; [| now left].
    destruct (k =? _); [now right | now left]. }
  assert (D : bloqueos_locales
                (liberar_bloqueo_distribuido recurso_tipo recurso_id
                   (snd (solicitar_bloqueo_distribuido ahora recurso_tipo recurso_id
                           contactos n)))
              = delete (clave recurso_tipo recurso_id) (bloqueos_locales n)).
  { destruct C as [-> | [-> _]]; cbn; [reflexivity |]. apply delete_insert_eq. }
  split; [destruct C as [-> | [-> _]]; reflexivity |].
  split; [destruct C as [-> | [-> V]]; cbn; [discriminate |];
          intros _; split; [apply lookup_insert_eq | exact V] |].
  split; [destruct C as [-> | [-> _]]; cbn; [reflexivity | discriminate] |].
  split; [exact D |].
  intros Hnone.
  assert (B : base (liberar_bloqueo_distribuido recurso_tipo recurso_id
                      (snd (solicitar_bloqueo_distribuido ahora recurso_tipo recurso_id
                              contactos n))) = base n)
    by (destruct C as [-> | [-> _]]; reflexivity).
  destruct (liberar_bloqueo_distribuido _ _ _) as [bl ba]. cbn in D, B. subst.
  rewrite delete_id by exact Hnone. destruct n; reflexivity.
Qed.

(** *** A peer grants a key once *)

(** X21: Once a node has answered BLOQUEO_APROBADO for a key, it answers
    BLOQUEO_RECHAZADO to every later request for it, whatever else it
    serves or does in between, until the key is released; after a
    LIBERAR_BLOQUEO for the key a request is approved again when the
    resource is still free in the local database. *)
Theorem peer_grants_a_key_once
  (ahora ahora2 ahora3 ahora4 : Z) (recurso_tipo : string) (recurso_id : Z) (n : Nodo)
  (sucesos : list Suceso) :
  fst (handle_client ahora (Cmd (SOLICITAR_BLOQUEO_ATOMICO recurso_tipo recurso_id)) n)
  = Some "BLOQUEO_APROBADO"%string ->
  Forall (fun s => libera_clave (clave recurso_tipo recurso_id) s = false) sucesos ->
  let n1 := correr sucesos
              (snd (handle_client ahora
                      (Cmd (SOLICITAR_BLOQUEO_ATOMICO recurso_tipo recurso_id)) n)) in
  let n2 := snd (handle_client ahora3 (Cmd (LIBERAR_BLOQUEO recurso_tipo recurso_id)) n1) in
  handle_client ahora2 (Cmd (SOLICITAR_BLOQUEO_ATOMICO recurso_tipo recurso_id)) n1
  = (Some "BLOQUEO_RECHAZADO"%string, n1) /\
  (verificar_recurso_local recurso_tipo recurso_id (base n1) = true ->
   handle_client ahora4 (Cmd (SOLICITAR_BLOQUEO_ATOMICO recurso_tipo recurso_id)) n2
   = (Some "BLOQUEO_APROBADO"%string,
      bloquear (clave recurso_tipo recurso_id) ahora4 n2)).
Proof.
  intros Hok Hno n1 n2.
  assert (Hheld : is_Some (bloqueos_locales n1 !! clave recurso_tipo recurso_id)).
  { subst n1. apply correr_conserva_bloqueo; [exact Hno |].
    revert Hok. cbn [handle_client].
    destruct (bloqueos_locales n !! clave recurso_tipo recurso_id); [discriminate |].
    destruct (negb _); [discriminate |].
    intros _. cbn. rewrite lookup_insert_eq. eauto. }
  split.
  - cbn [handle_client]. destruct Hheld as [t0 ->]. reflexivity.
  - intros Hv. subst n2. cbn [handle_client snd]. cbn [desbloquear bloqueos_locales base].
    rewrite lookup_delete_eq. rewrite Hv. reflexivity.
Qed.

(** Node [Escenarios.nodo_libre] approves doctor 7 once; a transaction
    served in between does not change the second answer. *)
Lemma peer_grants_a_key_once_example :
  let n1 := correr [Conexion 11 (Cmd INCREMENTAR_CONSECUTIVO)]
              (snd (handle_client 10 (Cmd (SOLICITAR_BLOQUEO_ATOMICO "DOCTOR" 7))
                      Escenarios.nodo_libre)) in
  handle_client 12 (Cmd (SOLICITAR_BLOQUEO_ATOMICO "DOCTOR" 7)) n1
  = (Some "BLOQUEO_RECHAZADO"%string, n1).
Proof.
  assert (E : fst (handle_client 10 (Cmd (SOLICITAR_BLOQUEO_ATOMICO "DOCTOR" 7))
                     Escenarios.nodo_libre) = Some "BLOQUEO_APROBADO"%string)
    by (vm_compute; reflexivity).
  assert (F : Forall (fun s => libera_clave (clave "DOCTOR" 7) s = false)
                [Conexion 11 (Cmd INCREMENTAR_CONSECUTIVO)])
    by (constructor; [vm_compute; reflexivity | constructor]).
  destruct (peer_grants_a_key_once 10 12 13 14 "DOCTOR" 7 Escenarios.nodo_libre
              [Conexion 11 (Cmd INCREMENTAR_CONSECUTIVO)] E F) as [H _].
  exact H.
Defined.

(** *** Assigning and closing *)

Lemma asignar_nuevo (ahora : Z) (folio : string) (paciente_id doctor_id cama_id : Z)
  (b : BaseLocal) :
  existsb (tiene_folio folio) (VISITAS_EMERGENCIA b) = false ->
  transaccion ahora (ASIGNAR_RECURSOS folio paciente_id doctor_id cama_id) b
  = (PBool true,
     mkBaseLocal
       (alter (fun d => mkFilaDoctor (fd_nombre d) 0) doctor_id (DOCTORES b))
       (alter (fun c => mkFilaCama (fc_numero c) 1 (Some paciente_id)) cama_id
          (CAMAS_ATENCION b))
       (PACIENTES b)
       (VISITAS_EMERGENCIA b ++
        [mkFilaVisita folio paciente_id doctor_id cama_id SERVER_PORT ahora
           "En tratamiento"])
       (CONSECUTIVOS_VISITAS b)).
Proof.
  intros H. cbn [transaccion]. unfold tiene_folio in H. rewrite H. reflexivity.
Qed.

Lemma asignar_repetido (ahora : Z) (folio : string) (paciente_id doctor_id cama_id : Z)
  (b : BaseLocal) :
  existsb (tiene_folio folio) (VISITAS_EMERGENCIA b) = true ->
  transaccion ahora (ASIGNAR_RECURSOS folio paciente_id doctor_id cama_id) b
  = (PBool false, b).
Proof.
  intros H. cbn [transaccion]. unfold tiene_folio in H. rewrite H. reflexivity.
Qed.

Lemma cerrar_existente (ahora : Z) (folio : string) (visita : FilaVisita) (b : BaseLocal) :
  find (tiene_folio folio) (VISITAS_EMERGENCIA b) = Some visita ->
  transaccion ahora (CERRAR_VISITA folio) b
  = (PBool true,
     mkBaseLocal
       (alter (fun d => mkFilaDoctor (fd_nombre d) 1) (fv_doctor_id visita) (DOCTORES b))
       (alter (fun c => mkFilaCama (fc_numero c) 0 None) (fv_cama_id visita)
          (CAMAS_ATENCION b))
       (PACIENTES b)
       (map (cerrar_fila folio) (VISITAS_EMERGENCIA b))
       (CONSECUTIVOS_VISITAS b)).
Proof.
  intros H. cbn [transaccion]. unfold tiene_folio in H. rewrite H. reflexivity.
Qed.

(** X22: A visit assigned under a new folio takes its doctor and bed out of
    reach: the local check fails for both, so a lock request of the node
    is refused and a peer asking is answered BLOQUEO_RECHAZADO, and the
    same folio is refused a second time with the database unchanged.
    Closing the visit gives the doctor and the bed back, leaves the other
    visits as they were and marks this one closed. *)
Theorem assign_then_close
  (t1 t2 t3 t4 : Z) (folio : string) (paciente_id doctor_id cama_id : Z)
  (otros : Z * Z * Z) (contactos : list (Remoto * Respuesta)) (locks : gmap string Z)
  (b : BaseLocal) :
  existsb (tiene_folio folio) (VISITAS_EMERGENCIA b) = false ->
  is_Some (DOCTORES b !! doctor_id) ->
  is_Some (CAMAS_ATENCION b !! cama_id) ->
  let asignar := transaccion t1 (ASIGNAR_RECURSOS folio paciente_id doctor_id cama_id) b in
  let b1 := snd asignar in
  let cerrar := transaccion t2 (CERRAR_VISITA folio) b1 in
  let b2 := snd cerrar in
  fst asignar = PBool true /\
  solicitar_bloqueo_distribuido t3 "DOCTOR" doctor_id contactos (mkNodo locks b1)
  = (false, mkNodo locks b1) /\
  solicitar_bloqueo_distribuido t3 "CAMA" cama_id contactos (mkNodo locks b1)
  = (false, mkNodo locks b1) /\
  handle_client t3 (Cmd (SOLICITAR_BLOQUEO_ATOMICO "DOCTOR" doctor_id)) (mkNodo locks b1)
  = (Some "BLOQUEO_RECHAZADO"%string, mkNodo locks b1) /\
  handle_client t3 (Cmd (SOLICITAR_BLOQUEO_ATOMICO "CAMA" cama_id)) (mkNodo locks b1)
  = (Some "BLOQUEO_RECHAZADO"%string, mkNodo locks b1) /\
  transaccion t4 (ASIGNAR_RECURSOS folio (fst (fst otros)) (snd (fst otros)) (snd otros)) b1
  = (PBool false, b1) /\
  fst cerrar = PBool true /\
  verificar_recurso_local "DOCTOR" doctor_id b2 = true /\
  verificar_recurso_local "CAMA" cama_id b2 = true /\
  (fc_paciente_id <$> CAMAS_ATENCION b2 !! cama_id) = Some None /\
  VISITAS_EMERGENCIA b2
  = VISITAS_EMERGENCIA b ++
    [mkFilaVisita folio paciente_id doctor_id cama_id SERVER_PORT t1 "Cerrada"] /\
  PACIENTES b2 = PACIENTES b /\ CONSECUTIVOS_VISITAS b2 = CONSECUTIVOS_VISITAS b.
Proof.
  intros Hnew [d Hd] [c Hc]. cbv zeta.
  rewrite (asignar_nuevo t1 folio paciente_id doctor_id cama_id b Hnew). cbn [fst snd].
  set (b1 := mkBaseLocal _ _ _ _ _).
  assert (Vd : verificar_recurso_local "DOCTOR" doctor_id b1 = false).
  { rewrite verificar_doctor. subst b1. cbn [DOCTORES]. rewrite lookup_alter_eq, Hd.
    reflexivity. }
  assert (Vc : verificar_recurso_local "CAMA" cama_id b1 = false).
  { rewrite verificar_cama. subst b1. cbn [CAMAS_ATENCION]. rewrite lookup_alter_eq, Hc.
    reflexivity. }
  assert (Hfind : find (tiene_folio folio) (VISITAS_EMERGENCIA b1)
                  = Some (mkFilaVisita folio paciente_id doctor_id cama_id SERVER_PORT t1
                            "En tratamiento")).
  { subst b1. cbn [VISITAS_EMERGENCIA].
    rewrite Models.find_app_none by (apply find_existsb_false; exact Hnew).
    cbn. unfold tiene_folio. cbn. rewrite String.eqb_refl. reflexivity. }
  assert (Hdup : existsb (tiene_folio folio) (VISITAS_EMERGENCIA b1) = true).
  { apply existsb_exists. apply find_some in Hfind. eexists. exact Hfind. }
  split; [reflexivity |].
  split; [unfold solicitar_bloqueo_distribuido; cbn [base]; rewrite Vd; reflexivity |].
  split; [unfold solicitar_bloqueo_distribuido; cbn [base]; rewrite Vc; reflexivity |].
  split.
  { cbn [handle_client base]. rewrite Vd. cbn [negb].
    destruct (bloqueos_locales _ !! _); reflexivity. }
  split.
  { cbn [handle_client base]. rewrite Vc. cbn [negb].
    destruct (bloqueos_locales _ !! _); reflexivity. }
  split; [apply asignar_repetido; exact Hdup |].
  rewrite (cerrar_existente t2 folio _ b1 Hfind). cbn [fst snd fv_doctor_id fv_cama_id].
  split; [reflexivity |].
  split.
  { rewrite verificar_doctor. subst b1. cbn [DOCTORES].
    rewrite !lookup_alter_eq, Hd. reflexivity. }
  split.
  { rewrite verificar_cama. subst b1. cbn [CAMAS_ATENCION].
    rewrite !lookup_alter_eq, Hc. reflexivity. }
  split.
  { subst b1. cbn [CAMAS_ATENCION]. rewrite !lookup_alter_eq, Hc. reflexivity. }
  split; [| split; reflexivity].
  subst b1. cbn [VISITAS_EMERGENCIA]. rewrite map_app.
  rewrite map_cerrar_fila_otros by exact Hnew. cbn [map]. unfold cerrar_fila.
  cbn [fv_folio]. rewrite String.eqb_refl. reflexivity.
Qed.

(** Patient 12 is given doctor 7 and bed 3 of [Escenarios.nodo_libre] and
    the visit is closed. *)
Lemma assign_then_close_example :
  let b := base Escenarios.nodo_libre in
  let b1 := snd (transaccion 100 (ASIGNAR_RECURSOS "12755551" 12 7 3) b) in
  let b2 := snd (transaccion 200 (CERRAR_VISITA "12755551") b1) in
  verificar_recurso_local "DOCTOR" 7 b1 = false /\
  verificar_recurso_local "DOCTOR" 7 b2 = true /\
  VISITAS_EMERGENCIA b2 = [mkFilaVisita "12755551" 12 7 3 5555 100 "Cerrada"].
Proof.
  assert (H1 : existsb (tiene_folio "12755551")
                 (VISITAS_EMERGENCIA (base Escenarios.nodo_libre)) = false)
    by (vm_compute; reflexivity).
  assert (H2 : is_Some (DOCTORES (base Escenarios.nodo_libre) !! 7))
    by (vm_compute; eauto).
  assert (H3 : is_Some (CAMAS_ATENCION (base Escenarios.nodo_libre) !! 3))
    by (vm_compute; eauto).
  destruct (assign_then_close 100 200 150 160 "12755551" 12 7 3 (13, 7, 3) [] ∅
              (base Escenarios.nodo_libre) H1 H2 H3)
    as (_ & S1 & _ & _ & _ & _ & _ & V2 & _ & _ & V & _).
  cbv zeta. split; [| split; [exact V2 | exact V]].
  unfold solicitar_bloqueo_distribuido in S1. cbn [base] in S1.
  destruct (verificar_recurso_local "DOCTOR" 7 _); [discriminate S1 | reflexivity].
Defined.

(** X23: CERRAR_VISITA does not look at the state of the visit: sent again
    for a closed visit it answers true again and frees the doctor and the
    bed the visit names, also when they have since been given to another
    visit, which stays in treatment. *)
Theorem closing_again_frees_reassigned_resources
  (t1 t2 t3 t4 : Z) (folio folio2 : string) (paciente_id paciente2 doctor_id cama_id : Z)
  (b : BaseLocal) :
  existsb (tiene_folio folio) (VISITAS_EMERGENCIA b) = false ->
  existsb (tiene_folio folio2) (VISITAS_EMERGENCIA b) = false ->
  folio <> folio2 ->
  is_Some (DOCTORES b !! doctor_id) ->
  is_Some (CAMAS_ATENCION b !! cama_id) ->
  let b1 := correr_transacciones
              [(t1, ASIGNAR_RECURSOS folio paciente_id doctor_id cama_id);
               (t2, CERRAR_VISITA folio);
               (t3, ASIGNAR_RECURSOS folio2 paciente2 doctor_id cama_id)] b in
  let r := transaccion t4 (CERRAR_VISITA folio) b1 in
  verificar_recurso_local "DOCTOR" doctor_id b1 = false /\
  verificar_recurso_local "CAMA" cama_id b1 = false /\
  fst r = PBool true /\
  verificar_recurso_local "DOCTOR" doctor_id (snd r) = true /\
  verificar_recurso_local "CAMA" cama_id (snd r) = true /\
  VISITAS_EMERGENCIA (snd r)
  = VISITAS_EMERGENCIA b ++
    [mkFilaVisita folio paciente_id doctor_id cama_id SERVER_PORT t1 "Cerrada";
     mkFilaVisita folio2 paciente2 doctor_id cama_id SERVER_PORT t3 "En tratamiento"].
Proof.
  intros Hnew Hnew2 Hne [d Hd] [c Hc]. cbv zeta.
  unfold correr_transacciones. cbn [fold_left fst snd].
  rewrite (asignar_nuevo t1 folio paciente_id doctor_id cama_id b Hnew). cbn [snd].
  set (b1 := mkBaseLocal _ _ _ _ _).
  assert (Hfind : find (tiene_folio folio) (VISITAS_EMERGENCIA b1)
                  = Some (mkFilaVisita folio paciente_id doctor_id cama_id SERVER_PORT t1
                            "En tratamiento")).
  { subst b1. cbn [VISITAS_EMERGENCIA].
    rewrite Models.find_app_none by (apply find_existsb_false; exact Hnew).
    cbn. unfold tiene_folio. cbn. rewrite String.eqb_refl. reflexivity. }
  rewrite (cerrar_existente t2 folio _ b1 Hfind). cbn [snd fv_doctor_id fv_cama_id].
  assert (Hv1 : map (cerrar_fila folio) (VISITAS_EMERGENCIA b1)
                = VISITAS_EMERGENCIA b ++
                  [mkFilaVisita folio paciente_id doctor_id cama_id SERVER_PORT t1
                     "Cerrada"]).
  { subst b1. cbn [VISITAS_EMERGENCIA]. rewrite map_app.
    rewrite map_cerrar_fila_otros by exact Hnew. cbn [map]. unfold cerrar_fila.
    cbn [fv_folio]. rewrite String.eqb_refl. reflexivity. }
  rewrite Hv1. set (b2 := mkBaseLocal _ _ _ _ _).
  assert (Hnew2' : existsb (tiene_folio folio2) (VISITAS_EMERGENCIA b2) = false).
  { subst b2. cbn [VISITAS_EMERGENCIA]. rewrite existsb_app, Hnew2. cbn.
    unfold tiene_folio. cbn. rewrite (proj2 (String.eqb_neq _ _) Hne). reflexivity. }
  rewrite (asignar_nuevo t3 folio2 paciente2 doctor_id cama_id b2 Hnew2'). cbn [snd].
  set (b3 := mkBaseLocal _ _ _ _ _).
  assert (Hfind3 : find (tiene_folio folio) (VISITAS_EMERGENCIA b3)
                   = Some (mkFilaVisita folio paciente_id doctor_id cama_id SERVER_PORT t1
                             "Cerrada")).
  { subst b3 b2. cbn [VISITAS_EMERGENCIA]. rewrite <- app_assoc.
    rewrite Models.find_app_none by (apply find_existsb_false; exact Hnew).
    cbn. unfold tiene_folio. cbn. rewrite String.eqb_refl. reflexivity. }
  rewrite (cerrar_existente t4 folio _ b3 Hfind3). cbn [fst snd fv_doctor_id fv_cama_id].
  split.
  { rewrite verificar_doctor. subst b3 b2 b1. cbn [DOCTORES].
    rewrite !lookup_alter_eq, Hd. reflexivity. }
  split.
  { rewrite verificar_cama. subst b3 b2 b1. cbn [CAMAS_ATENCION].
    rewrite !lookup_alter_eq, Hc. reflexivity. }
  split; [reflexivity |].
  split.
  { rewrite verificar_doctor. subst b3 b2 b1. cbn [DOCTORES].
    rewrite !lookup_alter_eq, Hd. reflexivity. }
  split.
  { rewrite verificar_cama. subst b3 b2 b1. cbn [CAMAS_ATENCION].
    rewrite !lookup_alter_eq, Hc. reflexivity. }
  subst b3 b2. cbn [VISITAS_EMERGENCIA]. rewrite <- app_assoc. rewrite map_app.
  rewrite map_cerrar_fila_otros by exact Hnew. cbn [map app]. unfold cerrar_fila.
  cbn [fv_folio]. rewrite String.eqb_refl.
  rewrite (proj2 (String.eqb_neq folio2 folio)) by congruence. reflexivity.
Qed.

(** Doctor 7 and bed 3 serve patient 12, then patient 13; closing the
    first visit again frees them. *)
Lemma closing_again_example :
  let b1 := correr_transacciones
              [(100, ASIGNAR_RECURSOS "12755551" 12 7 3);
               (200, CERRAR_VISITA "12755551");
               (300, ASIGNAR_RECURSOS "13755552" 13 7 3)]
              (base Escenarios.nodo_libre) in
  let r := transaccion 400 (CERRAR_VISITA "12755551") b1 in
  fst r = PBool true /\
  verificar_recurso_local "DOCTOR" 7 (snd r) = true /\
  VISITAS_EMERGENCIA (snd r)
  = [mkFilaVisita "12755551" 12 7 3 5555 100 "Cerrada";
     mkFilaVisita "13755552" 13 7 3 5555 300 "En tratamiento"].
Proof.
  assert (H1 : existsb (tiene_folio "12755551")
                 (VISITAS_EMERGENCIA (base Escenarios.nodo_libre)) = false)
    by (vm_compute; reflexivity).
  assert (H2 : existsb (tiene_folio "13755552")
                 (VISITAS_EMERGENCIA (base Escenarios.nodo_libre)) = false)
    by (vm_compute; reflexivity).
  assert (H3 : "12755551"%string <> "13755552"%string) by discriminate.
  assert (H4 : is_Some (DOCTORES (base Escenarios.nodo_libre) !! 7))
    by (vm_compute; eauto).
  assert (H5 : is_Some (CAMAS_ATENCION (base Escenarios.nodo_libre) !! 3))
    by (vm_compute; eauto).
  destruct (closing_again_frees_reassigned_resources 100 200 300 400 "12755551"
              "13755552" 12 13 7 3 (base Escenarios.nodo_libre) H1 H2 H3 H4 H5)
    as (_ & _ & R & V & _ & L).
  cbv zeta. split; [exact R |]. split; [exact V | exact L].
Defined.

End Recursos.

(* ===================================================================== *)
(** ** The node of the deliverable: folios and automatic distribution *)
(* ===================================================================== *)

Module Distribucion.
Import PyFormat Entregable Recursos.

(** *** What a propagation does to the database *)

(** The local execution happens: there is no remote node, or more than
    half of them answered CONSENSO_OK. *)
Definition hay_consenso (contactos : list (Remoto * Respuesta)) : bool :=
  match contactos with
  | [] => true
  | _ => acuses contactos >=? Z.of_nat (length contactos) / 2 + 1
  end.

Lemma propagar_efecto (ahora : Z) (comando : Comando)
  (contactos : list (Remoto * Respuesta)) (b : BaseLocal) :
  snd (fst (propagar_transaccion_con_consenso ahora comando contactos b))
  = (if hay_consenso contactos then snd (transaccion ahora comando b) else b) /\
  truthy (fst (fst (propagar_transaccion_con_consenso ahora comando contactos b)))
  = hay_consenso contactos && truthy (fst (transaccion ahora comando b)).
Proof.
  unfold propagar_transaccion_con_consenso, ejecutar_transaccion_local.
  destruct contactos as [|c resto].
  - cbn [hay_consenso andb]. destruct (transaccion ahora comando b). split; reflexivity.
  - unfold hay_consenso.
    pose proof (contar_confirmaciones_fst (c :: resto) 0) as F.
    destruct (contar_confirmaciones (c :: resto) 0) as [k out]. cbn [fst] in F.
    replace (acuses (c :: resto)) with k by lia.
    destruct (k >=? Z.of_nat (length (c :: resto)) / 2 + 1).
    + destruct (transaccion ahora comando b) as [r b']. cbn [fst snd andb].
      destruct (truthy r); split; reflexivity.
    + split; reflexivity.
Qed.

(** *** [obtener_siguiente_consecutivo] *)

Definition obtener_siguiente_consecutivo (ahora : Z)
  (contactos : list (Remoto * Respuesta)) (b : BaseLocal) : Z * BaseLocal :=
  match CONSECUTIVOS_VISITAS b !! SERVER_PORT with
  | Some ultimo =>
      let nuevo_consecutivo := ultimo + 1 in
      let b1 :=
        con_consecutivos (<[SERVER_PORT := nuevo_consecutivo]> (CONSECUTIVOS_VISITAS b)) b in
      (nuevo_consecutivo,
       snd (fst (propagar_transaccion_con_consenso ahora INCREMENTAR_CONSECUTIVO
                   contactos b1)))
  | None =>
      (1, con_consecutivos (<[SERVER_PORT := 1]> (CONSECUTIVOS_VISITAS b)) b)
  end.

(** *** [generar_folio_exacto] *)

(** f"{paciente_id}{doctor_id}{sala_id}{n}" *)
Definition texto_folio (paciente_id doctor_id sala_id n : Z) : string :=
  py_str paciente_id +:+ py_str doctor_id +:+ py_str sala_id +:+ py_str n.

(** The loop [for intento in range(max_intentos)], from [intento] on with
    [restantes] rounds to go; [respuestas i] is what the remote nodes
    answer to the propagation of round [i]. [None]: the loop ran out. *)
Fixpoint bucle_folio (restantes : nat) (intento : nat) (ahora : Z)
  (respuestas : nat -> list (Remoto * Respuesta)) (paciente_id doctor_id sala_id : Z)
  (b : BaseLocal) : option string * BaseLocal :=
  match restantes with
  | O => (None, b)
  | S r =>
      let '(consecutivo, b') :=
        obtener_siguiente_consecutivo ahora (respuestas intento) b in
      let folio := texto_folio paciente_id doctor_id sala_id consecutivo in
      if existsb (tiene_folio folio) (VISITAS_EMERGENCIA b')
      then bucle_folio r (S intento) ahora respuestas paciente_id doctor_id sala_id b'
      else (Some folio, b')
  end.

Definition max_intentos : nat := 5.

(** [timestamp] is [int(datetime.now().timestamp())] as read after the
    loop. *)
Definition generar_folio_exacto (ahora timestamp : Z)
  (respuestas : nat -> list (Remoto * Respuesta)) (paciente_id doctor_id sala_id : Z)
  (b : BaseLocal) : string * BaseLocal :=
  match bucle_folio max_intentos 0 ahora respuestas paciente_id doctor_id sala_id b with
  | (Some folio, b') => (folio, b')
  | (None, b') => (texto_folio paciente_id doctor_id sala_id timestamp, b')
  end.

(** *** [encontrar_doctor_disponible], [encontrar_cama_disponible] *)

(** ORDER BY id LIMIT 1 *)
Definition primero_por_id {A : Type} (filas : list (Z * A)) : option (Z * A) :=
  fold_right
    (fun f acc =>
       match acc with
       | Some g => if fst f <=? fst g then Some f else Some g
       | None => Some f
       end) None filas.

Definition encontrar_doctor_disponible (b : BaseLocal) : option (Z * string) :=
  match primero_por_id
          (filter (fun f => fd_disponible (snd f) = 1) (map_to_list (DOCTORES b))) with
  | Some (i, d) => Some (i, fd_nombre d)
  | None => None
  end.

Definition encontrar_cama_disponible (b : BaseLocal) : option (Z * Z) :=
  match primero_por_id
          (filter (fun f => fc_ocupada (snd f) = 0) (map_to_list (CAMAS_ATENCION b))) with
  | Some (i, c) => Some (i, fc_numero c)
  | None => None
  end.

(** *** [distribuir_visita_automaticamente] *)

(** The clock is read when the doctor is locked, when the bed is locked
    and when the visit is inserted; [c_doctor], [c_cama] and [c_asignar]
    are the answers of the remote nodes to the two lock requests and to
    the propagation of the assignment, [respuestas] those to the rounds
    of the folio. Returns the folio or [None], and the node afterwards. *)
Definition distribuir_visita_automaticamente (t_doctor t_cama t_visita timestamp : Z)
  (c_doctor c_cama : list (Remoto * Respuesta))
  (respuestas : nat -> list (Remoto * Respuesta))
  (c_asignar : list (Remoto * Respuesta)) (paciente_id : Z) (n : Nodo)
  : option string * Nodo :=
  match encontrar_doctor_disponible (base n) with
  | None => (None, n)
  | Some (doctor_id, _) =>
      match encontrar_cama_disponible (base n) with
      | None => (None, n)
      | Some (cama_id, _) =>
          let '(ok_doctor, n1) :=
            solicitar_bloqueo_distribuido t_doctor "DOCTOR" doctor_id c_doctor n in
          if negb ok_doctor then (None, n1)
          else
            let '(ok_cama, n2) :=
              solicitar_bloqueo_distribuido t_cama "CAMA" cama_id c_cama n1 in
            if negb ok_cama
            then (None, liberar_bloqueo_distribuido "DOCTOR" doctor_id n2)
            else
              let '(folio, b3) :=
                generar_folio_exacto t_visita timestamp respuestas paciente_id doctor_id
                  SERVER_PORT (base n2) in
              let '(resultado, b4, _) :=
                propagar_transaccion_con_consenso t_visita
                  (ASIGNAR_RECURSOS folio paciente_id doctor_id cama_id) c_asignar b3 in
              let n4 :=
                liberar_bloqueo_distribuido "CAMA" cama_id
                  (liberar_bloqueo_distribuido "DOCTOR" doctor_id
                     (mkNodo (bloqueos_locales n2) b4)) in
              (if truthy resultado then Some folio else None, n4)
      end
  end.

(** *** The counter *)

(** The tables other than the counters are the same. *)
Definition mismas_tablas (b b' : BaseLocal) : Prop :=
  DOCTORES b' = DOCTORES b /\ CAMAS_ATENCION b' = CAMAS_ATENCION b /\
  PACIENTES b' = PACIENTES b /\ VISITAS_EMERGENCIA b' = VISITAS_EMERGENCIA b.

Lemma mismas_tablas_refl (b : BaseLocal) : mismas_tablas b b.
Proof. repeat split. Qed.

Lemma mismas_tablas_trans (b1 b2 b3 : BaseLocal) :
  mismas_tablas b1 b2 -> mismas_tablas b2 b3 -> mismas_tablas b1 b3.
Proof. unfold mismas_tablas. intros (A & B & C & D) (A' & B' & C' & D'). repeat split; congruence. Qed.

Lemma obtener_siguiente_consecutivo_spec (ahora : Z)
  (contactos : list (Remoto * Respuesta)) (b : BaseLocal) :
  fst (obtener_siguiente_consecutivo ahora contactos b)
  = match ultimo_consecutivo b with Some u => u + 1 | None => 1 end /\
  ultimo_consecutivo (snd (obtener_siguiente_consecutivo ahora contactos b))
  = Some (if bool_decide (is_Some (ultimo_consecutivo b)) && hay_consenso contactos
          then fst (obtener_siguiente_consecutivo ahora contactos b) + 1
          else fst (obtener_siguiente_consecutivo ahora contactos b)) /\
  mismas_tablas b (snd (obtener_siguiente_consecutivo ahora contactos b)).
Proof.
  unfold obtener_siguiente_consecutivo, ultimo_consecutivo.
  destruct (CONSECUTIVOS_VISITAS b !! SERVER_PORT) as [u|] eqn:E; cbn [fst snd].
  - rewrite bool_decide_eq_true_2 by eauto. cbn [andb].
    rewrite (proj1 (propagar_efecto _ _ _ _)).
    destruct (hay_consenso contactos).
    + cbn [transaccion con_consecutivos CONSECUTIVOS_VISITAS].
      rewrite lookup_insert_eq. cbn.
      split; [reflexivity |]. split; [apply lookup_insert_eq | repeat split].
    + cbn. split; [reflexivity |]. split; [apply lookup_insert_eq | repeat split].
  - rewrite bool_decide_eq_false_2 by (intros [? ?]; discriminate). cbn.
    split; [reflexivity |]. split; [apply lookup_insert_eq | repeat split].
Qed.

(** X24: The number returned is the stored one plus one, or 1 when the sala
    has no row yet. When the row existed, the increment is propagated
    after it was stored, and the propagation, if it reaches consensus or
    has no remote node to ask, runs the increment on the local row once
    more: the row then holds the number returned plus one, and the next
    call returns two more than this one. No other table changes. *)
Theorem consecutivo_row_after_a_call (ahora ahora2 : Z)
  (contactos contactos2 : list (Remoto * Respuesta)) (b : BaseLocal) :
  let r := obtener_siguiente_consecutivo ahora contactos b in
  let twice := bool_decide (is_Some (ultimo_consecutivo b)) && hay_consenso contactos in
  fst r = match ultimo_consecutivo b with Some u => u + 1 | None => 1 end /\
  ultimo_consecutivo (snd r) = Some (if twice then fst r + 1 else fst r) /\
  fst (obtener_siguiente_consecutivo ahora2 contactos2 (snd r))
  = (if twice then fst r + 2 else fst r + 1) /\
  mismas_tablas b (snd r).
Proof.
  cbv zeta.
  destruct (obtener_siguiente_consecutivo_spec ahora contactos b) as (A1 & A2 & A3).
  split; [exact A1 |]. split; [exact A2 |]. split; [| exact A3].
  destruct (obtener_siguiente_consecutivo_spec ahora2 contactos2
              (snd (obtener_siguiente_consecutivo ahora contactos b))) as (B1 & _).
  rewrite B1, A2.
  destruct (bool_decide _ && hay_consenso contactos); lia.
Qed.

(** *** The folio *)

Definition avanza (antes : option Z) (despues : option Z) : Prop :=
  match despues with
  | Some u' => match antes with Some u => u < u' | None => 1 <= u' end
  | None => False
  end.

Lemma obtener_avanza (ahora : Z) (contactos : list (Remoto * Respuesta)) (b : BaseLocal) :
  avanza (ultimo_consecutivo b)
    (ultimo_consecutivo (snd (obtener_siguiente_consecutivo ahora contactos b))).
Proof.
  destruct (obtener_siguiente_consecutivo_spec ahora contactos b) as (H1 & H2 & _).
  unfold avanza. rewrite H2, H1.
  destruct (ultimo_consecutivo b) as [u|].
  - destruct (_ && _); lia.
  - rewrite bool_decide_eq_false_2 by (intros [? ?]; discriminate). cbn. lia.
Qed.

Lemma avanza_trans (a b c : option Z) : avanza a b -> avanza b c -> avanza a c.
Proof.
  unfold avanza. destruct c as [w|]; [| tauto].
  destruct b as [v|]; [| tauto]. destruct a as [u|]; lia.
Qed.

Lemma bucle_folio_spec (restantes intento : nat) (ahora : Z)
  (respuestas : nat -> list (Remoto * Respuesta)) (paciente_id doctor_id sala_id : Z)
  (b : BaseLocal) :
  let r := bucle_folio restantes intento ahora respuestas paciente_id doctor_id sala_id b in
  mismas_tablas b (snd r) /\
  (restantes <> O -> avanza (ultimo_consecutivo b) (ultimo_consecutivo (snd r))) /\
  match fst r with
  | Some folio =>
      existsb (tiene_folio folio) (VISITAS_EMERGENCIA b) = false /\
      exists k, folio = texto_folio paciente_id doctor_id sala_id k /\
                avanza (Some (k - 1)) (ultimo_consecutivo (snd r))
  | None => True
  end.
Proof.
  cbv zeta. revert intento b.
  induction restantes as [|r IH]; intros intento b; cbn [bucle_folio].
  - split; [apply mismas_tablas_refl |]. split; [congruence | exact I].
  - pose proof (obtener_avanza ahora (respuestas intento) b) as Hav.
    destruct (obtener_siguiente_consecutivo_spec ahora (respuestas intento) b)
      as (H1 & H2 & H4).
    destruct (obtener_siguiente_consecutivo ahora (respuestas intento) b)
      as [consecutivo b'] eqn:E. cbn [fst snd] in *.
    assert (Hv : VISITAS_EMERGENCIA b' = VISITAS_EMERGENCIA b) by apply H4.
    destruct (existsb _ (VISITAS_EMERGENCIA b')) eqn:Ex.
    + specialize (IH (S intento) b'). destruct IH as (I1 & I2 & I3).
      split; [eapply mismas_tablas_trans; eassumption |].
      split.
      * intros _. destruct r as [|r'].
        -- cbn [bucle_folio snd]. exact Hav.
        -- eapply avanza_trans; [exact Hav | apply I2; congruence].
      * destruct (fst (bucle_folio r (S intento) ahora respuestas paciente_id doctor_id
                         sala_id b')) as [folio|]; [| exact I].
        rewrite Hv in I3. exact I3.
    + cbn [fst snd]. split; [exact H4 |]. split; [intros _; exact Hav |].
      rewrite Hv in Ex. split; [exact Ex |].
      exists consecutivo. split; [reflexivity |].
      rewrite H2. unfold avanza. destruct (_ && _); lia.
Qed.

Lemma generar_folio_mismas_tablas (ahora timestamp : Z)
  (respuestas : nat -> list (Remoto * Respuesta)) (paciente_id doctor_id sala_id : Z)
  (b : BaseLocal) :
  mismas_tablas b
    (snd (generar_folio_exacto ahora timestamp respuestas paciente_id doctor_id sala_id b)).
Proof.
  unfold generar_folio_exacto.
  destruct (bucle_folio_spec max_intentos 0 ahora respuestas paciente_id doctor_id
              sala_id b) as (H1 & _). cbv zeta in H1.
  destruct (bucle_folio max_intentos 0 ahora respuestas paciente_id doctor_id sala_id b)
    as [[folio|] b']; exact H1.
Qed.


(** *** The first free doctor and bed *)

Lemma primero_por_id_spec {A : Type} (filas : list (Z * A)) :
  match primero_por_id filas with
  | Some f => f ∈ filas /\ forall g, g ∈ filas -> fst f <= fst g
  | None => filas = []
  end.
Proof.
  induction filas as [|f filas IH]; cbn [primero_por_id fold_right]; [reflexivity |].
  fold (primero_por_id filas). destruct (primero_por_id filas) as [g|].
  - destruct IH as [Hin Hmin]. destruct (Z.leb_spec (fst f) (fst g)).
    + split; [left |]. intros h Hh. apply elem_of_cons in Hh.
      destruct Hh as [-> | Hh]; [lia |]. specialize (Hmin h Hh). lia.
    + split; [right; exact Hin |]. intros h Hh. apply elem_of_cons in Hh.
      destruct Hh as [-> | Hh]; [lia | auto].
  - subst filas. split; [left |]. intros h Hh. apply list_elem_of_singleton in Hh.
    subst h. lia.
Qed.

Lemma primero_en_tabla {A : Type} (P : A -> Prop) {dec : forall a, Decision (P a)}
  (m : gmap Z A) :
  match primero_por_id (filter (fun f => P (snd f)) (map_to_list m)) with
  | Some (i, a) => m !! i = Some a /\ P a /\
                   forall j a', m !! j = Some a' -> P a' -> i <= j
  | None => forall j a', m !! j = Some a' -> ~ P a'
  end.
Proof.
  pose proof (primero_por_id_spec (filter (fun f => P (snd f)) (map_to_list m))) as Hs.
  destruct (primero_por_id _) as [[i a]|].
  - destruct Hs as [Hin Hmin]. apply list_elem_of_filter in Hin. destruct Hin as [Hp Hin].
    apply elem_of_map_to_list in Hin. split; [exact Hin |]. split; [exact Hp |].
    intros j a' Hj Hp'. apply (Hmin (j, a')). apply list_elem_of_filter.
    split; [exact Hp' |]. apply elem_of_map_to_list. exact Hj.
  - intros j a' Hj Hp'.
    assert (Hin : (j, a') ∈ filter (fun f => P (snd f)) (map_to_list m)).
    { apply list_elem_of_filter. split; [exact Hp' |]. apply elem_of_map_to_list.
      exact Hj. }
    rewrite Hs in Hin. inversion Hin.
Qed.

Lemma encontrar_doctor_fila (b : BaseLocal) (i : Z) (nombre : string) :
  encontrar_doctor_disponible b = Some (i, nombre) ->
  exists d, DOCTORES b !! i = Some d /\ fd_nombre d = nombre /\ fd_disponible d = 1.
Proof.
  pose proof (primero_en_tabla (fun d => fd_disponible d = 1) (DOCTORES b)) as Hd.
  unfold encontrar_doctor_disponible. intros H.
  destruct (primero_por_id _) as [[i' d]|]; [| discriminate].
  injection H as -> <-. destruct Hd as (H1 & H2 & _). eauto.
Qed.

Lemma encontrar_cama_fila (b : BaseLocal) (i numero : Z) :
  encontrar_cama_disponible b = Some (i, numero) ->
  exists c, CAMAS_ATENCION b !! i = Some c /\ fc_numero c = numero /\ fc_ocupada c = 0.
Proof.
  pose proof (primero_en_tabla (fun c => fc_ocupada c = 0) (CAMAS_ATENCION b)) as Hc.
  unfold encontrar_cama_disponible. intros H.
  destruct (primero_por_id _) as [[i' c]|]; [| discriminate].
  injection H as -> <-. destruct Hc as (H1 & H2 & _). eauto.
Qed.

(** X26: The doctor found is the available one of least id, with its name,
    and the bed found the free one of least id, with its number: each
    passes the local check of the lock protocol and no smaller id does.
    Nothing is found exactly when the check fails for every id. *)
Theorem first_free_resource (b : BaseLocal) :
  (forall i nombre, encontrar_doctor_disponible b = Some (i, nombre) ->
     (fd_nombre <$> DOCTORES b !! i) = Some nombre /\
     verificar_recurso_local "DOCTOR" i b = true /\
     forall j, j < i -> verificar_recurso_local "DOCTOR" j b = false) /\
  (encontrar_doctor_disponible b = None <->
   forall j, verificar_recurso_local "DOCTOR" j b = false) /\
  (forall i numero, encontrar_cama_disponible b = Some (i, numero) ->
     (fc_numero <$> CAMAS_ATENCION b !! i) = Some numero /\
     verificar_recurso_local "CAMA" i b = true /\
     forall j, j < i -> verificar_recurso_local "CAMA" j b = false) /\
  (encontrar_cama_disponible b = None <->
   forall j, verificar_recurso_local "CAMA" j b = false).
Proof.
  pose proof (primero_en_tabla (fun d => fd_disponible d = 1) (DOCTORES b)) as Hd.
  pose proof (primero_en_tabla (fun c => fc_ocupada c = 0) (CAMAS_ATENCION b)) as Hc.
  unfold encontrar_doctor_disponible, encontrar_cama_disponible.
  split; [| split; [| split]].
  - intros i nombre H. destruct (primero_por_id _) as [[i' d]|]; [| discriminate].
    injection H as -> <-. destruct Hd as (H1 & H2 & H3).
    split; [rewrite H1; reflexivity |].
    split; [rewrite verificar_doctor, H1; apply Z.eqb_eq; exact H2 |].
    intros j Hj. rewrite verificar_doctor.
    destruct (DOCTORES b !! j) as [d'|] eqn:E; [| reflexivity].
    apply Z.eqb_neq. intros Hp. specialize (H3 j d' E Hp). lia.
  - destruct (primero_por_id _) as [[i' d]|].
    + destruct Hd as (H1 & H2 & _). split; [intros Hno; discriminate Hno |].
      intros H. specialize (H i'). rewrite verificar_doctor, H1 in H.
      apply Z.eqb_neq in H. contradiction.
    + split; [| reflexivity]. intros _ j. rewrite verificar_doctor.
      destruct (DOCTORES b !! j) as [d'|] eqn:E; [| reflexivity].
      apply Z.eqb_neq. exact (Hd j d' E).
  - clear Hd. intros i numero H. destruct (primero_por_id _) as [[i' c]|]; [| discriminate].
    injection H as -> <-. destruct Hc as (H1 & H2 & H3).
    split; [rewrite H1; reflexivity |].
    split; [rewrite verificar_cama, H1; apply Z.eqb_eq; exact H2 |].
    intros j Hj. rewrite verificar_cama.
    destruct (CAMAS_ATENCION b !! j) as [c'|] eqn:E; [| reflexivity].
    apply Z.eqb_neq. intros Hp. specialize (H3 j c' E Hp). lia.
  - clear Hd. destruct (primero_por_id _) as [[i' c]|].
    + destruct Hc as (H1 & H2 & _). split; [intros Hno; discriminate Hno |].
      intros H. specialize (H i'). rewrite verificar_cama, H1 in H.
      apply Z.eqb_neq in H. contradiction.
    + split; [| reflexivity]. intros _ j. rewrite verificar_cama.
      destruct (CAMAS_ATENCION b !! j) as [c'|] eqn:E; [| reflexivity].
      apply Z.eqb_neq. exact (Hc j c' E).
Qed.

(** *** Automatic distribution *)

Definition asignada (folio : string) (paciente_id doctor_id cama_id ahora : Z)
  (b : BaseLocal) : BaseLocal :=
  mkBaseLocal
    (alter (fun d => mkFilaDoctor (fd_nombre d) 0) doctor_id (DOCTORES b))
    (alter (fun c => mkFilaCama (fc_numero c) 1 (Some paciente_id)) cama_id
       (CAMAS_ATENCION b))
    (PACIENTES b)
    (VISITAS_EMERGENCIA b ++
     [mkFilaVisita folio paciente_id doctor_id cama_id SERVER_PORT ahora "En tratamiento"])
    (CONSECUTIVOS_VISITAS b).

Lemma asignar_falla (ahora : Z) (folio : string) (paciente_id doctor_id cama_id : Z)
  (b : BaseLocal) :
  truthy (fst (transaccion ahora (ASIGNAR_RECURSOS folio paciente_id doctor_id cama_id) b))
  = negb (existsb (tiene_folio folio) (VISITAS_EMERGENCIA b)).
Proof.
  destruct (existsb (tiene_folio folio) (VISITAS_EMERGENCIA b)) eqn:E.
  - rewrite asignar_repetido by exact E. reflexivity.
  - rewrite asignar_nuevo by exact E. reflexivity.
Qed.

Lemma solicitar_casos (ahora : Z) (recurso_tipo : string) (recurso_id : Z)
  (contactos : list (Remoto * Respuesta)) (n : Nodo) :
  solicitar_bloqueo_distribuido ahora recurso_tipo recurso_id contactos n = (false, n) \/
  solicitar_bloqueo_distribuido ahora recurso_tipo recurso_id contactos n
  = (true, bloquear (clave recurso_tipo recurso_id) ahora n).
Proof.
  unfold solicitar_bloqueo_distribuido.
  destruct (negb _); [now left |].
  destruct contactos as [|c resto]; [now right |].
  destruct (recolectar_aprobaciones (c :: resto) 0) as [k|]; [| now left].
  destruct (k =? _); [now right | now left].
Qed.

(** The ways the function ends. *)
Inductive Desenlace (t_doctor t_cama t_visita : Z) (paciente_id : Z) (n : Nodo)
  : option string -> Nodo -> Prop :=
| SinCambio : Desenlace t_doctor t_cama t_visita paciente_id n None n
| CamaNegada (doctor_id : Z) :
    Desenlace t_doctor t_cama t_visita paciente_id n None
      (mkNodo (delete (clave "DOCTOR" doctor_id)
                 (<[clave "DOCTOR" doctor_id := t_doctor]> (bloqueos_locales n)))
         (base n))
| Intentada (doctor_id cama_id : Z) (nombre : string) (numero : Z) (folio : string)
    (b3 b4 : BaseLocal) (res : option string) :
    encontrar_doctor_disponible (base n) = Some (doctor_id, nombre) ->
    encontrar_cama_disponible (base n) = Some (cama_id, numero) ->
    mismas_tablas (base n) b3 ->
    (res = Some folio /\ b4 = asignada folio paciente_id doctor_id cama_id t_visita b3 /\
     existsb (tiene_folio folio) (VISITAS_EMERGENCIA b3) = false
     \/ res = None /\ b4 = b3) ->
    Desenlace t_doctor t_cama t_visita paciente_id n res
      (mkNodo
         (delete (clave "CAMA" cama_id)
            (delete (clave "DOCTOR" doctor_id)
               (<[clave "CAMA" cama_id := t_cama]>
                  (<[clave "DOCTOR" doctor_id := t_doctor]> (bloqueos_locales n)))))
         b4).

Lemma distribuir_desenlace (t_doctor t_cama t_visita timestamp : Z)
  (c_doctor c_cama : list (Remoto * Respuesta))
  (respuestas : nat -> list (Remoto * Respuesta))
  (c_asignar : list (Remoto * Respuesta)) (paciente_id : Z) (n : Nodo) :
  let r := distribuir_visita_automaticamente t_doctor t_cama t_visita timestamp c_doctor
             c_cama respuestas c_asignar paciente_id n in
  Desenlace t_doctor t_cama t_visita paciente_id n (fst r) (snd r).
Proof.
  cbv zeta. unfold distribuir_visita_automaticamente.
  destruct (encontrar_doctor_disponible (base n)) as [[doctor_id nombre]|] eqn:Ed;
    [| constructor].
  destruct (encontrar_cama_disponible (base n)) as [[cama_id numero]|] eqn:Ec;
    [| constructor].
  destruct (solicitar_casos t_doctor "DOCTOR" doctor_id c_doctor n) as [-> | ->];
    cbn [negb]; [constructor |].
  destruct (solicitar_casos t_cama "CAMA" cama_id c_cama
              (bloquear (clave "DOCTOR" doctor_id) t_doctor n)) as [-> | ->]; cbn [negb].
  { cbn [fst snd]. unfold liberar_bloqueo_distribuido, desbloquear, bloquear.
    cbn [bloqueos_locales base]. apply CamaNegada. }
  pose proof (generar_folio_mismas_tablas t_visita timestamp respuestas paciente_id
                doctor_id SERVER_PORT
                (base (bloquear (clave "CAMA" cama_id) t_cama
                         (bloquear (clave "DOCTOR" doctor_id) t_doctor n)))) as Hm.
  destruct (generar_folio_exacto _ _ _ _ _ _ _) as [folio b3]. cbn [bloquear base snd] in Hm.
  destruct (propagar_efecto t_visita (ASIGNAR_RECURSOS folio paciente_id doctor_id cama_id)
              c_asignar b3) as [Hb Hr].
  destruct (propagar_transaccion_con_consenso _ _ _ _) as [[resultado b4] out].
  cbn [fst snd] in *.
  unfold liberar_bloqueo_distribuido, desbloquear, bloquear. cbn [bloqueos_locales base].
  apply (Intentada _ _ _ _ _ doctor_id cama_id nombre numero folio b3 b4);
    [exact Ed | exact Ec | exact Hm |].
  rewrite Hr, asignar_falla.
  destruct (hay_consenso c_asignar); cbn [andb].
  - destruct (existsb (tiene_folio folio) (VISITAS_EMERGENCIA b3)) eqn:Ex; cbn [negb].
    + right. split; [reflexivity |]. rewrite Hb, asignar_repetido by exact Ex. reflexivity.
    + left. split; [reflexivity |]. split; [| reflexivity].
      rewrite Hb, asignar_nuevo by exact Ex. reflexivity.
  - right. split; [reflexivity | exact Hb].
Qed.

(** X27: However the call ends, it leaves behind no lock of its own: every
    entry of the lock table afterwards was there before, with the same
    clock reading. *)
Theorem distribuir_leaves_no_lock_behind (t_doctor t_cama t_visita timestamp : Z)
  (c_doctor c_cama : list (Remoto * Respuesta))
  (respuestas : nat -> list (Remoto * Respuesta))
  (c_asignar : list (Remoto * Respuesta)) (paciente_id : Z) (n : Nodo) :
  let r := distribuir_visita_automaticamente t_doctor t_cama t_visita timestamp c_doctor
             c_cama respuestas c_asignar paciente_id n in
  (forall k t0, bloqueos_locales (snd r) !! k = Some t0 ->
                bloqueos_locales n !! k = Some t0) /\
  (bloqueos_locales n = ∅ -> bloqueos_locales (snd r) = ∅).
Proof.
  cbv zeta.
  assert (A : forall k t0,
            bloqueos_locales
              (snd (distribuir_visita_automaticamente t_doctor t_cama t_visita timestamp
                      c_doctor c_cama respuestas c_asignar paciente_id n)) !! k = Some t0 ->
            bloqueos_locales n !! k = Some t0).
  { intros k t0.
    destruct (distribuir_desenlace t_doctor t_cama t_visita timestamp c_doctor c_cama
                respuestas c_asignar paciente_id n); cbn [bloqueos_locales].
    - trivial.
    - destruct (decide (k = clave "DOCTOR" doctor_id)) as [->|Hk].
      + rewrite lookup_delete_eq. discriminate.
      + rewrite lookup_delete_ne, lookup_insert_ne by congruence. trivial.
    - destruct (decide (k = clave "CAMA" cama_id)) as [->|Hk];
        [rewrite lookup_delete_eq; discriminate |].
      rewrite lookup_delete_ne by congruence.
      destruct (decide (k = clave "DOCTOR" doctor_id)) as [->|Hk'];
        [rewrite lookup_delete_eq; discriminate |].
      rewrite lookup_delete_ne, !lookup_insert_ne by congruence. trivial. }
  split; [exact A |].
  intros He. apply map_empty. intros k.
  destruct (bloqueos_locales _ !! k) as [t0|] eqn:E; [| reflexivity].
  apply A in E. rewrite He, lookup_empty in E. discriminate.
Qed.

(** X28: When the call returns a folio, the doctor and the bed it took are
    the available doctor and free bed of least id; the doctor is now
    unavailable, the bed holds the patient, and one visit in treatment
    with the folio was added, no stored visit having had that folio; the
    patients are as before and both locks are gone. *)
Theorem distribuir_success_effects (t_doctor t_cama t_visita timestamp : Z)
  (c_doctor c_cama : list (Remoto * Respuesta))
  (respuestas : nat -> list (Remoto * Respuesta))
  (c_asignar : list (Remoto * Respuesta)) (paciente_id : Z) (n n' : Nodo)
  (folio : string) :
  distribuir_visita_automaticamente t_doctor t_cama t_visita timestamp c_doctor c_cama
    respuestas c_asignar paciente_id n = (Some folio, n') ->
  exists doctor_id cama_id nombre numero,
    encontrar_doctor_disponible (base n) = Some (doctor_id, nombre) /\
    encontrar_cama_disponible (base n) = Some (cama_id, numero) /\
    DOCTORES (base n')
    = <[doctor_id := mkFilaDoctor nombre 0]> (DOCTORES (base n)) /\
    CAMAS_ATENCION (base n')
    = <[cama_id := mkFilaCama numero 1 (Some paciente_id)]> (CAMAS_ATENCION (base n)) /\
    existsb (tiene_folio folio) (VISITAS_EMERGENCIA (base n)) = false /\
    VISITAS_EMERGENCIA (base n')
    = VISITAS_EMERGENCIA (base n) ++
      [mkFilaVisita folio paciente_id doctor_id cama_id SERVER_PORT t_visita
         "En tratamiento"] /\
    PACIENTES (base n') = PACIENTES (base n) /\
    verificar_recurso_local "DOCTOR" doctor_id (base n') = false /\
    verificar_recurso_local "CAMA" cama_id (base n') = false /\
    bloqueos_locales n' !! clave "DOCTOR" doctor_id = None /\
    bloqueos_locales n' !! clave "CAMA" cama_id = None.
Proof.
  intros H.
  pose proof (distribuir_desenlace t_doctor t_cama t_visita timestamp c_doctor c_cama
                respuestas c_asignar paciente_id n) as D. cbv zeta in D.
  rewrite H in D. cbn [fst snd] in D.
  inversion D as [| |doctor_id cama_id nombre numero folio' b3 b4 res Ed Ec Hm Hres Hr Hn];
    subst.
  destruct Hres as [(Hf & -> & Hx) | (Hf & _)]; [| discriminate].
  injection Hf as <-. destruct Hm as (Md & Mc & Mp & Mv).
  destruct (encontrar_doctor_fila _ _ _ Ed) as (d & Hd & <- & Vd).
  destruct (encontrar_cama_fila _ _ _ Ec) as (c & Hc & <- & Vc).
  exists doctor_id, cama_id, (fd_nombre d), (fc_numero c).
  cbn [base asignada DOCTORES CAMAS_ATENCION VISITAS_EMERGENCIA PACIENTES bloqueos_locales].
  rewrite Md, Mc, Mp, Mv in *.
  split; [exact Ed |]. split; [exact Ec |].
  split.
  { apply map_eq. intros k. destruct (decide (k = doctor_id)) as [->|Hk].
    - rewrite lookup_alter_eq, lookup_insert_eq, Hd. reflexivity.
    - rewrite lookup_alter_ne, lookup_insert_ne by congruence. reflexivity. }
  split.
  { apply map_eq. intros k. destruct (decide (k = cama_id)) as [->|Hk].
    - rewrite lookup_alter_eq, lookup_insert_eq, Hc. reflexivity.
    - rewrite lookup_alter_ne, lookup_insert_ne by congruence. reflexivity. }
  split; [exact Hx |]. split; [reflexivity |]. split; [reflexivity |].
  split; [rewrite verificar_doctor; unfold asignada; cbn [DOCTORES];
          rewrite ?Md, lookup_alter_eq, Hd; reflexivity |].
  split; [rewrite verificar_cama; unfold asignada; cbn [CAMAS_ATENCION];
          rewrite ?Mc, lookup_alter_eq, Hc; reflexivity |].
  split.
  - destruct (decide (clave "DOCTOR" doctor_id = clave "CAMA" cama_id)) as [E|E].
    + rewrite E. apply lookup_delete_eq.
    + rewrite lookup_delete_ne by congruence. apply lookup_delete_eq.
  - apply lookup_delete_eq.
Qed.

(** X29: When the call returns nothing, whatever the reason (no doctor, no
    bed, a lock refused, no consensus, a folio already stored), the
    doctors, beds, patients and visits are exactly as before; only the
    counter may have advanced. *)
Theorem distribuir_failure_changes_no_resource (t_doctor t_cama t_visita timestamp : Z)
  (c_doctor c_cama : list (Remoto * Respuesta))
  (respuestas : nat -> list (Remoto * Respuesta))
  (c_asignar : list (Remoto * Respuesta)) (paciente_id : Z) (n n' : Nodo) :
  distribuir_visita_automaticamente t_doctor t_cama t_visita timestamp c_doctor c_cama
    respuestas c_asignar paciente_id n = (None, n') ->
  mismas_tablas (base n) (base n').
Proof.
  intros H.
  pose proof (distribuir_desenlace t_doctor t_cama t_visita timestamp c_doctor c_cama
                respuestas c_asignar paciente_id n) as D. cbv zeta in D.
  rewrite H in D. cbn [fst snd] in D.
  inversion D as [| |doctor_id cama_id nombre numero folio' b3 b4 res Ed Ec Hm Hres Hr Hn];
    subst; cbn [base]; try apply mismas_tablas_refl.
  destruct Hres as [(Hf & _) | (_ & ->)]; [discriminate | exact Hm].
Qed.

(** On [Escenarios.nodo_libre], with one remote node that approves
    everything, patient 12 gets doctor 7 and bed 3 under folio 12755551. *)
Lemma distribuir_success_example :
  let si := [(Escenarios.remoto_a, Recibido "BLOQUEO_APROBADO")] in
  let ok := [(Escenarios.remoto_a, Recibido "CONSENSO_OK")] in
  let r := distribuir_visita_automaticamente 10 11 12 1700000000 si si (fun _ => ok) ok 12
             Escenarios.nodo_libre in
  fst r = Some "12755551"%string /\
  verificar_recurso_local "DOCTOR" 7 (base (snd r)) = false /\
  bloqueos_locales (snd r) !! clave "DOCTOR" 7 = None /\
  VISITAS_EMERGENCIA (base (snd r))
  = [mkFilaVisita "12755551" 12 7 3 5555 12 "En tratamiento"].
Proof.
  eassert (E : distribuir_visita_automaticamente 10 11 12 1700000000
                 [(Escenarios.remoto_a, Recibido "BLOQUEO_APROBADO")]
                 [(Escenarios.remoto_a, Recibido "BLOQUEO_APROBADO")]
                 (fun _ => [(Escenarios.remoto_a, Recibido "CONSENSO_OK")])
                 [(Escenarios.remoto_a, Recibido "CONSENSO_OK")] 12 Escenarios.nodo_libre
               = (Some "12755551"%string, _)) by (vm_compute; reflexivity).
  destruct (distribuir_success_effects _ _ _ _ _ _ _ _ _ _ _ _ E)
    as (i & j & nombre & numero & Hd & Hc & _ & _ & _ & Hv & _ & Vd & _ & Ld & _).
  assert (Hi : i = 7) by (vm_compute in Hd; congruence).
  assert (Hj : j = 3) by (vm_compute in Hc; congruence).
  subst i j. cbv zeta. rewrite E. cbn [fst snd].
  split; [reflexivity |]. split; [exact Vd |]. split; [exact Ld |]. exact Hv.
Defined.

(** The same call when the remote node refuses the bed: nothing is
    returned and the tables are as before. *)
Lemma distribuir_failure_example :
  let si := [(Escenarios.remoto_a, Recibido "BLOQUEO_APROBADO")] in
  let no := [(Escenarios.remoto_a, Recibido "BLOQUEO_RECHAZADO")] in
  let ok := [(Escenarios.remoto_a, Recibido "CONSENSO_OK")] in
  let r := distribuir_visita_automaticamente 10 11 12 1700000000 si no (fun _ => ok) ok 12
             Escenarios.nodo_libre in
  fst r = None /\ mismas_tablas (base Escenarios.nodo_libre) (base (snd r)).
Proof.
  eassert (E : distribuir_visita_automaticamente 10 11 12 1700000000
                 [(Escenarios.remoto_a, Recibido "BLOQUEO_APROBADO")]
                 [(Escenarios.remoto_a, Recibido "BLOQUEO_RECHAZADO")]
                 (fun _ => [(Escenarios.remoto_a, Recibido "CONSENSO_OK")])
                 [(Escenarios.remoto_a, Recibido "CONSENSO_OK")] 12 Escenarios.nodo_libre
               = (None, _)) by (vm_compute; reflexivity).
  pose proof (distribuir_failure_changes_no_resource _ _ _ _ _ _ _ _ _ _ _ E) as M.
  cbv zeta. rewrite E. cbn [fst snd]. split; [reflexivity | exact M].
Defined.

End Distribucion.
